(** * win-way: the WSL Wayland proxy (wsl-proxy.py), embedded in Rocq

    A shallow embedding of [WaylandClient] and [WaylandProxy]: the wire
    codec, the per-connection tables, the interface handlers, the frame
    extractor [send_pixl], the input injector [broadcast_input] and the
    per-connection part of the [run_stdio] loop.

    Conventions.
    - Python integers are unbounded: they are [Z].  Bytes objects are
      [list byte]; [struct.pack('<I', v)] is [le_split 4 v] guarded by the
      range check that makes [struct] raise.
    - A Python [str] is represented by the Rocq [string] made of its UTF-8
      bytes, so [encode('utf-8')] is [list_byte_of_string] and
      [decode('utf-8')] checks well-formedness and raises otherwise.
    - Dictionaries keep insertion order ([try_focus] and [broadcast_input]
      iterate over them), so they are association lists.
    - Handlers run in a small monad that threads the connection, collects
      the input/output events they perform and propagates exceptions.
    - Diagnostics written to stderr by [log] are not part of the model. *)

From Stdlib Require Import ZArith List Lia Bool String Ascii Sorted.
From coqutil Require Import Byte Word.LittleEndianList.
Import ListNotations.
Local Open Scope Z_scope.

(** ** Python sequences *)

Definition bytes := list byte.

Definition len {A} (l : list A) : Z := Z.of_nat (List.length l).

(** [l[i:j]] with Python's treatment of negative and overlong indices. *)
Definition clip (n k : Z) : Z :=
  if k <? 0 then Z.max 0 (n + k) else Z.min k n.

Definition py_slice {A} (l : list A) (i j : Z) : list A :=
  let a := clip (len l) i in
  let b := clip (len l) j in
  skipn (Z.to_nat a) (firstn (Z.to_nat b) l).

(** ** struct *)

Definition u32_max : Z := 4294967295.

Definition is_u32 (v : Z) : bool := (0 <=? v) && (v <=? u32_max).

(** [struct.pack('<I', v)]; [None] is [struct.error]. *)
Definition pack_I (v : Z) : option bytes :=
  if is_u32 v then Some (le_split 4 v) else None.

(** [struct.unpack('<I', b)[0]]: the buffer must hold exactly 4 bytes. *)
Definition unpack_I (b : bytes) : option Z :=
  if (List.length b =? 4)%nat then Some (le_combine b) else None.

(** [struct.unpack('<i', b)[0]]. *)
Definition unpack_i (b : bytes) : option Z :=
  match unpack_I b with
  | Some u => Some (if u <? 2147483648 then u else u - 4294967296)
  | None => None
  end.

(** ** Insertion-ordered dictionaries keyed by integers *)

Definition dict (V : Type) := list (Z * V).

Fixpoint dict_get {V} (k : Z) (d : dict V) : option V :=
  match d with
  | [] => None
  | (k', v) :: d' => if k' =? k then Some v else dict_get k d'
  end.

Definition dict_mem {V} (k : Z) (d : dict V) : bool :=
  match dict_get k d with Some _ => true | None => false end.

(** [d[k] = v]: an existing key keeps its position, a new one goes last. *)
Fixpoint dict_set {V} (k : Z) (v : V) (d : dict V) : dict V :=
  match d with
  | [] => [(k, v)]
  | (k', v') :: d' =>
      if k' =? k then (k, v) :: d' else (k', v') :: dict_set k v d'
  end.

(** [del d[k]] for a key that may be absent (callers test membership). *)
Fixpoint dict_del {V} (k : Z) (d : dict V) : dict V :=
  match d with
  | [] => []
  | (k', v') :: d' => if k' =? k then d' else (k', v') :: dict_del k d'
  end.

(** ** UTF-8 well-formedness, as checked by [bytes.decode('utf-8')] *)

Definition in_range (lo hi : Z) (b : byte) : bool :=
  (lo <=? byte.unsigned b) && (byte.unsigned b <=? hi).

Definition cont (b : byte) : bool := in_range 128 191 b.

Fixpoint utf8_valid (l : bytes) : bool :=
  match l with
  | [] => true
  | b0 :: l1 =>
      if in_range 0 127 b0 then utf8_valid l1
      else match l1 with
      | [] => false
      | b1 :: l2 =>
          if in_range 194 223 b0 then cont b1 && utf8_valid l2
          else match l2 with
          | [] => false
          | b2 :: l3 =>
              if in_range 224 239 b0 then
                (if in_range 224 224 b0 then in_range 160 191 b1
                 else if in_range 237 237 b0 then in_range 128 159 b1
                 else cont b1)
                && cont b2 && utf8_valid l3
              else match l3 with
              | [] => false
              | b3 :: l4 =>
                  in_range 240 244 b0
                  && (if in_range 240 240 b0 then in_range 144 191 b1
                      else if in_range 244 244 b0 then in_range 128 143 b1
                      else cont b1)
                  && cont b2 && cont b3 && utf8_valid l4
              end
          end
      end
  end.

(** [b.decode('utf-8')]; [None] is [UnicodeDecodeError]. *)
Definition decode_utf8 (b : bytes) : option string :=
  if utf8_valid b then Some (string_of_list_byte b) else None.

Definition encode_utf8 (s : string) : bytes := list_byte_of_string s.

(** [s.strip('\x00')]: U+0000 is the only character whose encoding
    contains a zero byte, so stripping acts on the zero bytes at both ends. *)
Fixpoint lstrip_nul (l : bytes) : bytes :=
  match l with
  | b :: l' => if Byte.eqb b Byte.x00 then lstrip_nul l' else l
  | [] => []
  end.

Definition strip_nul (s : string) : string :=
  string_of_list_byte
    (rev (lstrip_nul (rev (lstrip_nul (list_byte_of_string s))))).

(** ** Wire codec *)

Definition HEADER_SIZE : Z := 8.

(** Values handed to [encode_message]: [int], [str] or [bytes]. *)
Inductive pyval :=
| PyInt (z : Z)
| PyStr (s : string)
| PyBytes (b : bytes).

(** [decode_header]; the all-[None] answer for a short buffer is [None]. *)
Definition decode_header (data : bytes) : option (Z * Z * Z) * bytes :=
  if len data <? HEADER_SIZE then (None, data)
  else
    match unpack_I (py_slice data 0 4), unpack_I (py_slice data 4 8) with
    | Some object_id, Some opcode_and_size =>
        let size := Z.shiftr opcode_and_size 16 in
        let opcode := Z.land opcode_and_size 65535 in
        (Some (object_id, opcode, size), py_slice data HEADER_SIZE (len data))
    | _, _ => (None, data)
    end.

Definition read_uint (data : bytes) (offset : Z) : option (Z * Z) :=
  match unpack_I (py_slice data offset (offset + 4)) with
  | Some v => Some (v, offset + 4)
  | None => None
  end.

Definition read_int (data : bytes) (offset : Z) : option (Z * Z) :=
  match unpack_i (py_slice data offset (offset + 4)) with
  | Some v => Some (v, offset + 4)
  | None => None
  end.

Definition read_string (data : bytes) (offset : Z) : option (string * Z) :=
  match read_uint data offset with
  | Some (length, offset) =>
      match decode_utf8 (py_slice data offset (offset + length - 1)) with
      | Some s =>
          let padding := (4 - (length mod 4)) mod 4 in
          Some (strip_nul s, offset + length + padding)
      | None => None
      end
  | None => None
  end.

Definition encode_arg (arg : pyval) : option bytes :=
  match arg with
  | PyInt z => pack_I (Z.land z 4294967295)
  | PyStr s =>
      let encoded := encode_utf8 s ++ [Byte.x00] in
      let padding := (4 - (len encoded mod 4)) mod 4 in
      match pack_I (len encoded) with
      | Some l => Some (l ++ encoded ++ repeat Byte.x00 (Z.to_nat padding))
      | None => None
      end
  | PyBytes b => Some b
  end.

Fixpoint encode_payload (args : list pyval) : option bytes :=
  match args with
  | [] => Some []
  | arg :: args' =>
      match encode_arg arg, encode_payload args' with
      | Some b, Some p => Some (b ++ p)
      | _, _ => None
      end
  end.

(** [encode_message]; [None] is a [struct.error] from one of the packs. *)
Definition encode_message (object_id opcode : Z) (args : list pyval)
  : option bytes :=
  match encode_payload args with
  | Some payload =>
      let size := HEADER_SIZE + len payload in
      match pack_I object_id,
            pack_I (Z.lor (Z.shiftl size 16) (Z.land opcode 65535)) with
      | Some h1, Some h2 => Some (h1 ++ h2 ++ payload)
      | _, _ => None
      end
  | None => None
  end.

(** ** Connection state *)

Definition GLOBALS : list (Z * string * Z) :=
  [ (1, "wl_compositor"%string, 4);
    (2, "wl_subcompositor"%string, 1);
    (3, "wl_shm"%string, 1);
    (4, "xdg_wm_base"%string, 1);
    (5, "wl_seat"%string, 5);
    (6, "wl_output"%string, 3);
    (7, "wl_data_device_manager"%string, 3) ].

Definition SHM_FORMAT_ARGB8888 : Z := 0.
Definition SHM_FORMAT_XRGB8888 : Z := 1.

Inductive transport := tcp | stdio.

(** The fields of [WaylandProxy] that the connection code reads;
    [tcp_socket] is [None] in the source, here [false]. *)
Record WaylandProxy := {
  mode : transport;
  tcp_socket : bool
}.

(** [(pool_id, offset, w, h, stride, fmt)] *)
Definition buffer := (Z * Z * Z * Z * Z * Z)%type.

(** [(fd, mm, size)]; the mapped view is represented by its content, which
    stays as it was when the view was created. *)
Definition pool := (Z * option bytes * Z)%type.

(** [WaylandClient], together with the [fds] list that [run_stdio] hands
    to [handle_message] (a list object shared with [handle_shm]). *)
Record WaylandClient := {
  proxy : WaylandProxy;
  objects : dict (string * Z);
  surfaces : dict (option Z);
  buffers : dict buffer;
  shm_pools : dict pool;
  serial : Z;
  fds : list Z
}.

Definition new_client (p : WaylandProxy) : WaylandClient :=
  {| proxy := p;
     objects := [(1, ("wl_display"%string, 1))];
     surfaces := [];
     buffers := [];
     shm_pools := [];
     serial := 0;
     fds := [] |}.

Definition with_objects (f : dict (string * Z) -> dict (string * Z))
  (c : WaylandClient) : WaylandClient :=
  {| proxy := proxy c; objects := f (objects c); surfaces := surfaces c;
     buffers := buffers c; shm_pools := shm_pools c; serial := serial c;
     fds := fds c |}.

Definition with_surfaces (f : dict (option Z) -> dict (option Z))
  (c : WaylandClient) : WaylandClient :=
  {| proxy := proxy c; objects := objects c; surfaces := f (surfaces c);
     buffers := buffers c; shm_pools := shm_pools c; serial := serial c;
     fds := fds c |}.

Definition with_buffers (f : dict buffer -> dict buffer)
  (c : WaylandClient) : WaylandClient :=
  {| proxy := proxy c; objects := objects c; surfaces := surfaces c;
     buffers := f (buffers c); shm_pools := shm_pools c; serial := serial c;
     fds := fds c |}.

Definition with_shm_pools (f : dict pool -> dict pool)
  (c : WaylandClient) : WaylandClient :=
  {| proxy := proxy c; objects := objects c; surfaces := surfaces c;
     buffers := buffers c; shm_pools := f (shm_pools c); serial := serial c;
     fds := fds c |}.

Definition with_serial (s : Z) (c : WaylandClient) : WaylandClient :=
  {| proxy := proxy c; objects := objects c; surfaces := surfaces c;
     buffers := buffers c; shm_pools := shm_pools c; serial := s;
     fds := fds c |}.

Definition with_fds (l : list Z) (c : WaylandClient) : WaylandClient :=
  {| proxy := proxy c; objects := objects c; surfaces := surfaces c;
     buffers := buffers c; shm_pools := shm_pools c; serial := serial c;
     fds := l |}.

(** ** Effects *)

Inductive event :=
| ClientSend (data : bytes)   (* [sock.sendall] on the client socket *)
| HostWrite (data : bytes)    (* [sys.stdout.buffer.write] *)
| HostFlush                   (* [sys.stdout.buffer.flush] *)
| TcpSend (data : bytes)      (* [tcp_socket.sendall] *)
| Mmap (fd : Z)               (* a successful [mmap.mmap] of [fd] *)
| MmClose (fd : Z)            (* [mm.close()] of the view of [fd] *)
| OsClose (fd : Z)            (* [os.close(fd)] *)
| SockClose                   (* [sock.close()] *)
| Issue (ser : Z).            (* ghost: [next_serial] returned [ser] *)

Inductive result (A : Type) :=
| Val (a : A)     (* normal return *)
| Exc             (* a Python exception is propagating *)
| OutOfFuel.      (* the loop bound was hit: never, [run_terminates] *)

Arguments Val {A} a.
Arguments Exc {A}.
Arguments OutOfFuel {A}.

Definition M (A : Type) : Type :=
  WaylandClient -> result A * WaylandClient * list event.

Definition ret {A} (a : A) : M A := fun st => (Val a, st, []).

(** What a computation did is recorded after what came before it. *)
Definition after {A} (tr1 : list event)
  (x : result A * WaylandClient * list event)
  : result A * WaylandClient * list event :=
  match x with (r, st2, tr2) => (r, st2, tr1 ++ tr2) end.

Definition bind {A B} (m : M A) (k : A -> M B) : M B :=
  fun st =>
    match m st with
    | (Val a, st1, tr1) => after tr1 (k a st1)
    | (Exc, st1, tr1) => (Exc, st1, tr1)
    | (OutOfFuel, st1, tr1) => (OutOfFuel, st1, tr1)
    end.

Definition raise {A} : M A := fun st => (Exc, st, []).

Definition emit (e : event) : M unit := fun st => (Val tt, st, [e]).

Definition get : M WaylandClient := fun st => (Val st, st, []).

Definition modify (f : WaylandClient -> WaylandClient) : M unit :=
  fun st => (Val tt, f st, []).

(** [try: m  except: h] *)
Definition try_except {A} (m : M A) (h : M A) : M A :=
  fun st =>
    match m st with
    | (Exc, st1, tr1) => after tr1 (h st1)
    | other => other
    end.

Definition lift {A} (o : option A) : M A :=
  match o with Some a => ret a | None => raise end.

Declare Scope monad_scope.
Delimit Scope monad_scope with monad.
Notation "x <- m ;; k" := (bind m (fun x => k))
  (at level 61, m at next level, right associativity) : monad_scope.
Notation "' pat <- m ;; k" :=
  (bind m (fun x => match x with pat => k end))
  (at level 61, pat pattern, m at next level, right associativity)
  : monad_scope.
Notation "m ;; k" := (bind m (fun _ => k))
  (at level 61, right associativity) : monad_scope.
Local Open Scope monad_scope.

(** [for x in l: f x] *)
Fixpoint for_each {A} (l : list A) (f : A -> M unit) : M unit :=
  match l with
  | [] => ret tt
  | x :: l' => f x ;; for_each l' f
  end.

(** [for x in l: res.append(f x)] *)
Fixpoint collect {A B} (l : list A) (f : A -> M B) : M (list B) :=
  match l with
  | [] => ret []
  | x :: l' => y <- f x ;; ys <- collect l' f ;; ret (y :: ys)
  end.

Definition set_object (id : Z) (info : string * Z) : M unit :=
  modify (with_objects (dict_set id info)).

Definition del_object (id : Z) : M unit :=
  modify (with_objects (dict_del id)).

(** [WaylandClient.next_serial].  The value returned is also recorded as
    a ghost event, which performs no input or output. *)
Definition next_serial : M Z :=
  st <- get ;;
  modify (with_serial (serial st + 1)) ;;
  emit (Issue (serial st + 1)) ;;
  ret (serial st + 1).

(** [WaylandClient.send]: errors of [sendall] are swallowed. *)
Definition send (data : bytes) : M unit := emit (ClientSend data).

Definition first_key {V} (d : dict V) : option Z :=
  match d with [] => None | (k, _) :: _ => Some k end.

(** [WaylandClient.try_focus] *)
Definition try_focus : M unit :=
  st <- get ;;
  match first_key (surfaces st) with
  | None => ret tt
  | Some sid =>
      if sid =? 0 then ret tt
      else
        for_each (objects st) (fun '(obj_id, (iface, ver)) =>
          if String.eqb iface "wl_keyboard" then
            ser <- next_serial ;;
            m <- lift (encode_message obj_id 4
                         [PyInt ser; PyInt sid; PyBytes []]) ;;
            send m
          else if String.eqb iface "wl_pointer" then
            ser <- next_serial ;;
            m <- lift (encode_message obj_id 4
                         [PyInt ser; PyInt sid; PyInt 0; PyInt 0]) ;;
            send m
          else ret tt)
  end.

(** ** Frame extractor *)

(** The first loop of [send_pixl]:
    [for y in range(h): off_y = off + y*stride;
       if off_y + row > sz: break; total_len += row]. *)
Fixpoint pixl_total (n : nat) (y off stride row sz total_len : Z) : Z :=
  match n with
  | O => total_len
  | S n' =>
      let off_y := off + y * stride in
      if off_y + row >? sz then total_len
      else pixl_total n' (y + 1) off stride row sz (total_len + row)
  end.

(** [mm.seek(pos)] raises [ValueError] outside [0 .. len(mm)]. *)
Definition mm_seek (mm : bytes) (pos : Z) : M unit :=
  if (pos <? 0) || (len mm <? pos) then raise else ret tt.

(** [mm.read(n)] at position [pos]: at most [n] bytes, all that is left
    when [n] is negative. *)
Definition mm_read (mm : bytes) (pos n : Z) : bytes :=
  let rest := skipn (Z.to_nat pos) mm in
  if n <? 0 then rest else firstn (Z.to_nat n) rest.

(** The copying loop of [send_pixl], writing each row to [sink]. *)
Fixpoint pixl_rows (sink : bytes -> event) (mm : bytes)
  (n : nat) (y off stride row sz : Z) : M unit :=
  match n with
  | O => ret tt
  | S n' =>
      let off_y := off + y * stride in
      if off_y + row >? sz then ret tt
      else
        mm_seek mm off_y ;;
        emit (sink (mm_read mm off_y row)) ;;
        pixl_rows sink mm n' (y + 1) off stride row sz
  end.

(** [struct.pack('<4sIIIII', b'PIXL', sid, w, h, fmt, total_len)] *)
Definition pixl_header (sid w h fmt total_len : Z) : option bytes :=
  match pack_I sid, pack_I w, pack_I h, pack_I fmt, pack_I total_len with
  | Some a, Some b, Some c, Some d, Some e =>
      Some (list_byte_of_string "PIXL" ++ a ++ b ++ c ++ d ++ e)
  | _, _, _, _, _ => None
  end.

Definition mm_truthy (mm : option bytes) : bool :=
  match mm with Some (_ :: _) => true | _ => false end.

(** [WaylandProxy.send_pixl] *)
Definition send_pixl (sid : Z) (buf : buffer) (pools : dict pool) : M unit :=
  let '(pid, off, w, h, stride, fmt) := buf in
  match dict_get pid pools with
  | None => ret tt
  | Some (fd, mm, sz) =>
      match mm with
      | Some view =>
          if negb (mm_truthy mm) then ret tt
          else
            try_except
              (let row := w * 4 in
               if off + stride * h >? sz then ret tt
               else
                 let total_len :=
                   pixl_total (Z.to_nat h) 0 off stride row sz 0 in
                 hdr <- lift (pixl_header sid w h fmt total_len) ;;
                 st <- get ;;
                 match mode (proxy st) with
                 | stdio =>
                     emit (HostWrite hdr) ;;
                     pixl_rows HostWrite view (Z.to_nat h) 0 off stride row sz ;;
                     emit HostFlush
                 | tcp =>
                     if tcp_socket (proxy st) then
                       emit (TcpSend hdr) ;;
                       pixl_rows TcpSend view (Z.to_nat h) 0 off stride row sz
                     else ret tt
                 end)
              (ret tt)
      | None => ret tt
      end
  end.

(** ** Interface handlers *)

Section Handlers.

(** [mmap.mmap(fd, size, MAP_SHARED, PROT_READ)]: the content of the view,
    or [None] when the call raises. *)
Variable mmap : Z -> Z -> option bytes.

(** [int(time.time()*1000)] while the call runs. *)
Variable now : Z.

Definition handle_display (opcode : Z) (payload : bytes) : M (list bytes) :=
  if opcode =? 0 then
    '(cb_id, pos) <- lift (read_uint payload 0) ;;
    set_object cb_id ("wl_callback"%string, 1) ;;
    m <- lift (encode_message cb_id 0 [PyInt (Z.land now 4294967295)]) ;;
    del_object cb_id ;;
    ret [m]
  else if opcode =? 1 then
    '(reg_id, pos) <- lift (read_uint payload 0) ;;
    set_object reg_id ("wl_registry"%string, 1) ;;
    collect GLOBALS (fun '(name, interface, version) =>
      lift (encode_message reg_id 0
              [PyInt name; PyStr interface; PyInt version]))
  else ret [].

Definition handle_registry (oid op : Z) (pay : bytes) : M (list bytes) :=
  if op =? 0 then
    '(name, pos) <- lift (read_uint pay 0) ;;
    '(iface, pos) <- lift (read_string pay pos) ;;
    '(ver, pos) <- lift (read_uint pay pos) ;;
    '(nid, pos) <- lift (read_uint pay pos) ;;
    set_object nid (iface, ver) ;;
    if String.eqb iface "wl_shm" then
      m1 <- lift (encode_message nid 0 [PyInt SHM_FORMAT_ARGB8888]) ;;
      m2 <- lift (encode_message nid 0 [PyInt SHM_FORMAT_XRGB8888]) ;;
      ret [m1; m2]
    else if String.eqb iface "wl_seat" then
      m1 <- lift (encode_message nid 0 [PyInt 3]) ;;
      m2 <- lift (encode_message nid 1 [PyStr "win-way-seat"]) ;;
      ret [m1; m2]
    else if String.eqb iface "wl_output" then
      m1 <- lift (encode_message nid 0
                    [PyInt 0; PyInt 0; PyInt 1920; PyInt 1080; PyInt 0;
                     PyStr "WinWay"; PyStr "Monitor"; PyInt 0]) ;;
      m2 <- lift (encode_message nid 1
                    [PyInt 3; PyInt 1920; PyInt 1080; PyInt 60000]) ;;
      if ver >=? 2 then
        m3 <- lift (encode_message nid 3 [PyInt 1]) ;;
        m4 <- lift (encode_message nid 2 []) ;;
        ret [m1; m2; m3; m4]
      else ret [m1; m2]
    else ret []
  else ret [].

Definition handle_compositor (oid op : Z) (pay : bytes) : M (list bytes) :=
  if op =? 0 then
    '(sid, pos) <- lift (read_uint pay 0) ;;
    set_object sid ("wl_surface"%string, 4) ;;
    try_focus ;;
    ret []
  else if op =? 1 then
    '(rid, pos) <- lift (read_uint pay 0) ;;
    set_object rid ("wl_region"%string, 1) ;;
    ret []
  else ret [].

Definition handle_subcompositor (oid op : Z) (pay : bytes)
  : M (list bytes) :=
  if op =? 0 then
    del_object oid ;; ret []
  else if op =? 1 then
    '(sub_id, pos) <- lift (read_uint pay 0) ;;
    '(surf_id, pos) <- lift (read_uint pay pos) ;;
    '(parent_id, pos) <- lift (read_uint pay pos) ;;
    set_object sub_id ("wl_subsurface"%string, 1) ;;
    ret []
  else ret [].

Definition handle_region (oid op : Z) (pay : bytes) : M (list bytes) :=
  if op =? 0 then del_object oid ;; ret [] else ret [].

Definition handle_data_device_manager (oid op : Z) (pay : bytes)
  : M (list bytes) :=
  if op =? 0 then
    '(id, pos) <- lift (read_uint pay 0) ;;
    '(seat, pos) <- lift (read_uint pay pos) ;;
    set_object id ("wl_data_device"%string, 3) ;;
    ret []
  else if op =? 1 then
    '(id, pos) <- lift (read_uint pay 0) ;;
    set_object id ("wl_data_source"%string, 3) ;;
    ret []
  else ret [].

Definition handle_shm (oid op : Z) (pay : bytes) : M (list bytes) :=
  if op =? 0 then
    '(pid, pos) <- lift (read_uint pay 0) ;;
    '(size, pos) <- lift (read_uint pay pos) ;;
    st <- get ;;
    match fds st with
    | fd :: rest =>
        modify (with_fds rest) ;;
        match mmap fd size with
        | Some mm =>
            emit (Mmap fd) ;;
            modify (with_shm_pools (dict_set pid (fd, Some mm, size)))
        | None =>
            modify (with_shm_pools (dict_set pid (fd, None, size)))
        end
    | [] => ret tt
    end ;;
    set_object pid ("wl_shm_pool"%string, 1) ;;
    ret []
  else ret [].

(** The release of a pool: [if mm: mm.close()], [if fd >= 0: os.close(fd)]. *)
Definition release_pool (p : pool) : M unit :=
  let '(fd, mm, sz) := p in
  (if mm_truthy mm then emit (MmClose fd) else ret tt) ;;
  (if fd >=? 0 then emit (OsClose fd) else ret tt).

Definition handle_shm_pool (oid op : Z) (pay : bytes) : M (list bytes) :=
  if op =? 0 then
    '(bid, pos) <- lift (read_uint pay 0) ;;
    '(off, pos) <- lift (read_int pay pos) ;;
    '(w, pos) <- lift (read_int pay pos) ;;
    '(h, pos) <- lift (read_int pay pos) ;;
    '(stride, pos) <- lift (read_int pay pos) ;;
    '(fmt, pos) <- lift (read_uint pay pos) ;;
    set_object bid ("wl_buffer"%string, 1) ;;
    modify (with_buffers (dict_set bid (oid, off, w, h, stride, fmt))) ;;
    ret []
  else if op =? 1 then
    st <- get ;;
    match dict_get oid (shm_pools st) with
    | Some p =>
        modify (with_shm_pools (dict_del oid)) ;;
        release_pool p ;;
        ret []
    | None => ret []
    end
  else ret [].

Definition handle_buffer (oid op : Z) (pay : bytes) : M (list bytes) :=
  if op =? 0 then
    del_object oid ;;
    modify (with_buffers (dict_del oid)) ;;
    ret []
  else ret [].

(** [bid if bid != 0 else None] *)
Definition attached (bid : Z) : option Z :=
  if bid =? 0 then None else Some bid.

Definition handle_surface (oid op : Z) (pay : bytes) : M (list bytes) :=
  try_except
    (if op =? 0 then
       del_object oid ;;
       modify (with_surfaces (dict_del oid)) ;;
       ret []
     else if op =? 1 then
       if len pay <? 12 then
         if len pay >=? 4 then
           '(bid, pos) <- lift (read_uint pay 0) ;;
           modify (with_surfaces (dict_set oid (attached bid))) ;;
           ret []
         else ret []
       else
         '(bid, pos) <- lift (read_uint pay 0) ;;
         '(x, pos) <- lift (read_int pay pos) ;;
         '(y, pos) <- lift (read_int pay pos) ;;
         modify (with_surfaces (dict_set oid (attached bid))) ;;
         ret []
     else if op =? 3 then
       if len pay <? 4 then ret []
       else
         '(cb_id, pos) <- lift (read_uint pay 0) ;;
         set_object cb_id ("wl_callback"%string, 1) ;;
         m <- lift (encode_message cb_id 0 [PyInt (Z.land now 4294967295)]) ;;
         del_object cb_id ;;
         ret [m]
     else if op =? 6 then
       st <- get ;;
       match dict_get oid (surfaces st) with
       | Some (Some bid) =>
           if negb (bid =? 0) then
             match dict_get bid (buffers st) with
             | Some buf =>
                 send_pixl oid buf (shm_pools st) ;;
                 m <- lift (encode_message bid 0 []) ;;
                 ret [m]
             | None => ret []
             end
           else ret []
       | _ => ret []
       end
     else ret [])
    (ret []).

Definition handle_xdg_wm_base (oid op : Z) (pay : bytes) : M (list bytes) :=
  if op =? 2 then
    '(xdg_id, pos) <- lift (read_uint pay 0) ;;
    '(sid, pos) <- lift (read_uint pay pos) ;;
    set_object xdg_id ("xdg_surface"%string, 3) ;;
    ret []
  else ret [].

Definition handle_xdg_surface (oid op : Z) (pay : bytes) : M (list bytes) :=
  if op =? 1 then
    '(tid, pos) <- lift (read_uint pay 0) ;;
    set_object tid ("xdg_toplevel"%string, 3) ;;
    m1 <- lift (encode_message tid 0 [PyInt 800; PyInt 600; PyBytes []]) ;;
    ser <- next_serial ;;
    m2 <- lift (encode_message oid 0 [PyInt ser]) ;;
    try_focus ;;
    ret [m1; m2]
  else ret [].

Definition handle_xdg_toplevel (oid op : Z) (pay : bytes) : M (list bytes) :=
  ret [].

Definition handle_seat (oid op : Z) (pay : bytes) : M (list bytes) :=
  if op =? 0 then
    '(nid, pos) <- lift (read_uint pay 0) ;;
    set_object nid ("wl_pointer"%string, 1) ;;
    try_focus ;;
    ret []
  else if op =? 1 then
    '(nid, pos) <- lift (read_uint pay 0) ;;
    set_object nid ("wl_keyboard"%string, 1) ;;
    try_focus ;;
    ret []
  else ret [].

(** ** Dispatch *)

Definition dispatch (obj_type : string) (object_id opcode : Z)
  (payload : bytes) : M (list bytes) :=
  if String.eqb obj_type "wl_display" then handle_display opcode payload
  else if String.eqb obj_type "wl_registry" then
    handle_registry object_id opcode payload
  else if String.eqb obj_type "wl_compositor" then
    handle_compositor object_id opcode payload
  else if String.eqb obj_type "wl_shm" then
    handle_shm object_id opcode payload
  else if String.eqb obj_type "wl_shm_pool" then
    handle_shm_pool object_id opcode payload
  else if String.eqb obj_type "wl_buffer" then
    handle_buffer object_id opcode payload
  else if String.eqb obj_type "wl_surface" then
    handle_surface object_id opcode payload
  else if String.eqb obj_type "xdg_wm_base" then
    handle_xdg_wm_base object_id opcode payload
  else if String.eqb obj_type "xdg_surface" then
    handle_xdg_surface object_id opcode payload
  else if String.eqb obj_type "xdg_toplevel" then
    handle_xdg_toplevel object_id opcode payload
  else if String.eqb obj_type "wl_seat" then
    handle_seat object_id opcode payload
  else if String.eqb obj_type "wl_data_device_manager" then
    handle_data_device_manager object_id opcode payload
  else if String.eqb obj_type "wl_region" then
    handle_region object_id opcode payload
  else if String.eqb obj_type "wl_subcompositor" then
    handle_subcompositor object_id opcode payload
  else if String.eqb obj_type "wl_callback" then ret []
  else ret [].

(** The [while offset < len(data)] loop of [handle_message].  Every turn
    that continues advances [offset] by at least 8, so [fuel] bounds the
    number of turns; [handle_message] starts it with more than enough. *)
Fixpoint handle_loop (fuel : nat) (data : bytes) (offset : Z)
  (responses : list bytes) : M (list bytes) :=
  match fuel with
  | O => fun st => (OutOfFuel, st, [])
  | S fuel' =>
      if offset <? len data then
        if len data - offset <? HEADER_SIZE then ret responses
        else
          match fst (decode_header (py_slice data offset (len data))) with
          | None => raise
          | Some (object_id, opcode, size) =>
              if (size <? 8) || (len data - offset <? size) then
                ret responses
              else
                let payload :=
                  py_slice data (offset + HEADER_SIZE) (offset + size) in
                let offset := offset + size in
                st <- get ;;
                match dict_get object_id (objects st) with
                | None => handle_loop fuel' data offset responses
                | Some (obj_type, obj_version) =>
                    res <- dispatch obj_type object_id opcode payload ;;
                    handle_loop fuel' data offset (responses ++ res)
                end
          end
      else ret responses
  end.

(** [WaylandClient.handle_message(data, fds)] *)
Definition handle_message (data : bytes) (fds : list Z) : M bool :=
  modify (with_fds fds) ;;
  responses <- handle_loop (S (List.length data)) data 0 [] ;;
  for_each responses send ;;
  ret true.

(** ** Input injector *)

Fixpoint bytes_eqb (a b : bytes) : bool :=
  match a, b with
  | [], [] => true
  | x :: a', y :: b' => Byte.eqb x y && bytes_eqb a' b'
  | _, _ => false
  end.

(** [[k for k,v in cli.objects.items() if v[0] == iface]] *)
Definition objects_of (iface : string) (d : dict (string * Z)) : list Z :=
  map fst (filter (fun kv => String.eqb (fst (snd kv)) iface) d).

(** [WaylandProxy.broadcast_input], for the connection at hand: the body
    of [for cli in self.clients.values()] runs once on it. *)
Definition broadcast_input (data : bytes) : M unit :=
  if len data <? 20 then ret tt
  else if negb (bytes_eqb (py_slice data 0 4) (list_byte_of_string "INPT"))
  then ret tt
  else
    try_except
      (type_code <- lift (unpack_I (py_slice data 4 8)) ;;
       p1 <- lift (unpack_I (py_slice data 8 12)) ;;
       p2 <- lift (unpack_I (py_slice data 12 16)) ;;
       ser <- next_serial ;;
       let now := Z.land now 4294967295 in
       st <- get ;;
       let keys := objects_of "wl_keyboard" (objects st) in
       let ptrs := objects_of "wl_pointer" (objects st) in
       msgs <-
         (if type_code =? 1 then
            collect keys (fun k =>
              lift (encode_message k 3
                      [PyInt ser; PyInt now; PyInt p2; PyInt p1]))
          else if type_code =? 2 then
            let fx := p1 * 256 in
            let fy := p2 * 256 in
            collect ptrs (fun p =>
              lift (encode_message p 2 [PyInt now; PyInt fx; PyInt fy]))
          else if type_code =? 3 then
            collect ptrs (fun p =>
              lift (encode_message p 3
                      [PyInt ser; PyInt now; PyInt p2; PyInt p1]))
          else ret []) ;;
       for_each msgs send)
      (ret tt).

(** ** Teardown and the client branch of [run_stdio] *)

(** [WaylandClient.close] *)
Definition close : M unit :=
  st <- get ;;
  for_each (shm_pools st) (fun '(pid, p) => release_pool p) ;;
  emit SockClose.

(** One readiness turn of a client socket in [run_stdio]: [d] and
    [anc_fds] are what [recvmsg] returned (the descriptors already taken
    out of the [SCM_RIGHTS] control messages).  The answer tells whether
    the connection is still in [self.clients] afterwards. *)
Definition client_ready (d : bytes) (anc_fds : list Z) : M bool :=
  try_except
    (match d with
     | _ :: _ => handle_message d anc_fds ;; ret true
     | [] => raise
     end)
    (close ;; ret false).

End Handlers.

(** ** Runs of one connection *)

Inductive step :=
| ClientData (d : bytes) (anc_fds : list Z) (now : Z)
| HostInput (record : bytes) (now : Z).

Definition run_step (mmap : Z -> Z -> option bytes) (s : step) : M bool :=
  match s with
  | ClientData d anc_fds now => client_ready mmap now d anc_fds
  | HostInput record now => broadcast_input now record ;; ret true
  end.

(** The steps are taken while the connection is open. *)
Fixpoint run (mmap : Z -> Z -> option bytes) (l : list step) : M bool :=
  match l with
  | [] => ret true
  | s :: l' =>
      alive <- run_step mmap s ;;
      if (alive : bool) then run mmap l' else ret false
  end.

(** ** Reading a message back

    The source has no generic decoder: each handler reads its arguments
    with [read_uint], [read_int] and [read_string] in the order of the
    request's signature.  [decode_message] does the same for a signature
    given as a list of argument types. *)

Inductive argty := TUint | TInt | TString.

Definition read_arg (t : argty) (data : bytes) (pos : Z)
  : option (pyval * Z) :=
  match t with
  | TUint =>
      match read_uint data pos with
      | Some (v, p) => Some (PyInt v, p) | None => None
      end
  | TInt =>
      match read_int data pos with
      | Some (v, p) => Some (PyInt v, p) | None => None
      end
  | TString =>
      match read_string data pos with
      | Some (s, p) => Some (PyStr s, p) | None => None
      end
  end.

Fixpoint read_args (sig : list argty) (data : bytes) (pos : Z)
  : option (list pyval * Z) :=
  match sig with
  | [] => Some ([], pos)
  | t :: sig' =>
      match read_arg t data pos with
      | Some (a, p) =>
          match read_args sig' data p with
          | Some (l, q) => Some (a :: l, q)
          | None => None
          end
      | None => None
      end
  end.

(** The header is decoded with [decode_header], the size field must be the
    length of the message and the arguments must fill the payload. *)
Definition decode_message (sig : list argty) (msg : bytes)
  : option (Z * Z * list pyval) :=
  match decode_header msg with
  | (Some (object_id, opcode, size), payload) =>
      if size =? len msg then
        match read_args sig payload 0 with
        | Some (args, pos) =>
            if pos =? len payload then Some (object_id, opcode, args)
            else None
        | None => None
        end
      else None
  | (None, _) => None
  end.

(** Zero bytes at either end of a string are lost by [strip]. *)
Definition nul_ends (l : bytes) : bool :=
  match l with
  | b :: _ => Byte.eqb b Byte.x00
  | [] => false
  end
  || match rev l with
     | b :: _ => Byte.eqb b Byte.x00
     | [] => false
     end.

(** An argument that fits its wire type. *)
Definition arg_ok (t : argty) (a : pyval) : bool :=
  match t, a with
  | TUint, PyInt z => is_u32 z
  | TInt, PyInt z => (-2147483648 <=? z) && (z <=? 2147483647)
  | TString, PyStr s =>
      utf8_valid (encode_utf8 s) && negb (nul_ends (encode_utf8 s))
  | _, _ => false
  end.

Fixpoint args_ok (sig : list argty) (args : list pyval) : bool :=
  match sig, args with
  | [], [] => true
  | t :: sig', a :: args' => arg_ok t a && args_ok sig' args'
  | _, _ => false
  end.

(** Bytes an argument takes on the wire. *)
Definition arg_size (a : pyval) : Z :=
  match a with
  | PyInt _ => 4
  | PyStr s =>
      let n := len (encode_utf8 s) + 1 in
      4 + n + (4 - n mod 4) mod 4
  | PyBytes b => len b
  end.

Definition wire_size (args : list pyval) : Z :=
  HEADER_SIZE + fold_right (fun a n => arg_size a + n) 0 args.

(** ** The host channel in [run_stdio]

    The [while len(buf) >= 8] loop of the stdin branch, seen from one
    connection: [broadcast_input] and [cli.send(packet)] reach every
    client of the proxy, here the one at hand.  Every turn that goes on
    removes at least one byte from [buf], which bounds the turns.  The
    answer is the buffer that is left for the next read. *)
Fixpoint host_loop (now : Z) (fuel : nat) (buf : bytes) : M bytes :=
  match fuel with
  | O => fun st => (OutOfFuel, st, [])
  | S fuel' =>
      if len buf >=? 8 then
        if (len buf >=? 20)
           && bytes_eqb (py_slice buf 0 4) (list_byte_of_string "INPT")
        then
          broadcast_input now (py_slice buf 0 20) ;;
          host_loop now fuel' (py_slice buf 20 (len buf))
        else
          match unpack_I (py_slice buf 0 4), unpack_I (py_slice buf 4 8) with
          | Some oid, Some op_sz =>
              let size := Z.shiftr op_sz 16 in
              if size <? 8 then host_loop now fuel' (py_slice buf 1 (len buf))
              else if len buf >=? size then
                let packet := py_slice buf 0 size in
                send packet ;;
                host_loop now fuel' (py_slice buf size (len buf))
              else ret buf
          | _, _ => raise
          end
      else ret buf
  end.

(** One readiness turn of stdin: [d] is what [os.read] returned and [buf]
    what earlier turns left.  [None] is the end of the host channel, on
    which [run_stdio] returns. *)
Definition host_ready (now : Z) (buf d : bytes) : M (option bytes) :=
  match d with
  | [] => ret None
  | _ :: _ =>
      rest <- host_loop now (S (List.length (buf ++ d))) (buf ++ d) ;;
      ret (Some rest)
  end.

(** ** test_debug.py: the client side

    How the debugging client takes one event off its receive buffer and
    how it reads the arguments of [wl_registry.global]. *)

(** [oid, op_sz = unpack('<II', buf[:8])], [size = op_sz >> 16],
    [op = op_sz & 0xFFFF], [if len(buf) < size: break],
    [payload = buf[8:size]], [buf = buf[size:]];
    [None] when the loop stops for more data. *)
Definition debug_next_event (buf : bytes)
  : option (Z * Z * Z * bytes * bytes) :=
  if len buf >=? 8 then
    match unpack_I (py_slice buf 0 4), unpack_I (py_slice buf 4 8) with
    | Some oid, Some op_sz =>
        let size := Z.shiftr op_sz 16 in
        let op := Z.land op_sz 65535 in
        if len buf <? size then None
        else Some (oid, op, size, py_slice buf 8 size,
                   py_slice buf size (len buf))
    | _, _ => None
    end
  else None.

(** [name], [slen], [sval = payload[8:8+slen-1].decode('utf-8')],
    [padded = (slen + 3) & ~3], [ver]; [None] when a step raises. *)
Definition debug_read_global (payload : bytes) : option (Z * string * Z) :=
  match unpack_I (py_slice payload 0 4),
        unpack_I (py_slice payload 4 8) with
  | Some name, Some slen =>
      match decode_utf8 (py_slice payload 8 (8 + slen - 1)) with
      | Some sval =>
          let padded := Z.land (slen + 3) (Z.lnot 3) in
          match unpack_I (py_slice payload (8 + padded) (8 + padded + 4)) with
          | Some ver => Some (name, sval, ver)
          | None => None
          end
      | None => None
      end
  | _, _ => None
  end.

(** The request the client sends when it sees the global [wl_output]:
    [bind_payload = struct.pack('<I I', name, ib_len) + b"wl_output\x00\x00"
       + struct.pack('<II', 3, bind_id)] behind
    [struct.pack('<II', reg_id, (b_size << 16) | 0)], with [reg_id = 2],
    [ib_len = 10], [bind_id = 10] and [b_size = 8 + len(bind_payload)]. *)
Definition debug_bind_output (name : Z) : option bytes :=
  match pack_I name, pack_I 10, pack_I 3, pack_I 10 with
  | Some a, Some b, Some c, Some d =>
      let bind_payload :=
        (a ++ b) ++ list_byte_of_string "wl_output" ++ [Byte.x00; Byte.x00]
          ++ (c ++ d) in
      let b_size := 8 + len bind_payload in
      match pack_I 2, pack_I (Z.lor (Z.shiftl b_size 16) 0) with
      | Some h1, Some h2 => Some ((h1 ++ h2) ++ bind_payload)
      | _, _ => None
      end
  | _, _, _, _ => None
  end.

(** * Vocabulary of the statements *)

(** [wl_registry.global(name, interface, version)] on [reg_id], decoded. *)
Definition global_event (reg_id : Z) (g : Z * string * Z)
  : option (Z * Z * list pyval) :=
  let '(name, interface, version) := g in
  Some (reg_id, 0, [PyInt name; PyStr interface; PyInt version]).

(** The surface has no attached buffer id, or the id is detached or
    zero, or it is not in the buffer registry. *)
Definition no_live_buffer (st : WaylandClient) (oid : Z) : Prop :=
  match dict_get oid (surfaces st) with
  | None => True
  | Some None => True
  | Some (Some bid) => bid = 0 \/ dict_get bid (buffers st) = None
  end.

(** What [handle_message] does once its loop is over. *)
Definition send_responses
  (x : result (list bytes) * WaylandClient * list event)
  : result bool * WaylandClient * list event :=
  match x with
  | (Val responses, st, tr) => (Val true, st, tr ++ map ClientSend responses)
  | (Exc, st, tr) => (Exc, st, tr)
  | (OutOfFuel, st, tr) => (OutOfFuel, st, tr)
  end.

(** [wl_display.get_registry(reg_id)] as sent by a client. *)
Definition get_registry_request (reg_id : Z) : bytes :=
  le_split 4 1 ++ le_split 4 (Z.lor (Z.shiftl 12 16) 1) ++ le_split 4 reg_id.


(** [wl_buffer.release]: opcode 0 on the buffer, no argument. *)
Definition release_event (bid : Z) : bytes :=
  le_split 4 bid ++ le_split 4 (8 * 65536).


(** [range(n)] from [y] on. *)
Fixpoint zrange (y : Z) (n : nat) : list Z :=
  match n with
  | O => []
  | S n' => y :: zrange (y + 1) n'
  end.

(** Row [y] lies within the pool: [offset + y*stride + row <= pool_size]. *)
Definition row_fits (off stride row sz y : Z) : bool :=
  off + y * stride + row <=? sz.

(** The number of rows [y] of the buffer that lie within the pool. *)
Definition fitting_rows (off stride row sz h : Z) : nat :=
  List.length (filter (row_fits off stride row sz) (zrange 0 (Z.to_nat h))).

(** The bytes of row [y]: [pool_mapping[offset + y*stride .. +row]]. *)
Definition row_bytes (mm : bytes) (off stride row y : Z) : bytes :=
  py_slice mm (off + y * stride) (off + y * stride + row).

(** [b'PIXL'] *)
Definition pixl_magic : bytes := list_byte_of_string "PIXL".

(** The values [next_serial] returned, in the order of the calls. *)
Definition issued (tr : list event) : list Z :=
  flat_map (fun e => match e with Issue v => [v] | _ => [] end) tr.

(** [l] is strictly increasing, starts above [s], and [s'] is not below
    its last value ([s] when [l] is empty). *)
Fixpoint ascending (s : Z) (l : list Z) (s' : Z) : Prop :=
  match l with
  | [] => s <= s'
  | v :: l' => s < v /\ ascending v l' s'
  end.

(** A computation that only moves the counter by issuing serials. *)
Definition tidy {A} (m : M A) : Prop :=
  forall st r st' tr,
    m st = (r, st', tr) -> ascending (serial st) (issued tr) (serial st').

(** A key record from the host: ["INPT"], type 1, [p1], [p2], reserved. *)
Definition key_record (p1 p2 : Z) (reserved : bytes) : bytes :=
  list_byte_of_string "INPT" ++ le_split 4 1 ++ le_split 4 p1
    ++ le_split 4 p2 ++ reserved.

(** The proxy as [run_stdio] sets it up. *)
Definition stdio_proxy : WaylandProxy :=
  {| mode := stdio; tcp_socket := false |}.

(** No descriptor can be mapped. *)
Definition no_mmap : Z -> Z -> option bytes := fun _ _ => None.

(** A request as a client lays it out. *)
Definition request (object_id opcode : Z) (payload : bytes) : bytes :=
  le_split 4 object_id
    ++ le_split 4 (Z.lor (Z.shiftl (8 + len payload) 16) opcode)
    ++ payload.

(** [wl_registry.bind(name, interface, version, new_id)] on registry 2. *)
Definition bind_request (name : Z) (interface : string) (version new_id : Z)
  : bytes :=
  match encode_message 2 0
          [PyInt name; PyStr interface; PyInt version; PyInt new_id] with
  | Some m => m
  | None => []
  end.

(** The connection and the events of an outcome. *)
Definition state_of {A} (x : result A * WaylandClient * list event)
  : WaylandClient := snd (fst x).

Definition trace_of {A} (x : result A * WaylandClient * list event)
  : list event := snd x.

(** The messages sent to the client, in order. *)
Definition sent (tr : list event) : list bytes :=
  flat_map (fun e => match e with ClientSend m => [m] | _ => [] end) tr.

(** A client that bound the seat and asked for two keyboards, 4 and 5. *)
Definition two_keyboards : WaylandClient :=
  state_of (handle_message no_mmap 0
              (get_registry_request 2 ++ bind_request 5 "wl_seat" 5 3
                 ++ request 3 1 (le_split 4 4) ++ request 3 1 (le_split 4 5))
              [] (new_client stdio_proxy)).

(** A surface 6 with buffer 9 attached: 2 x 4 pixels, stride 8, in the
    32-byte pool 8. *)
Definition one_surface : WaylandClient :=
  {| proxy := stdio_proxy;
     objects := [(1, ("wl_display"%string, 1)); (6, ("wl_surface"%string, 4));
                 (8, ("wl_shm_pool"%string, 1)); (9, ("wl_buffer"%string, 1))];
     surfaces := [(6, Some 9)];
     buffers := [(9, (8, 0, 2, 4, 8, 1))];
     shm_pools := [(8, (33, Some (repeat Byte.xaa 32), 32))];
     serial := 0;
     fds := [] |}.

(** What [close] does for one pool of the registry. *)
Definition pool_release_events (kv : Z * pool) : list event :=
  let '(pid, (fd, mm, sz)) := kv in
  (if mm_truthy mm then [MmClose fd] else [])
    ++ (if fd >=? 0 then [OsClose fd] else []).

(** The descriptors that [recvmsg] delivered during the steps. *)
Definition received_fds (steps : list step) : list Z :=
  flat_map (fun s => match s with
                     | ClientData _ anc_fds _ => anc_fds
                     | HostInput _ _ => []
                     end) steps.

(** The descriptors passed to [os.close]. *)
Definition closed_fds (tr : list event) : list Z :=
  flat_map (fun e => match e with OsClose fd => [fd] | _ => [] end) tr.

(** Received descriptors that were never closed. *)
Definition leaked_fds (steps : list step) (tr : list event) : list Z :=
  filter (fun fd => negb (existsb (Z.eqb fd) (closed_fds tr)))
    (received_fds steps).

(** Every descriptor maps to [size] bytes of [0xAA]. *)
Definition filled_mmap : Z -> Z -> option bytes :=
  fun fd size => Some (repeat Byte.xaa (Z.to_nat size)).

(** Registry, compositor, surface 6, shm, pool 8 of 32 bytes, buffer 9
    (offset 0, 2 x 4, stride 8, XRGB8888), attach, commit. *)
Definition commit_batch : bytes :=
  get_registry_request 2
    ++ bind_request 1 "wl_compositor" 4 5
    ++ request 5 0 (le_split 4 6)
    ++ bind_request 3 "wl_shm" 1 7
    ++ request 7 0 (le_split 4 8 ++ le_split 4 32)
    ++ request 8 0 (le_split 4 9 ++ le_split 4 0 ++ le_split 4 2
                      ++ le_split 4 4 ++ le_split 4 8 ++ le_split 4 1)
    ++ request 6 1 (le_split 4 9 ++ le_split 4 0 ++ le_split 4 0)
    ++ request 6 6 [].

(** The bytes written to the host, in order. *)
Definition host_bytes (tr : list event) : bytes :=
  flat_map (fun e => match e with HostWrite b => b | _ => [] end) tr.

(** A computation that does not depend on the loop bound. *)
Definition fuel_free {A} (m : M A) : Prop :=
  forall st, fst (fst (m st)) <> OutOfFuel.

(** The interfaces [handle_message] has a handler for. *)
Definition handled_interfaces : list string :=
  [ "wl_display"; "wl_registry"; "wl_compositor"; "wl_shm"; "wl_shm_pool";
    "wl_buffer"; "wl_surface"; "xdg_wm_base"; "xdg_surface"; "wl_seat";
    "wl_data_device_manager"; "wl_region"; "wl_subcompositor" ]%string.

(** [wl_callback.done(now & 0xFFFFFFFF)] on [cb_id], decoded. *)
Definition done_event (cb_id now : Z) : option (Z * Z * list pyval) :=
  Some (cb_id, 0, [PyInt (now mod 2 ^ 32)]).

(** The object table after a callback was registered and removed. *)
Definition callback_gone (cb_id : Z) (st : WaylandClient) : WaylandClient :=
  with_objects
    (fun d => dict_del cb_id (dict_set cb_id ("wl_callback"%string, 1) d)) st.

(** The payload of [wl_registry.bind(name, interface, version, new_id)]
    as a client encodes it. *)
Definition bind_payload (name : Z) (interface : string) (version new_id : Z)
  : option bytes :=
  encode_payload [PyInt name; PyStr interface; PyInt version; PyInt new_id].

(** The events that follow a bind, decoded with the given signatures. *)
Definition decoded_as (sigs : list (list argty)) (msgs : list bytes)
  : list (option (Z * Z * list pyval)) :=
  map (fun '(sig, m) => decode_message sig m) (combine sigs msgs).

(** The keyboards and pointers of the object table, in table order. *)
Definition focus_targets (d : dict (string * Z)) : dict (string * Z) :=
  filter (fun kv => String.eqb (fst (snd kv)) "wl_keyboard"
                    || String.eqb (fst (snd kv)) "wl_pointer") d.

(** Object, opcode and size of the [enter] event [try_focus] sends to an
    input object: 16 bytes for a keyboard, 24 for a pointer. *)
Definition enter_header (kv : Z * (string * Z)) : option (Z * Z * Z) :=
  Some (fst kv, 4,
        if String.eqb (fst (snd kv)) "wl_keyboard" then 16 else 24).

(** An input record from the host: ["INPT"], type code, two parameters,
    four reserved bytes. *)
Definition input_record (type_code p1 p2 : Z) (reserved : bytes) : bytes :=
  list_byte_of_string "INPT" ++ le_split 4 type_code ++ le_split 4 p1
    ++ le_split 4 p2 ++ reserved.

(** Requests that create an object or bind a global, with the number of
    payload bytes their handler reads before it does anything else. *)
Definition reading_requests : list (string * Z * Z) :=
  [ ("wl_display", 0, 4); ("wl_display", 1, 4); ("wl_registry", 0, 16);
    ("wl_compositor", 0, 4); ("wl_compositor", 1, 4);
    ("wl_subcompositor", 1, 12);
    ("wl_data_device_manager", 0, 8); ("wl_data_device_manager", 1, 4);
    ("wl_shm", 0, 8); ("wl_shm_pool", 0, 24);
    ("xdg_wm_base", 2, 8); ("xdg_surface", 1, 4);
    ("wl_seat", 0, 4); ("wl_seat", 1, 4) ]%string.

(** The argument types of the [enter] event for an input object. *)
Definition enter_signature (kv : Z * (string * Z)) : list argty :=
  if String.eqb (fst (snd kv)) "wl_keyboard" then [TUint; TUint]
  else [TUint; TUint; TUint; TUint].

(** The [enter] events for surface [sid] as the client decodes them, one
    for each input object: opcode 4, the serial, the surface and, for a
    pointer, the position 0, 0.  The serials count up from [ser]. *)
Fixpoint enter_events (sid ser : Z) (targets : dict (string * Z))
  : list (option (Z * Z * list pyval)) :=
  match targets with
  | [] => []
  | (id, (iface, _)) :: rest =>
      Some (id, 4,
            if String.eqb iface "wl_keyboard"
            then [PyInt (ser mod 2 ^ 32); PyInt (sid mod 2 ^ 32)]
            else [PyInt (ser mod 2 ^ 32); PyInt (sid mod 2 ^ 32);
                  PyInt 0; PyInt 0])
      :: enter_events sid (ser + 1) rest
  end.




(** * Properties *)

(** ** Sequences and [struct] *)

Lemma len_nonneg {A} (l : list A) : 0 <= len l.
Proof. unfold len. lia. Qed.

Lemma len_app {A} (l1 l2 : list A) : len (l1 ++ l2) = len l1 + len l2.
Proof. unfold len. rewrite length_app. lia. Qed.

Lemma len_cons {A} (x : A) (l : list A) : len (x :: l) = 1 + len l.
Proof. unfold len. cbn [List.length]. lia. Qed.

Lemma len_nil {A} : len (@nil A) = 0.
Proof. reflexivity. Qed.

Lemma len_le_split n v : len (le_split n v) = Z.of_nat n.
Proof. unfold len. now rewrite length_le_split. Qed.

Lemma len_repeat {A} (x : A) n : len (repeat x n) = Z.of_nat n.
Proof. unfold len. now rewrite repeat_length. Qed.

Lemma clip_inside n k : 0 <= k <= n -> clip n k = k.
Proof.
  intros H. unfold clip.
  destruct (k <? 0) eqn:E; [apply Z.ltb_lt in E; lia | lia].
Qed.

Lemma clip_beyond n k : 0 <= n <= k -> clip n k = n.
Proof.
  intros H. unfold clip.
  destruct (k <? 0) eqn:E; [apply Z.ltb_lt in E; lia | lia].
Qed.

(** A slice with indices inside the list is [skipn] of [firstn]. *)
Lemma py_slice_inside {A} (l : list A) i j :
  0 <= i -> 0 <= j <= len l ->
  py_slice l i j = skipn (Z.to_nat i) (firstn (Z.to_nat j) l).
Proof.
  intros Hi Hj. unfold py_slice.
  rewrite (clip_inside (len l) j) by lia.
  destruct (Z_le_gt_dec i (len l)) as [Hle | Hgt].
  - rewrite clip_inside by lia. reflexivity.
  - rewrite clip_beyond by (pose proof (len_nonneg l); lia).
    rewrite !skipn_all2; trivial; rewrite length_firstn; unfold len in *; lia.
Qed.

Lemma py_slice_middle {A} (pre mid post : list A) :
  py_slice (pre ++ mid ++ post) (len pre) (len pre + len mid) = mid.
Proof.
  pose proof (len_nonneg pre). pose proof (len_nonneg mid).
  pose proof (len_nonneg post).
  rewrite py_slice_inside by (rewrite ?len_app; lia).
  unfold len. rewrite <- Nat2Z.inj_add, !Nat2Z.id.
  rewrite app_assoc, firstn_app.
  rewrite <- length_app, firstn_all, Nat.sub_diag, firstn_O, app_nil_r.
  rewrite skipn_app, skipn_all, Nat.sub_diag. reflexivity.
Qed.

Lemma py_slice_tail {A} (pre post : list A) :
  py_slice (pre ++ post) (len pre) (len (pre ++ post)) = post.
Proof.
  pose proof (len_nonneg pre). pose proof (len_nonneg post).
  rewrite py_slice_inside by (rewrite ?len_app; lia).
  unfold len. rewrite !Nat2Z.id, firstn_all.
  rewrite skipn_app, skipn_all, Nat.sub_diag. reflexivity.
Qed.

Lemma is_u32_range v : is_u32 v = true <-> 0 <= v < 2 ^ 32.
Proof. unfold is_u32, u32_max. rewrite andb_true_iff, !Z.leb_le. lia. Qed.

Lemma pack_I_some v : is_u32 v = true -> pack_I v = Some (le_split 4 v).
Proof. intros H. unfold pack_I. now rewrite H. Qed.

Lemma land_mask_u32 z : is_u32 (Z.land z 4294967295) = true.
Proof.
  apply is_u32_range. change 4294967295 with (Z.ones 32).
  rewrite Z.land_ones by lia. apply Z.mod_pos_bound. lia.
Qed.

Lemma unpack_I_split v :
  unpack_I (le_split 4 v) = Some (v mod 2 ^ 32).
Proof.
  unfold unpack_I. rewrite length_le_split. cbn [Nat.eqb].
  now rewrite le_combine_split.
Qed.

Lemma unpack_I_pack v :
  is_u32 v = true -> unpack_I (le_split 4 v) = Some v.
Proof.
  intros H. rewrite unpack_I_split. apply is_u32_range in H.
  now rewrite Z.mod_small.
Qed.

Lemma unpack_I_u32 b v : unpack_I b = Some v -> is_u32 v = true.
Proof.
  unfold unpack_I. destruct (List.length b =? 4)%nat eqn:E; [|discriminate].
  intros [= <-]. apply Nat.eqb_eq in E. apply is_u32_range.
  pose proof (le_combine_bound b) as Hb. rewrite E in Hb. exact Hb.
Qed.

Lemma read_uint_at pre v post :
  read_uint (pre ++ le_split 4 v ++ post) (len pre)
  = Some (v mod 2 ^ 32, len pre + 4).
Proof.
  unfold read_uint.
  replace (len pre + 4) with (len pre + len (le_split 4 v))
    by (rewrite len_le_split; lia).
  rewrite py_slice_middle, unpack_I_split. reflexivity.
Qed.

Lemma read_int_at pre z post :
  -2147483648 <= z <= 2147483647 ->
  read_int (pre ++ le_split 4 (Z.land z 4294967295) ++ post) (len pre)
  = Some (z, len pre + 4).
Proof.
  intros Hz. unfold read_int, unpack_i.
  replace (len pre + 4)
    with (len pre + len (le_split 4 (Z.land z 4294967295)))
    by (rewrite len_le_split; lia).
  rewrite py_slice_middle, unpack_I_split.
  change 4294967295 with (Z.ones 32).
  rewrite Z.land_ones by lia. rewrite Z.mod_mod by lia.
  change (2 ^ 32) with 4294967296.
  destruct (Z_lt_ge_dec z 0) as [Hneg | Hpos].
  - replace (z mod 4294967296) with (z + 4294967296).
    + destruct (z + 4294967296 <? 2147483648) eqn:E.
      * apply Z.ltb_lt in E. lia.
      * do 2 f_equal. lia.
    + apply Z.mod_unique with (q := -1); lia.
  - rewrite Z.mod_small by lia.
    destruct (z <? 2147483648) eqn:E; [reflexivity|].
    apply Z.ltb_ge in E. lia.
Qed.

Lemma read_uint_prefix (pay : bytes) :
  4 <= len pay ->
  read_uint pay 0 = Some (le_combine (firstn 4 pay), 4)
  /\ is_u32 (le_combine (firstn 4 pay)) = true.
Proof.
  intros H.
  assert (Hs : py_slice pay 0 (0 + 4) = firstn 4 pay).
  { rewrite py_slice_inside by lia. reflexivity. }
  assert (Hl : List.length (firstn 4 pay) = 4%nat).
  { rewrite length_firstn. unfold len in H. lia. }
  assert (Hu : unpack_I (firstn 4 pay) = Some (le_combine (firstn 4 pay))).
  { unfold unpack_I. now rewrite Hl. }
  split.
  - unfold read_uint. rewrite Hs, Hu. reflexivity.
  - eapply unpack_I_u32; eassumption.
Qed.

(** ** The header word *)

Lemma header_word_split size op :
  0 <= size -> 0 <= op < 65536 ->
  Z.lor (Z.shiftl size 16) (Z.land op 65535) = size * 65536 + op.
Proof.
  intros Hs Ho.
  change 65535 with (Z.ones 16). rewrite Z.land_ones by lia.
  rewrite (Z.mod_small op) by (change (2 ^ 16) with 65536; lia).
  rewrite <- Z.lxor_lor, <- Z.add_nocarry_lxor.
  - rewrite Z.shiftl_mul_pow2 by lia. reflexivity.
  - apply Z.bits_inj'. intros n Hn. rewrite Z.land_spec, Z.bits_0.
    destruct (Z_lt_ge_dec n 16).
    + rewrite Z.shiftl_spec_low by lia. reflexivity.
    + replace (Z.testbit op n) with false; [apply andb_false_r|].
      symmetry. destruct (Z.eq_dec op 0) as [-> | Hne];
        [apply Z.bits_0|].
      apply Z.bits_above_log2; [lia|].
      apply Z.log2_lt_pow2; [lia|].
      apply Z.lt_le_trans with (2 ^ 16); [change (2 ^ 16) with 65536; lia|].
      apply Z.pow_le_mono_r; lia.
  - apply Z.bits_inj'. intros n Hn. rewrite Z.land_spec, Z.bits_0.
    destruct (Z_lt_ge_dec n 16).
    + rewrite Z.shiftl_spec_low by lia. reflexivity.
    + replace (Z.testbit op n) with false; [apply andb_false_r|].
      symmetry. destruct (Z.eq_dec op 0) as [-> | Hne];
        [apply Z.bits_0|].
      apply Z.bits_above_log2; [lia|].
      apply Z.log2_lt_pow2; [lia|].
      apply Z.lt_le_trans with (2 ^ 16); [change (2 ^ 16) with 65536; lia|].
      apply Z.pow_le_mono_r; lia.
Qed.

Lemma header_word_size size op :
  0 <= op < 65536 -> Z.shiftr (size * 65536 + op) 16 = size.
Proof.
  intros Ho. rewrite Z.shiftr_div_pow2 by lia.
  change (2 ^ 16) with 65536.
  symmetry. apply Z.div_unique with (r := op); lia.
Qed.

Lemma header_word_opcode size op :
  0 <= op < 65536 -> Z.land (size * 65536 + op) 65535 = op.
Proof.
  intros Ho. change 65535 with (Z.ones 16). rewrite Z.land_ones by lia.
  change (2 ^ 16) with 65536.
  symmetry. apply Z.mod_unique with (q := size); lia.
Qed.

(** [decode_header] on a message laid out as [encode_message] does. *)
Lemma decode_header_layout oid word payload :
  is_u32 oid = true -> is_u32 word = true ->
  decode_header (le_split 4 oid ++ le_split 4 word ++ payload)
  = (Some (oid, Z.land word 65535, Z.shiftr word 16), payload).
Proof.
  intros Ho Hw. unfold decode_header.
  pose proof (len_nonneg payload) as Hp.
  assert (Hlen : len (le_split 4 oid ++ le_split 4 word ++ payload)
                 = 8 + len payload).
  { rewrite !len_app, !len_le_split. lia. }
  rewrite Hlen.
  destruct (8 + len payload <? HEADER_SIZE) eqn:E;
    [apply Z.ltb_lt in E; unfold HEADER_SIZE in E; lia|].
  assert (H1 : py_slice (le_split 4 oid ++ le_split 4 word ++ payload) 0 4
               = le_split 4 oid).
  { apply (py_slice_middle [] (le_split 4 oid) (le_split 4 word ++ payload)). }
  assert (H2 : py_slice (le_split 4 oid ++ le_split 4 word ++ payload) 4 8
               = le_split 4 word).
  { apply (py_slice_middle (le_split 4 oid) (le_split 4 word) payload). }
  rewrite H1, H2, !unpack_I_pack by assumption.
  f_equal.
  replace (le_split 4 oid ++ le_split 4 word ++ payload)
    with ((le_split 4 oid ++ le_split 4 word) ++ payload)
    by (now rewrite app_assoc).
  unfold HEADER_SIZE.
  replace 8 with (len (le_split 4 oid ++ le_split 4 word))
    by (rewrite len_app, !len_le_split; lia).
  replace (len (le_split 4 oid ++ le_split 4 word) + len payload)
    with (len ((le_split 4 oid ++ le_split 4 word) ++ payload))
    by (rewrite (len_app (_ ++ _) payload); reflexivity).
  apply py_slice_tail.
Qed.

(** ** Encoding succeeds and has the expected size *)

Lemma land_u32_id z : is_u32 z = true -> Z.land z 4294967295 = z.
Proof.
  intros H. apply is_u32_range in H.
  change 4294967295 with (Z.ones 32).
  rewrite Z.land_ones by lia. now apply Z.mod_small.
Qed.

Lemma pad_range n : 0 <= (4 - n mod 4) mod 4 < 4.
Proof. apply Z.mod_pos_bound. lia. Qed.

Lemma arg_size_nonneg a : 0 <= arg_size a.
Proof.
  destruct a as [z | s | b]; cbn [arg_size].
  - lia.
  - pose proof (len_nonneg (encode_utf8 s)).
    pose proof (pad_range (len (encode_utf8 s) + 1)). lia.
  - apply len_nonneg.
Qed.

Lemma encode_arg_some a :
  arg_size a <= u32_max ->
  exists b, encode_arg a = Some b /\ len b = arg_size a.
Proof.
  intros Hs. destruct a as [z | s | b]; cbn [encode_arg arg_size] in *.
  - rewrite pack_I_some by apply land_mask_u32.
    eexists; split; [reflexivity | apply len_le_split].
  - pose proof (len_nonneg (encode_utf8 s)) as Hl.
    pose proof (pad_range (len (encode_utf8 s) + 1)) as Hp.
    rewrite len_app, len_cons, len_nil.
    replace (len (encode_utf8 s) + (1 + 0)) with (len (encode_utf8 s) + 1)
      by lia.
    rewrite pack_I_some
      by (apply is_u32_range; unfold u32_max in Hs; lia).
    eexists; split; [reflexivity|].
    rewrite !len_app, len_le_split, len_cons, len_nil, len_repeat.
    rewrite Z2Nat.id by lia. simpl Z.of_nat. lia.
  - eexists; split; reflexivity.
Qed.

Lemma payload_size_nonneg args :
  0 <= fold_right (fun a n => arg_size a + n) 0 args.
Proof.
  induction args as [| a args IH]; cbn [fold_right]; [lia|].
  pose proof (arg_size_nonneg a). lia.
Qed.

Lemma encode_payload_some args :
  fold_right (fun a n => arg_size a + n) 0 args <= u32_max ->
  exists p, encode_payload args = Some p
            /\ len p = fold_right (fun a n => arg_size a + n) 0 args.
Proof.
  induction args as [| a args IH]; cbn [fold_right encode_payload]; intros H.
  - exists []. split; reflexivity.
  - pose proof (arg_size_nonneg a). pose proof (payload_size_nonneg args).
    destruct (encode_arg_some a) as (b & -> & Hb); [lia|].
    destruct IH as (p & -> & Hp); [lia|].
    eexists; split; [reflexivity|]. rewrite len_app. lia.
Qed.

Lemma land_mask16_range op : 0 <= Z.land op 65535 < 65536.
Proof.
  change 65535 with (Z.ones 16). rewrite Z.land_ones by lia.
  apply Z.mod_pos_bound. lia.
Qed.

Lemma header_word_u32 size op :
  0 <= size < 65536 ->
  is_u32 (Z.lor (Z.shiftl size 16) (Z.land op 65535)) = true
  /\ Z.shiftr (Z.lor (Z.shiftl size 16) (Z.land op 65535)) 16 = size
  /\ Z.land (Z.lor (Z.shiftl size 16) (Z.land op 65535)) 65535
     = Z.land op 65535.
Proof.
  intros Hs. pose proof (land_mask16_range op) as Ho.
  assert (E : Z.lor (Z.shiftl size 16) (Z.land op 65535)
              = size * 65536 + Z.land op 65535).
  { rewrite <- (header_word_split size (Z.land op 65535))
      by lia.
    rewrite <- Z.land_assoc, Z.land_diag. reflexivity. }
  rewrite E. repeat split.
  - apply is_u32_range. change (2 ^ 32) with 4294967296. lia.
  - now apply header_word_size.
  - now apply header_word_opcode.
Qed.

(** The bytes [encode_message] produces for a message that fits. *)
Lemma encode_message_some oid op args :
  is_u32 oid = true -> wire_size args < 65536 ->
  exists p,
    encode_payload args = Some p
    /\ len p + 8 = wire_size args
    /\ encode_message oid op args
       = Some (le_split 4 oid
               ++ le_split 4 (Z.lor (Z.shiftl (8 + len p) 16)
                                (Z.land op 65535))
               ++ p).
Proof.
  intros Ho Hs. unfold wire_size, HEADER_SIZE in Hs.
  pose proof (payload_size_nonneg args) as Hn.
  destruct (encode_payload_some args) as (p & Hp & Hl);
    [unfold u32_max; lia|].
  exists p. split; [exact Hp|]. split.
  - unfold wire_size, HEADER_SIZE. lia.
  - unfold encode_message. rewrite Hp. unfold HEADER_SIZE.
    rewrite (pack_I_some oid Ho).
    destruct (header_word_u32 (8 + len p) op) as (Hw & _); [lia|].
    rewrite (pack_I_some _ Hw). reflexivity.
Qed.

(** ** Reading back what was encoded *)

Lemma some_inj {A} (x y : A) : Some x = Some y -> x = y.
Proof. now intros [= ->]. Qed.

Lemma lstrip_nul_id b l :
  Byte.eqb b Byte.x00 = false -> lstrip_nul (b :: l) = b :: l.
Proof. intros H. cbn [lstrip_nul]. now rewrite H. Qed.

Lemma strip_nul_id s :
  nul_ends (encode_utf8 s) = false -> strip_nul s = s.
Proof.
  unfold nul_ends, strip_nul, encode_utf8. intros H.
  apply orb_false_iff in H. destruct H as [H1 H2].
  assert (E1 : lstrip_nul (list_byte_of_string s) = list_byte_of_string s).
  { destruct (list_byte_of_string s) as [| b l]; [reflexivity|].
    now apply lstrip_nul_id. }
  rewrite E1.
  assert (E2 : lstrip_nul (rev (list_byte_of_string s))
               = rev (list_byte_of_string s)).
  { destruct (rev (list_byte_of_string s)) as [| b l]; [reflexivity|].
    now apply lstrip_nul_id. }
  rewrite E2, rev_involutive. apply string_of_list_byte_of_string.
Qed.

Lemma read_string_at pre s post :
  utf8_valid (encode_utf8 s) = true ->
  nul_ends (encode_utf8 s) = false ->
  is_u32 (len (encode_utf8 s) + 1) = true ->
  let n := len (encode_utf8 s) + 1 in
  let pad := (4 - n mod 4) mod 4 in
  read_string
    (pre ++ (le_split 4 n ++ (encode_utf8 s ++ [Byte.x00])
                 ++ repeat Byte.x00 (Z.to_nat pad)) ++ post)
    (len pre)
  = Some (s, len pre + (4 + n + pad)).
Proof.
  intros Hv Hn Hu n pad. unfold read_string.
  rewrite <- (app_assoc (le_split 4 n)).
  rewrite read_uint_at.
  apply is_u32_range in Hu. fold n in Hu. rewrite Z.mod_small by exact Hu.
  set (tail := ([Byte.x00] ++ repeat Byte.x00 (Z.to_nat pad)) ++ post).
  assert (Hd : pre ++ le_split 4 n
                 ++ ((encode_utf8 s ++ [Byte.x00])
                       ++ repeat Byte.x00 (Z.to_nat pad)) ++ post
               = (pre ++ le_split 4 n) ++ encode_utf8 s ++ tail).
  { unfold tail. now rewrite <- !app_assoc. }
  rewrite Hd.
  replace (len pre + 4) with (len (pre ++ le_split 4 n))
    by (rewrite len_app, len_le_split; lia).
  replace (len (pre ++ le_split 4 n) + n - 1)
    with (len (pre ++ le_split 4 n) + len (encode_utf8 s))
    by (unfold n; lia).
  rewrite py_slice_middle. unfold decode_utf8. rewrite Hv.
  unfold encode_utf8 at 1. rewrite string_of_list_byte_of_string.
  rewrite (strip_nul_id _ Hn). fold pad.
  rewrite len_app, len_le_split. do 2 f_equal. simpl Z.of_nat. lia.
Qed.

Lemma read_arg_encode t a b pre post :
  arg_ok t a = true -> arg_size a <= u32_max -> encode_arg a = Some b ->
  read_arg t (pre ++ b ++ post) (len pre) = Some (a, len pre + len b).
Proof.
  intros Hok Hs He.
  destruct t, a as [z | s | bs]; cbn [arg_ok] in Hok; try discriminate;
    cbn [encode_arg arg_size] in He, Hs.
  - rewrite pack_I_some in He by apply land_mask_u32.
    apply some_inj in He. subst b. rewrite (land_u32_id z Hok).
    unfold read_arg. rewrite read_uint_at, len_le_split.
    apply is_u32_range in Hok. rewrite Z.mod_small by exact Hok.
    reflexivity.
  - rewrite pack_I_some in He by apply land_mask_u32.
    apply some_inj in He. subst b.
    apply andb_true_iff in Hok. destruct Hok as [H1 H2].
    apply Z.leb_le in H1, H2.
    unfold read_arg. rewrite read_int_at by lia.
    rewrite len_le_split. reflexivity.
  - apply andb_true_iff in Hok. destruct Hok as [Hv Hn].
    apply negb_true_iff in Hn.
    pose proof (len_nonneg (encode_utf8 s)) as Hl.
    pose proof (pad_range (len (encode_utf8 s) + 1)) as Hp.
    assert (Hu : is_u32 (len (encode_utf8 s) + 1) = true).
    { apply is_u32_range. unfold u32_max in Hs.
      change (2 ^ 32) with 4294967296. lia. }
    rewrite len_app, len_cons, len_nil in He.
    replace (len (encode_utf8 s) + (1 + 0)) with (len (encode_utf8 s) + 1)
      in He by lia.
    rewrite (pack_I_some _ Hu) in He. apply some_inj in He. subst b.
    unfold read_arg. rewrite (read_string_at pre s post Hv Hn Hu).
    rewrite !len_app, len_le_split, len_cons, len_nil, len_repeat.
    rewrite Z2Nat.id by lia. do 2 f_equal. simpl Z.of_nat. lia.
Qed.

Lemma read_args_encode sig : forall args p pre post,
  args_ok sig args = true ->
  fold_right (fun a n => arg_size a + n) 0 args <= u32_max ->
  encode_payload args = Some p ->
  read_args sig (pre ++ p ++ post) (len pre) = Some (args, len pre + len p).
Proof.
  induction sig as [| t sig IH]; intros [| a args] p pre post Hok Hs He;
    cbn [args_ok] in Hok; try discriminate.
  - cbn in He. injection He as <-. cbn [read_args].
    rewrite len_nil, Z.add_0_r. reflexivity.
  - apply andb_true_iff in Hok. destruct Hok as [Ha Hr].
    cbn [fold_right] in Hs. cbn [encode_payload] in He.
    pose proof (arg_size_nonneg a). pose proof (payload_size_nonneg args).
    destruct (encode_arg a) as [b |] eqn:Eb; [|discriminate].
    destruct (encode_payload args) as [p' |] eqn:Ep; [|discriminate].
    injection He as <-. cbn [read_args].
    rewrite <- (app_assoc b p' post).
    rewrite (read_arg_encode t a b pre (p' ++ post) Ha) by (trivial; lia).
    rewrite (app_assoc pre b (p' ++ post)).
    replace (len pre + len b) with (len (pre ++ b)) by apply len_app.
    rewrite (IH args p' (pre ++ b) post Hr) by (trivial; lia).
    rewrite !len_app. do 2 f_equal. lia.
Qed.

Lemma wire_size_aligned sig : forall args,
  args_ok sig args = true -> wire_size args mod 4 = 0.
Proof.
  unfold wire_size, HEADER_SIZE.
  induction sig as [| t sig IH]; intros [| a args] Hok;
    cbn [args_ok] in Hok; try discriminate; cbn [fold_right].
  - reflexivity.
  - apply andb_true_iff in Hok. destruct Hok as [Ha Hr].
    specialize (IH args Hr).
    assert (Hz : arg_size a mod 4 = 0).
    { destruct t, a as [z | s | bs]; cbn [arg_ok] in Ha; try discriminate;
        cbn [arg_size]; try reflexivity.
      generalize (len (encode_utf8 s) + 1). intros n.
      Z.div_mod_to_equations. lia. }
    revert IH Hz.
    generalize (fold_right (fun a n => arg_size a + n) 0 args).
    generalize (arg_size a). intros x y.
    Z.div_mod_to_equations. lia.
Qed.

(** Encoding followed by decoding, for arguments that fit their types. *)
Lemma decode_encode_message oid op sig args :
  is_u32 oid = true -> 0 <= op < 65536 ->
  args_ok sig args = true -> wire_size args < 65536 ->
  exists msg,
    encode_message oid op args = Some msg
    /\ decode_message sig msg = Some (oid, op, args)
    /\ len msg = wire_size args.
Proof.
  intros Ho Hop Hok Hs.
  destruct (encode_message_some oid op args Ho Hs) as (p & Hp & Hl & He).
  exists (le_split 4 oid
            ++ le_split 4 (Z.lor (Z.shiftl (8 + len p) 16) (Z.land op 65535))
            ++ p).
  pose proof (len_nonneg p) as Hn.
  destruct (header_word_u32 (8 + len p) op) as (Hw & Hsz & Hopc); [lia|].
  assert (Hlen : len (le_split 4 oid
            ++ le_split 4 (Z.lor (Z.shiftl (8 + len p) 16) (Z.land op 65535))
            ++ p) = 8 + len p).
  { rewrite !len_app, !len_le_split. lia. }
  split; [exact He|]. split; [|lia].
  unfold decode_message.
  rewrite (decode_header_layout oid _ p Ho Hw), Hsz, Hopc, Hlen, Z.eqb_refl.
  assert (Hr : read_args sig ([] ++ p ++ []) (len (@nil byte))
               = Some (args, len (@nil byte) + len p)).
  { apply read_args_encode; trivial.
    unfold wire_size, HEADER_SIZE, u32_max in *. lia. }
  rewrite app_nil_l, app_nil_r, len_nil, Z.add_0_l in Hr.
  rewrite Hr, Z.eqb_refl.
  change 65535 with (Z.ones 16). rewrite Z.land_ones by lia.
  rewrite Z.mod_small by (change (2 ^ 16) with 65536; lia).
  reflexivity.
Qed.

(** ** The wire round trip *)

(** C4, as amended: a message whose arguments are unsigned integers,
    signed integers and strings that fit their wire types (strings are
    well-formed UTF-8 without a zero byte at either end), and whose
    encoding fits the 16-bit size field, is encoded by [encode_message];
    reading the encoding back with [decode_header], [read_uint],
    [read_int] and [read_string] gives the message again, and the encoding
    is a whole number of 32-bit words.  A [bytes] argument is appended as
    it is: no length word, no padding. *)
Theorem wire_roundtrip :
  (forall oid op sig args,
     is_u32 oid = true -> 0 <= op < 65536 ->
     args_ok sig args = true -> wire_size args < 65536 ->
     exists msg,
       encode_message oid op args = Some msg
       /\ decode_message sig msg = Some (oid, op, args)
       /\ len msg mod 4 = 0)
  /\ (forall oid op b,
        is_u32 oid = true -> 8 + len b < 65536 ->
        encode_message oid op [PyBytes b]
        = Some (le_split 4 oid
                ++ le_split 4 (Z.lor (Z.shiftl (8 + len b) 16)
                                 (Z.land op 65535))
                ++ b)).
Proof.
  split.
  - intros oid op sig args Ho Hop Hok Hs.
    destruct (decode_encode_message oid op sig args Ho Hop Hok Hs)
      as (msg & He & Hd & Hl).
    exists msg. split; [exact He|]. split; [exact Hd|].
    rewrite Hl. eapply wire_size_aligned; eassumption.
  - intros oid op b Ho Hb.
    destruct (encode_message_some oid op [PyBytes b] Ho) as (p & Hp & _ & He).
    { unfold wire_size, HEADER_SIZE. cbn [fold_right arg_size]. lia. }
    cbn [encode_payload encode_arg] in Hp. apply some_inj in Hp.
    rewrite app_nil_r in Hp. subst p. exact He.
Qed.

Lemma wire_roundtrip_witness :
  (exists msg,
     encode_message 2 0 [PyInt 1; PyStr "wl_compositor"; PyInt (-4)]
     = Some msg
     /\ decode_message [TUint; TString; TInt] msg
        = Some (2, 0, [PyInt 1; PyStr "wl_compositor"; PyInt (-4)])
     /\ len msg mod 4 = 0)
  /\ encode_message 1 0 [PyBytes [Byte.x01]]
     = Some (le_split 4 1
             ++ le_split 4 (Z.lor (Z.shiftl (8 + len [Byte.x01]) 16)
                              (Z.land 0 65535))
             ++ [Byte.x01]).
Proof.
  assert (H1 : is_u32 2 = true) by reflexivity.
  assert (H2 : 0 <= 0 < 65536) by lia.
  assert (H3 : args_ok [TUint; TString; TInt]
                 [PyInt 1; PyStr "wl_compositor"; PyInt (-4)] = true)
    by reflexivity.
  assert (H4 : wire_size [PyInt 1; PyStr "wl_compositor"; PyInt (-4)]
               < 65536) by (vm_compute; reflexivity).
  assert (H5 : is_u32 1 = true) by reflexivity.
  assert (H6 : 8 + len [Byte.x01] < 65536) by (vm_compute; reflexivity).
  split.
  - exact (proj1 wire_roundtrip 2 0 [TUint; TString; TInt]
             [PyInt 1; PyStr "wl_compositor"; PyInt (-4)] H1 H2 H3 H4).
  - exact (proj2 wire_roundtrip 1 0 [Byte.x01] H5 H6).
Defined.

(** C4, as stated, fails on a [bytes] argument: [encode_message] appends
    it as it is, without a length word and without padding, so a one-byte
    array gives a nine-byte message. *)
Lemma bytes_arg_unpadded :
  encode_message 1 0 [PyBytes [Byte.x01]]
  = Some (le_split 4 1 ++ le_split 4 (9 * 65536) ++ [Byte.x01])
  /\ len (le_split 4 1 ++ le_split 4 (9 * 65536) ++ [Byte.x01]) mod 4 <> 0
  /\ le_split 4 1 ++ le_split 4 (9 * 65536) ++ [Byte.x01]
     <> le_split 4 1 ++ le_split 4 (16 * 65536)
          ++ le_split 4 1 ++ [Byte.x01; Byte.x00; Byte.x00; Byte.x00].
Proof.
  repeat split.
  - vm_compute. discriminate.
  - vm_compute. discriminate.
Qed.

(** ** Laws of the monad *)

Lemma after_nil {A} (x : result A * WaylandClient * list event) :
  after [] x = x.
Proof. now destruct x as [[r st] tr]. Qed.

Lemma after_after {A} tr1 tr2 (x : result A * WaylandClient * list event) :
  after tr1 (after tr2 x) = after (tr1 ++ tr2) x.
Proof. destruct x as [[r st] tr]. cbn. now rewrite app_assoc. Qed.

Lemma bind_of_val {A B} (m : M A) (k : A -> M B) st a st1 tr1 :
  m st = (Val a, st1, tr1) -> bind m k st = after tr1 (k a st1).
Proof. intros H. unfold bind. now rewrite H. Qed.

Lemma bind_of_exc {A B} (m : M A) (k : A -> M B) st st1 tr1 :
  m st = (Exc, st1, tr1) -> bind m k st = (Exc, st1, tr1).
Proof. intros H. unfold bind. now rewrite H. Qed.

Lemma bind_ret {A B} (a : A) (k : A -> M B) st : bind (ret a) k st = k a st.
Proof. unfold bind, ret. apply after_nil. Qed.

Lemma bind_lift_some {A B} (a : A) (k : A -> M B) st :
  bind (lift (Some a)) k st = k a st.
Proof. apply bind_ret. Qed.

Lemma bind_lift_none {A B} (k : A -> M B) st :
  bind (lift None) k st = (Exc, st, []).
Proof. reflexivity. Qed.

Lemma bind_get {B} (k : WaylandClient -> M B) st : bind get k st = k st st.
Proof. unfold bind, get. apply after_nil. Qed.

Lemma bind_modify {B} f (k : unit -> M B) st :
  bind (modify f) k st = k tt (f st).
Proof. unfold bind, modify. apply after_nil. Qed.

Lemma bind_emit {B} e (k : unit -> M B) st :
  bind (emit e) k st = after [e] (k tt st).
Proof. reflexivity. Qed.

Lemma bind_bind {A B C} (m : M A) (k : A -> M B) (h : B -> M C) st :
  bind (bind m k) h st = bind m (fun a => bind (k a) h) st.
Proof.
  unfold bind. destruct (m st) as [[[a | |] st1] tr1]; try reflexivity.
  destruct (k a st1) as [[[b | |] st2] tr2]; cbn [after]; try reflexivity.
  now rewrite after_after.
Qed.

Lemma bind_set_object {B} id info (k : unit -> M B) st :
  bind (set_object id info) k st
  = k tt (with_objects (dict_set id info) st).
Proof. apply bind_modify. Qed.

Lemma bind_del_object {B} id (k : unit -> M B) st :
  bind (del_object id) k st = k tt (with_objects (dict_del id) st).
Proof. apply bind_modify. Qed.

Lemma try_except_val {A} (m h : M A) st a st1 tr1 :
  m st = (Val a, st1, tr1) -> try_except m h st = (Val a, st1, tr1).
Proof. intros H. unfold try_except. now rewrite H. Qed.

Lemma try_except_exc {A} (m h : M A) st st1 tr1 :
  m st = (Exc, st1, tr1) -> try_except m h st = after tr1 (h st1).
Proof. intros H. unfold try_except. now rewrite H. Qed.

(** Rewriting a computation applied to a state, one step at a time. *)
Ltac mstep :=
  repeat first
    [ rewrite bind_bind
    | rewrite bind_ret
    | rewrite bind_lift_some
    | rewrite bind_lift_none
    | rewrite bind_get
    | rewrite bind_set_object
    | rewrite bind_del_object
    | rewrite bind_modify
    | rewrite bind_emit
    | rewrite after_nil
    | progress cbn beta iota ].

Lemma collect_pure {A B} (f : A -> M B) (P : A -> B -> Prop) l st :
  (forall x, In x l -> exists y, f x st = (Val y, st, []) /\ P x y) ->
  exists ys, collect l f st = (Val ys, st, []) /\ Forall2 P l ys.
Proof.
  induction l as [| x l IH]; intros H.
  - exists []. split; [reflexivity | constructor].
  - destruct (H x (or_introl eq_refl)) as (y & Hy & Py).
    destruct IH as (ys & Hys & Pys).
    { intros x' Hx'. apply H. now right. }
    exists (y :: ys). split; [|now constructor].
    cbn [collect]. rewrite (bind_of_val _ _ _ _ _ _ Hy), after_nil.
    rewrite (bind_of_val _ _ _ _ _ _ Hys), after_nil. reflexivity.
Qed.

Lemma Forall2_map {A B C} (P : A -> B -> Prop) (f : B -> C) (g : A -> C)
  l ys :
  (forall x y, P x y -> f y = g x) ->
  Forall2 P l ys -> map f ys = map g l.
Proof.
  intros H F. induction F as [| x y l ys Hxy _ IH]; [reflexivity|].
  cbn [map]. now rewrite (H _ _ Hxy), IH.
Qed.

Lemma dict_get_set_same {V} k (v : V) d : dict_get k (dict_set k v d) = Some v.
Proof.
  induction d as [| [k' v'] d IH]; cbn [dict_set dict_get].
  - now rewrite Z.eqb_refl.
  - destruct (k' =? k) eqn:E; cbn [dict_get].
    + now rewrite Z.eqb_refl.
    + now rewrite E.
Qed.

(** ** Registry handshake *)

(** C5: [get_registry] on a payload that holds the new id registers it as
    [wl_registry] version 1, changes nothing else, and answers with seven
    messages that decode to opcode 0 on that id with the argument tuples
    of the seven globals, in the order of the list. *)
Theorem get_registry_globals now payload st :
  4 <= len payload ->
  let reg_id := le_combine (firstn 4 payload) in
  let st' := with_objects (dict_set reg_id ("wl_registry"%string, 1)) st in
  exists msgs,
    handle_display now 1 payload st = (Val msgs, st', [])
    /\ dict_get reg_id (objects st') = Some ("wl_registry"%string, 1)
    /\ List.length msgs = 7%nat
    /\ map (decode_message [TUint; TString; TUint]) msgs
       = map (global_event reg_id)
           [ (1, "wl_compositor"%string, 4);
             (2, "wl_subcompositor"%string, 1);
             (3, "wl_shm"%string, 1);
             (4, "xdg_wm_base"%string, 1);
             (5, "wl_seat"%string, 5);
             (6, "wl_output"%string, 3);
             (7, "wl_data_device_manager"%string, 3) ].
Proof.
  intros Hlen reg_id st'.
  destruct (read_uint_prefix payload Hlen) as [Hr Hu]. fold reg_id in Hr, Hu.
  destruct (collect_pure
              (fun '(name, interface, version) =>
                 lift (encode_message reg_id 0
                         [PyInt name; PyStr interface; PyInt version]))
              (fun g m => decode_message [TUint; TString; TUint] m
                          = global_event reg_id g)
              GLOBALS st') as (msgs & Hc & Hf).
  { intros [[name interface] version] Hin.
    assert (Hg : args_ok [TUint; TString; TUint]
                   [PyInt name; PyStr interface; PyInt version] = true
                 /\ wire_size [PyInt name; PyStr interface; PyInt version]
                    < 65536).
    { unfold GLOBALS in Hin. cbn [In] in Hin.
      repeat (destruct Hin as [Hin | Hin];
              [injection Hin as <- <- <-; split;
               [reflexivity | vm_compute; reflexivity]|]).
      contradiction. }
    destruct Hg as [Hok Hs].
    destruct (decode_encode_message reg_id 0 _ _ Hu ltac:(lia) Hok Hs)
      as (msg & He & Hd & _).
    exists msg. rewrite He. split; [reflexivity | exact Hd]. }
  exists msgs. split; [|split; [|split]].
  - unfold handle_display.
    change (1 =? 0) with false. change (1 =? 1) with true. cbn iota.
    rewrite Hr. mstep. exact Hc.
  - apply dict_get_set_same.
  - apply Forall2_length in Hf. rewrite <- Hf. reflexivity.
  - apply (Forall2_map _ _ _ _ _ (fun x y H => H) Hf).
Qed.

Lemma get_registry_globals_witness :
  4 <= len (le_split 4 2)
  /\ exists msgs,
       handle_display 0 1 (le_split 4 2)
         (new_client {| mode := stdio; tcp_socket := false |})
       = (Val msgs,
          with_objects (dict_set (le_combine (firstn 4 (le_split 4 2)))
                          ("wl_registry"%string, 1))
            (new_client {| mode := stdio; tcp_socket := false |}), [])
       /\ List.length msgs = 7%nat.
Proof.
  assert (H : 4 <= len (le_split 4 2)) by (vm_compute; discriminate).
  split; [exact H|].
  destruct (get_registry_globals 0 (le_split 4 2)
              (new_client {| mode := stdio; tcp_socket := false |}) H)
    as (msgs & H1 & _ & H2 & _).
  exists msgs. split; assumption.
Defined.

(** ** Surfaces: attach and commit *)

Lemma read_int_inside (pay : bytes) pos :
  0 <= pos -> pos + 4 <= len pay ->
  exists v, read_int pay pos = Some (v, pos + 4).
Proof.
  intros Hp Hl. unfold read_int, unpack_i, unpack_I.
  assert (E : List.length (py_slice pay pos (pos + 4)) = 4%nat).
  { rewrite py_slice_inside by lia.
    rewrite length_skipn, length_firstn. unfold len in Hl. lia. }
  rewrite E. cbn [Nat.eqb]. eexists. reflexivity.
Qed.

Lemma handle_surface_attach now oid pay :
  handle_surface now oid 1 pay
  = try_except
      (if len pay <? 12 then
         if len pay >=? 4 then
           '(bid, pos) <- lift (read_uint pay 0) ;;
           modify (with_surfaces (dict_set oid (attached bid))) ;;
           ret []
         else ret []
       else
         '(bid, pos) <- lift (read_uint pay 0) ;;
         '(x, pos) <- lift (read_int pay pos) ;;
         '(y, pos) <- lift (read_int pay pos) ;;
         modify (with_surfaces (dict_set oid (attached bid))) ;;
         ret [])
      (ret []).
Proof. reflexivity. Qed.

Lemma handle_surface_commit now oid pay :
  handle_surface now oid 6 pay
  = try_except
      (st <- get ;;
       match dict_get oid (surfaces st) with
       | Some (Some bid) =>
           if negb (bid =? 0) then
             match dict_get bid (buffers st) with
             | Some buf =>
                 send_pixl oid buf (shm_pools st) ;;
                 m <- lift (encode_message bid 0 []) ;;
                 ret [m]
             | None => ret []
             end
           else ret []
       | _ => ret []
       end)
      (ret []).
Proof. reflexivity. Qed.

(** C8: [attach] never raises.  With fewer than 4 bytes of payload the
    message is skipped and nothing changes; with 4 bytes or more (whether
    or not the 12 bytes of the full request are there) the buffer id is
    the first 32-bit word and is recorded for the surface, id 0 being
    recorded as detached ([None]).  No event is produced. *)
Theorem attach_records_buffer now oid pay st :
  handle_surface now oid 1 pay st
  = (Val [],
     if len pay <? 4 then st
     else with_surfaces
            (dict_set oid (attached (le_combine (firstn 4 pay)))) st,
     [])
  /\ attached 0 = None
  /\ (forall bid, bid <> 0 -> attached bid = Some bid).
Proof.
  split; [|split].
  - rewrite handle_surface_attach. apply try_except_val.
    destruct (len pay <? 4) eqn:E4.
    + apply Z.ltb_lt in E4.
      replace (len pay <? 12) with true by (symmetry; apply Z.ltb_lt; lia).
      replace (len pay >=? 4) with false
        by (symmetry; rewrite Z.geb_leb; apply Z.leb_gt; lia).
      reflexivity.
    + apply Z.ltb_ge in E4.
      destruct (read_uint_prefix pay E4) as [Hr _].
      destruct (len pay <? 12) eqn:E12.
      * replace (len pay >=? 4) with true
          by (symmetry; rewrite Z.geb_leb; apply Z.leb_le; lia).
        rewrite Hr. mstep. reflexivity.
      * apply Z.ltb_ge in E12.
        destruct (read_int_inside pay 4) as [x Hx]; [lia | lia |].
        destruct (read_int_inside pay (4 + 4)) as [y Hy]; [lia | lia |].
        rewrite Hr. mstep. rewrite Hx. mstep. rewrite Hy. mstep.
        reflexivity.
  - reflexivity.
  - intros bid Hb. unfold attached.
    destruct (bid =? 0) eqn:E; [apply Z.eqb_eq in E; contradiction|].
    reflexivity.
Qed.

(** C7: a [commit] on a surface without a live attached buffer returns no
    message (so no release), performs no output (so no PIXL record) and
    leaves the connection as it was. *)
Theorem commit_without_buffer now oid pay st :
  no_live_buffer st oid ->
  handle_surface now oid 6 pay st = (Val [], st, []).
Proof.
  unfold no_live_buffer. intros H.
  rewrite handle_surface_commit. apply try_except_val. mstep.
  destruct (dict_get oid (surfaces st)) as [[bid |] |]; try reflexivity.
  destruct H as [-> | H]; [reflexivity|].
  destruct (negb (bid =? 0)); [|reflexivity].
  rewrite H. reflexivity.
Qed.

Lemma commit_without_buffer_witness :
  no_live_buffer
    (with_surfaces (dict_set 6 (Some 9))
       (new_client {| mode := stdio; tcp_socket := false |})) 6
  /\ handle_surface 0 6 6 []
       (with_surfaces (dict_set 6 (Some 9))
          (new_client {| mode := stdio; tcp_socket := false |}))
     = (Val [],
        with_surfaces (dict_set 6 (Some 9))
          (new_client {| mode := stdio; tcp_socket := false |}), []).
Proof.
  assert (H : no_live_buffer
                (with_surfaces (dict_set 6 (Some 9))
                   (new_client {| mode := stdio; tcp_socket := false |})) 6).
  { right. reflexivity. }
  split; [exact H|].
  exact (commit_without_buffer 0 6 []
           (with_surfaces (dict_set 6 (Some 9))
              (new_client {| mode := stdio; tcp_socket := false |})) H).
Defined.

(** ** Pools created without a descriptor *)

Lemma send_pixl_no_pool sid pid off w h stride fmt pools st :
  dict_get pid pools = None ->
  send_pixl sid (pid, off, w, h, stride, fmt) pools st = (Val tt, st, []).
Proof. intros H. unfold send_pixl. rewrite H. reflexivity. Qed.

(** ** The message loop *)

Lemma for_each_send l st :
  for_each l send st = (Val tt, st, map ClientSend l).
Proof.
  induction l as [| m l IH]; [reflexivity|].
  cbn [for_each map]. unfold send at 1. rewrite bind_emit, IH. reflexivity.
Qed.

Lemma handle_message_loop mmap now data fds st :
  handle_message mmap now data fds st
  = send_responses
      (handle_loop mmap now (S (List.length data)) data 0 []
         (with_fds fds st)).
Proof.
  unfold handle_message. rewrite bind_modify.
  unfold bind at 1.
  destruct (handle_loop mmap now (S (List.length data)) data 0 []
              (with_fds fds st)) as [[[responses | |] st1] tr1];
    try reflexivity.
  rewrite (bind_of_val _ _ _ _ _ _ (for_each_send responses st1)).
  unfold ret. cbn [after send_responses]. now rewrite app_nil_r.
Qed.

Lemma py_slice_all {A} (l : list A) : py_slice l 0 (len l) = l.
Proof.
  pose proof (len_nonneg l).
  rewrite py_slice_inside by lia.
  unfold len. rewrite Nat2Z.id, firstn_all. reflexivity.
Qed.

(** The loop stops at a header whose size field is below 8 or beyond
    the bytes that are left. *)
Lemma handle_loop_stop mmap now fuel data offset responses st
  object_id opcode size :
  offset < len data -> 8 <= len data - offset ->
  fst (decode_header (py_slice data offset (len data)))
  = Some (object_id, opcode, size) ->
  size < 8 \/ len data - offset < size ->
  handle_loop mmap now (S fuel) data offset responses st
  = (Val responses, st, []).
Proof.
  intros Ho Hl Hd Hs. cbn [handle_loop].
  replace (offset <? len data) with true by (symmetry; apply Z.ltb_lt; lia).
  replace (len data - offset <? HEADER_SIZE) with false
    by (symmetry; apply Z.ltb_ge; unfold HEADER_SIZE; lia).
  rewrite Hd.
  replace ((size <? 8) || (len data - offset <? size)) with true;
    [reflexivity|].
  symmetry. apply orb_true_iff. rewrite !Z.ltb_lt. exact Hs.
Qed.

(** C3, as amended: the client stream is not resynchronised.  When the
    header at the current offset of a batch has a size field below 8 or
    beyond the bytes that are left, the loop of [handle_message] ends
    there with the responses gathered so far, and the rest of the batch
    is discarded; when this is the first header, nothing is processed,
    nothing is sent, the connection state is kept and the call returns
    normally (the connection is not dropped).  In particular a
    [get_registry] request with one byte of garbage in front, whatever
    the byte, is not processed and no global is advertised. *)
Theorem framing_desync_stops_batch mmap now fds st :
  (forall fuel data offset responses object_id opcode size,
     offset < len data -> 8 <= len data - offset ->
     fst (decode_header (py_slice data offset (len data)))
     = Some (object_id, opcode, size) ->
     size < 8 \/ len data - offset < size ->
     handle_loop mmap now (S fuel) data offset responses st
     = (Val responses, st, []))
  /\ (forall data object_id opcode size,
        8 <= len data ->
        fst (decode_header data) = Some (object_id, opcode, size) ->
        size < 8 \/ len data < size ->
        handle_message mmap now data fds st
        = (Val true, with_fds fds st, []))
  /\ (forall g reg_id,
        handle_message mmap now (g :: get_registry_request reg_id) fds st
        = (Val true, with_fds fds st, [])).
Proof.
  assert (H : forall data object_id opcode size,
     8 <= len data ->
     fst (decode_header data) = Some (object_id, opcode, size) ->
     size < 8 \/ len data < size ->
     handle_message mmap now data fds st = (Val true, with_fds fds st, [])).
  { intros data object_id opcode size Hl Hd Hs.
    rewrite handle_message_loop.
    rewrite (handle_loop_stop mmap now _ data 0 [] _ object_id opcode size);
      try lia.
    - reflexivity.
    - rewrite py_slice_all. exact Hd. }
  split; [|split; [exact H|]].
  - intros fuel data offset responses object_id opcode size.
    apply handle_loop_stop.
  - intros g reg_id.
    apply (H _ (le_combine [g; Byte.x01; Byte.x00; Byte.x00]) 256 3072).
    + vm_compute. discriminate.
    + reflexivity.
    + right. vm_compute. reflexivity.
Qed.

(** ** Commit: the record first, the release after *)



Lemma release_event_encoded bid :
  is_u32 bid = true ->
  encode_message bid 0 [] = Some (release_event bid)
  /\ decode_message [] (release_event bid) = Some (bid, 0, []).
Proof.
  intros Hb.
  destruct (decode_encode_message bid 0 [] [] Hb) as (msg & He & Hd & _);
    [lia | reflexivity | reflexivity |].
  assert (E : encode_message bid 0 [] = Some (release_event bid)).
  { unfold encode_message. cbn [encode_payload].
    rewrite (pack_I_some bid Hb). reflexivity. }
  rewrite E in He. apply some_inj in He. subst msg. split; [exact E | exact Hd].
Qed.

(** The handler on a commit with a live buffer. *)
Lemma handle_surface_commit_live now oid pay st bid buf host :
  dict_get oid (surfaces st) = Some (Some bid) -> bid <> 0 ->
  is_u32 bid = true -> dict_get bid (buffers st) = Some buf ->
  send_pixl oid buf (shm_pools st) st = (Val tt, st, host) ->
  handle_surface now oid 6 pay st = (Val [release_event bid], st, host).
Proof.
  intros Hs Hz Hu Hb Hp. rewrite handle_surface_commit.
  apply try_except_val. mstep. rewrite Hs.
  replace (bid =? 0) with false by (symmetry; now apply Z.eqb_neq).
  cbn [negb]. rewrite Hb. rewrite (bind_of_val _ _ _ _ _ _ Hp).
  destruct (release_event_encoded bid Hu) as [-> _]. mstep.
  unfold ret. cbn [after]. now rewrite app_nil_r.
Qed.




(** ** The frame extractor *)

Lemma filter_zrange_none off stride row sz n : forall y,
  0 <= stride -> row_fits off stride row sz y = false ->
  filter (row_fits off stride row sz) (zrange y n) = [].
Proof.
  induction n as [| n IH]; intros y Hs Hy; [reflexivity|].
  cbn [zrange filter]. rewrite Hy. apply IH; [exact Hs|].
  unfold row_fits in *. apply Z.leb_gt in Hy. apply Z.leb_gt. nia.
Qed.

(** With a stride that is not negative the rows that fit are the leading
    ones. *)
Lemma filter_zrange_prefix off stride row sz n : forall y,
  0 <= stride ->
  filter (row_fits off stride row sz) (zrange y n)
  = zrange y (List.length (filter (row_fits off stride row sz) (zrange y n))).
Proof.
  induction n as [| n IH]; intros y Hs; [reflexivity|].
  cbn [zrange filter].
  destruct (row_fits off stride row sz y) eqn:E.
  - cbn [List.length zrange]. f_equal. now apply IH.
  - rewrite filter_zrange_none; trivial.
    unfold row_fits in *. apply Z.leb_gt in E. apply Z.leb_gt. nia.
Qed.

Lemma gtb_row_fits off stride row sz y :
  (off + y * stride + row >? sz) = negb (row_fits off stride row sz y).
Proof.
  unfold row_fits. rewrite Z.gtb_ltb, Z.ltb_antisym. reflexivity.
Qed.

Lemma pixl_total_count off stride row sz n : forall y total,
  0 <= stride ->
  pixl_total n y off stride row sz total
  = total
    + Z.of_nat (List.length
                  (filter (row_fits off stride row sz) (zrange y n))) * row.
Proof.
  induction n as [| n IH]; intros y total Hs.
  - cbn. lia.
  - cbn [pixl_total zrange filter]. rewrite gtb_row_fits.
    destruct (row_fits off stride row sz y) eqn:E; cbn [negb].
    + rewrite IH by exact Hs. cbn [List.length]. lia.
    + rewrite filter_zrange_none; trivial; [cbn; lia|].
      unfold row_fits in *. apply Z.leb_gt in E. apply Z.leb_gt. nia.
Qed.

Lemma mm_read_slice (mm : bytes) pos n :
  0 <= pos -> 0 <= n -> pos + n <= len mm ->
  mm_read mm pos n = py_slice mm pos (pos + n).
Proof.
  intros Hp Hn Hl. unfold mm_read.
  replace (n <? 0) with false by (symmetry; apply Z.ltb_ge; lia).
  rewrite py_slice_inside by lia.
  rewrite firstn_skipn_comm. f_equal. f_equal. lia.
Qed.

Lemma pixl_rows_fit sink mm off stride row sz n : forall y st,
  0 <= off -> 0 <= stride -> 0 <= row -> 0 <= y -> sz <= len mm ->
  pixl_rows sink mm n y off stride row sz st
  = (Val tt, st,
     map (fun y => sink (row_bytes mm off stride row y))
       (filter (row_fits off stride row sz) (zrange y n))).
Proof.
  induction n as [| n IH]; intros y st Ho Hs Hr Hy Hl; [reflexivity|].
  cbn [pixl_rows zrange filter]. rewrite gtb_row_fits.
  destruct (row_fits off stride row sz y) eqn:E; cbn [negb].
  - unfold row_fits in E. apply Z.leb_le in E.
    assert (Hoy : 0 <= off + y * stride) by nia.
    unfold mm_seek.
    replace ((off + y * stride <? 0) || (len mm <? off + y * stride))
      with false.
    2:{ symmetry. apply orb_false_iff. rewrite !Z.ltb_ge. lia. }
    mstep. rewrite IH by (trivial; lia). cbn [after map app].
    rewrite mm_read_slice by lia. reflexivity.
  - rewrite filter_zrange_none; trivial.
    unfold row_fits in *. apply Z.leb_gt in E. apply Z.leb_gt. nia.
Qed.

Lemma len_row_bytes mm off stride row y :
  0 <= off + y * stride -> 0 <= row -> off + y * stride + row <= len mm ->
  len (row_bytes mm off stride row y) = row.
Proof.
  intros H1 H2 H3. unfold row_bytes.
  rewrite py_slice_inside by lia. unfold len in *.
  rewrite length_skipn, length_firstn. lia.
Qed.

Lemma length_zrange n : forall y, List.length (zrange y n) = n.
Proof. induction n as [| n IH]; intros y; cbn; [|rewrite IH]; reflexivity. Qed.

Lemma len_concat_uniform (l : list bytes) row :
  Forall (fun r => len r = row) l ->
  len (List.concat l) = Z.of_nat (List.length l) * row.
Proof.
  intros H. induction H as [| r l Hr _ IH]; [reflexivity|].
  cbn [List.concat List.length]. rewrite len_app, Hr, IH. lia.
Qed.

(** A frame that does not lie within the pool as a whole is dropped. *)
Lemma send_pixl_guard sid pid off w h stride fmt (pools : dict pool) st
  fd mm sz :
  dict_get pid pools = Some (fd, mm, sz) -> off + stride * h > sz ->
  send_pixl sid (pid, off, w, h, stride, fmt) pools st = (Val tt, st, []).
Proof.
  intros Hpool Hguard. unfold send_pixl. rewrite Hpool.
  destruct mm as [[| b view] |]; try reflexivity. cbn [mm_truthy negb].
  apply try_except_val.
  replace (off + stride * h >? sz) with true
    by (symmetry; rewrite Z.gtb_ltb; apply Z.ltb_lt; lia).
  reflexivity.
Qed.

(** C1, as amended: for a buffer in a mapped pool, with offset, stride,
    width and height that are not negative and a frame that the guard
    [off + stride*h <= sz] lets through, [send_pixl] in stdio mode writes
    a header "PIXL", surface id, width, height, format and payload length
    [N * row], then the first [N] rows, each the [row = w*4] bytes of the
    mapping at [off + y*stride], then flushes; [N] is the number of rows
    [y < h] with [off + y*stride + row <= sz]. *)
Theorem send_pixl_record sid pid off w h stride fmt (pools : dict pool) st
  fd (mm : bytes) sz :
  dict_get pid pools = Some (fd, Some mm, sz) ->
  mm <> [] -> sz <= len mm -> mode (proxy st) = stdio ->
  0 <= off -> 0 <= stride -> off + stride * h <= sz ->
  is_u32 sid = true -> is_u32 w = true -> is_u32 h = true ->
  is_u32 fmt = true ->
  let row := w * 4 in
  let N := fitting_rows off stride row sz h in
  is_u32 (Z.of_nat N * row) = true ->
  let header :=
    pixl_magic ++ le_split 4 sid ++ le_split 4 w ++ le_split 4 h
      ++ le_split 4 fmt ++ le_split 4 (Z.of_nat N * row) in
  let rows := map (row_bytes mm off stride row) (zrange 0 N) in
  send_pixl sid (pid, off, w, h, stride, fmt) pools st
  = (Val tt, st, HostWrite header :: map HostWrite rows ++ [HostFlush])
  /\ Forall (fun r => len r = row) rows
  /\ len (List.concat rows) = Z.of_nat N * row.
Proof.
  intros Hpool Hmm Hsz Hmode Hoff Hstride Hguard Hsid Hw Hh Hfmt row N HN
    header rows.
  assert (Hw0 : 0 <= row) by (apply is_u32_range in Hw; unfold row; lia).
  assert (Hrows : Forall (fun r => len r = row) rows).
  { unfold rows, N, fitting_rows.
    rewrite <- filter_zrange_prefix by exact Hstride.
    apply Forall_map, Forall_forall. intros y Hy.
    apply filter_In in Hy. destruct Hy as [Hin Hfit].
    unfold row_fits in Hfit. apply Z.leb_le in Hfit.
    assert (Hy0 : 0 <= y).
    { clear - Hin. revert Hin. generalize (Z.to_nat h).
      assert (G : forall n a, 0 <= a -> In y (zrange a n) -> 0 <= y).
      { induction n as [| n IH]; intros a Ha; cbn [zrange In];
          [contradiction|].
        intros [<- | Hin]; [exact Ha | apply (IH (a + 1)); [lia | exact Hin]]. }
      intros n. apply G. lia. }
    apply len_row_bytes; nia. }
  split; [|split; [exact Hrows|]].
  - unfold send_pixl. rewrite Hpool.
    destruct mm as [| b mm']; [contradiction|]. cbn [mm_truthy negb].
    apply try_except_val. fold row.
    replace (off + stride * h >? sz) with false
      by (symmetry; rewrite Z.gtb_ltb; apply Z.ltb_ge; lia).
    rewrite pixl_total_count by exact Hstride.
    fold (fitting_rows off stride row sz h). fold N. rewrite Z.add_0_l.
    unfold pixl_header.
    rewrite (pack_I_some _ Hsid), (pack_I_some _ Hw), (pack_I_some _ Hh),
      (pack_I_some _ Hfmt), (pack_I_some _ HN).
    fold pixl_magic. fold header. mstep. rewrite Hmode. mstep.
    rewrite (bind_of_val _ _ _ _ _ _
               (pixl_rows_fit HostWrite (b :: mm') off stride row sz
                  (Z.to_nat h) 0 st Hoff Hstride Hw0 (Z.le_refl 0) Hsz)).
    mstep. cbn [after]. do 2 f_equal.
    unfold rows, N, fitting_rows.
    rewrite <- filter_zrange_prefix by exact Hstride.
    rewrite map_map. reflexivity.
  - rewrite (len_concat_uniform rows row Hrows). unfold rows.
    now rewrite length_map, length_zrange.
Qed.

(** ** The serial counter *)

Lemma issued_app tr1 tr2 : issued (tr1 ++ tr2) = issued tr1 ++ issued tr2.
Proof. unfold issued. apply flat_map_app. Qed.

Lemma ascending_weaken l : forall s0 s s',
  s0 <= s -> ascending s l s' -> ascending s0 l s'.
Proof.
  destruct l as [| v l]; cbn [ascending]; intros s0 s s' H0 H; [lia|].
  destruct H as [H1 H2]. split; [lia | exact H2].
Qed.

Lemma ascending_app l1 : forall s s1 l2 s2,
  ascending s l1 s1 -> ascending s1 l2 s2 -> ascending s (l1 ++ l2) s2.
Proof.
  induction l1 as [| v l1 IH]; cbn [ascending app]; intros s s1 l2 s2 H1 H2.
  - eapply ascending_weaken; eassumption.
  - destruct H1 as [Hv H1]. split; [exact Hv|]. eapply IH; eassumption.
Qed.

Lemma ascending_bounds l : forall s s',
  ascending s l s' -> s <= s' /\ Forall (fun v => s < v <= s') l.
Proof.
  induction l as [| v l IH]; cbn [ascending]; intros s s' H.
  - split; [exact H | constructor].
  - destruct H as [Hv H]. destruct (IH _ _ H) as [Hle Hf].
    split; [lia|]. constructor; [lia|].
    eapply Forall_impl; [|exact Hf]. cbn. intros; lia.
Qed.

Lemma ascending_sorted l : forall s s',
  ascending s l s' -> StronglySorted Z.lt l.
Proof.
  induction l as [| v l IH]; cbn [ascending]; intros s s' H; constructor.
  - destruct H as [_ H]. eapply IH; exact H.
  - destruct H as [_ H]. apply ascending_bounds in H. destruct H as [_ H].
    eapply Forall_impl; [|exact H]. cbn. intros; lia.
Qed.

Lemma tidy_ret {A} (a : A) : tidy (ret a).
Proof. intros st r st' tr [= <- <- <-]. cbn. lia. Qed.

Lemma tidy_raise {A} : tidy (@raise A).
Proof. intros st r st' tr [= <- <- <-]. cbn. lia. Qed.

Lemma tidy_lift {A} (o : option A) : tidy (lift o).
Proof. destruct o; [apply tidy_ret | apply tidy_raise]. Qed.

Lemma tidy_get : tidy get.
Proof. intros st r st' tr [= <- <- <-]. cbn. lia. Qed.

Lemma tidy_emit e : issued [e] = [] -> tidy (emit e).
Proof. intros He st r st' tr [= <- <- <-]. rewrite He. cbn. lia. Qed.

Lemma tidy_modify f :
  (forall st, serial (f st) = serial st) -> tidy (modify f).
Proof. intros Hf st r st' tr [= <- <- <-]. rewrite Hf. cbn. lia. Qed.

Lemma tidy_fuel {A} : tidy (fun st => (@OutOfFuel A, st, [])).
Proof. intros st r st' tr [= <- <- <-]. cbn. lia. Qed.

Lemma tidy_bind {A B} (m : M A) (k : A -> M B) :
  tidy m -> (forall a, tidy (k a)) -> tidy (bind m k).
Proof.
  intros Hm Hk st r st' tr. unfold bind.
  destruct (m st) as [[[a | |] st1] tr1] eqn:E.
  - destruct (k a st1) as [[r2 st2] tr2] eqn:E2. cbn [after].
    intros [= <- <- <-]. rewrite issued_app.
    eapply ascending_app; [eapply Hm | eapply Hk]; eassumption.
  - intros [= <- <- <-]. eapply Hm; eassumption.
  - intros [= <- <- <-]. eapply Hm; eassumption.
Qed.

Lemma tidy_try_except {A} (m h : M A) :
  tidy m -> tidy h -> tidy (try_except m h).
Proof.
  intros Hm Hh st r st' tr. unfold try_except.
  destruct (m st) as [[[a | |] st1] tr1] eqn:E.
  - intros [= <- <- <-]. eapply Hm; eassumption.
  - destruct (h st1) as [[r2 st2] tr2] eqn:E2. cbn [after].
    intros [= <- <- <-]. rewrite issued_app.
    eapply ascending_app; [eapply Hm | eapply Hh]; eassumption.
  - intros [= <- <- <-]. eapply Hm; eassumption.
Qed.

Lemma tidy_for_each {A} (l : list A) (f : A -> M unit) :
  (forall x, tidy (f x)) -> tidy (for_each l f).
Proof.
  intros Hf. induction l as [| x l IH]; cbn [for_each].
  - apply tidy_ret.
  - apply tidy_bind; [apply Hf | intros _; exact IH].
Qed.

Lemma tidy_collect {A B} (l : list A) (f : A -> M B) :
  (forall x, tidy (f x)) -> tidy (collect l f).
Proof.
  intros Hf. induction l as [| x l IH]; cbn [collect].
  - apply tidy_ret.
  - apply tidy_bind; [apply Hf | intros y].
    apply tidy_bind; [exact IH | intros ys; apply tidy_ret].
Qed.

(** [next_serial] returns the counter plus one and leaves it there. *)
Lemma next_serial_spec st :
  next_serial st
  = (Val (serial st + 1), with_serial (serial st + 1) st,
     [Issue (serial st + 1)]).
Proof. unfold next_serial. mstep. reflexivity. Qed.

Lemma tidy_next_serial : tidy next_serial.
Proof.
  intros st r st' tr. rewrite next_serial_spec. intros [= <- <- <-].
  cbn. lia.
Qed.

Lemma tidy_send data : tidy (send data).
Proof. now apply tidy_emit. Qed.

Lemma tidy_set_object id info : tidy (set_object id info).
Proof. now apply tidy_modify. Qed.

Lemma tidy_del_object id : tidy (del_object id).
Proof. now apply tidy_modify. Qed.

Create HintDb tidy.

#[export] Hint Resolve tidy_ret tidy_raise tidy_lift tidy_get tidy_fuel
  tidy_next_serial tidy_send tidy_set_object tidy_del_object : tidy.

(** Goes through a computation written with the combinators. *)
Ltac tidy_step :=
  match goal with
  | |- tidy (bind _ _) => apply tidy_bind; [| intros ?]
  | |- tidy (try_except _ _) => apply tidy_try_except
  | |- tidy (for_each _ _) => apply tidy_for_each; intros ?
  | |- tidy (collect _ _) => apply tidy_collect; intros ?
  | |- tidy (modify _) => apply tidy_modify; intros ?; reflexivity
  | |- tidy (emit _) => apply tidy_emit; reflexivity
  | |- tidy (if ?c then _ else _) => destruct c
  | |- tidy (match ?x with _ => _ end) => destruct x
  | |- tidy (let (_, _) := ?x in _) => destruct x
  | |- tidy _ => solve [auto with tidy]
  end.

Ltac tidy_all := repeat tidy_step.

Lemma tidy_try_focus : tidy try_focus.
Proof. unfold try_focus. tidy_all. Qed.

Lemma tidy_pixl_rows sink mm n : forall y off stride row sz,
  (forall b, issued [sink b] = []) ->
  tidy (pixl_rows sink mm n y off stride row sz).
Proof.
  induction n as [| n IH]; intros y off stride row sz Hs; cbn [pixl_rows].
  - apply tidy_ret.
  - destruct (off + y * stride + row >? sz); [apply tidy_ret|].
    apply tidy_bind; [unfold mm_seek; tidy_all | intros _].
    apply tidy_bind; [apply tidy_emit, Hs | intros _]. now apply IH.
Qed.

Lemma tidy_send_pixl sid buf pools : tidy (send_pixl sid buf pools).
Proof.
  unfold send_pixl. tidy_all; apply tidy_pixl_rows; reflexivity.
Qed.

#[export] Hint Resolve tidy_try_focus tidy_send_pixl : tidy.

Lemma tidy_release_pool p : tidy (release_pool p).
Proof. unfold release_pool. tidy_all. Qed.

#[export] Hint Resolve tidy_release_pool : tidy.

Lemma tidy_dispatch mmap now obj_type object_id opcode payload :
  tidy (dispatch mmap now obj_type object_id opcode payload).
Proof.
  unfold dispatch, handle_display, handle_registry, handle_compositor,
    handle_shm, handle_shm_pool, handle_buffer, handle_surface,
    handle_xdg_wm_base, handle_xdg_surface, handle_xdg_toplevel,
    handle_seat, handle_data_device_manager, handle_region,
    handle_subcompositor.
  tidy_all.
Qed.

Lemma tidy_handle_loop mmap now fuel data :
  forall offset responses, tidy (handle_loop mmap now fuel data offset responses).
Proof.
  induction fuel as [| fuel IH]; intros offset responses; cbn [handle_loop].
  - apply tidy_fuel.
  - destruct (offset <? len data); [|apply tidy_ret].
    destruct (len data - offset <? HEADER_SIZE); [apply tidy_ret|].
    destruct (fst (decode_header (py_slice data offset (len data))))
      as [[[object_id opcode] size] |]; [|apply tidy_raise].
    destruct ((size <? 8) || (len data - offset <? size)); [apply tidy_ret|].
    apply tidy_bind; [apply tidy_get | intros st].
    destruct (dict_get object_id (objects st)) as [[obj_type obj_version] |];
      [|apply IH].
    apply tidy_bind; [apply tidy_dispatch | intros res; apply IH].
Qed.

Lemma tidy_handle_message mmap now data fds :
  tidy (handle_message mmap now data fds).
Proof.
  unfold handle_message.
  apply tidy_bind; [now apply tidy_modify | intros _].
  apply tidy_bind; [apply tidy_handle_loop | intros responses].
  tidy_all.
Qed.

Lemma tidy_close : tidy close.
Proof. unfold close. tidy_all. Qed.

Lemma tidy_client_ready mmap now d anc_fds :
  tidy (client_ready mmap now d anc_fds).
Proof.
  unfold client_ready. apply tidy_try_except.
  - destruct d; [apply tidy_raise|].
    apply tidy_bind; [apply tidy_handle_message | intros _; apply tidy_ret].
  - apply tidy_bind; [apply tidy_close | intros _; apply tidy_ret].
Qed.

Lemma tidy_broadcast_input now data : tidy (broadcast_input now data).
Proof. unfold broadcast_input. tidy_all. Qed.

Lemma tidy_run mmap steps : tidy (run mmap steps).
Proof.
  induction steps as [| s steps IH]; cbn [run]; [apply tidy_ret|].
  apply tidy_bind.
  - destruct s as [d anc_fds now | record now]; cbn [run_step].
    + apply tidy_client_ready.
    + apply tidy_bind; [apply tidy_broadcast_input | intros _; apply tidy_ret].
  - intros [|]; [exact IH | apply tidy_ret].
Qed.

Lemma broadcast_key now st p1 p2 reserved :
  is_u32 p1 = true -> is_u32 p2 = true -> len reserved = 4 ->
  Forall (fun k => is_u32 k = true)
    (objects_of "wl_keyboard" (objects st)) ->
  exists msgs,
    broadcast_input now (key_record p1 p2 reserved) st
    = (Val tt, with_serial (serial st + 1) st,
       Issue (serial st + 1) :: map ClientSend msgs)
    /\ Forall2
         (fun k m =>
            encode_message k 3
              [PyInt (serial st + 1); PyInt (Z.land now 4294967295);
               PyInt p2; PyInt p1] = Some m)
         (objects_of "wl_keyboard" (objects st)) msgs.
Proof.
  intros Hp1 Hp2 Hres Hkeys.
  set (magic := list_byte_of_string "INPT").
  set (st1 := with_serial (serial st + 1) st).
  destruct (collect_pure
              (fun k => lift (encode_message k 3
                 [PyInt (serial st + 1); PyInt (Z.land now 4294967295);
                  PyInt p2; PyInt p1]))
              (fun k m => encode_message k 3
                 [PyInt (serial st + 1); PyInt (Z.land now 4294967295);
                  PyInt p2; PyInt p1] = Some m)
              (objects_of "wl_keyboard" (objects st)) st1)
    as (msgs & Hc & Hf).
  { intros k Hk. rewrite Forall_forall in Hkeys.
    destruct (encode_message_some k 3
                [PyInt (serial st + 1); PyInt (Z.land now 4294967295);
                 PyInt p2; PyInt p1] (Hkeys k Hk))
      as (p & _ & _ & He); [vm_compute; reflexivity|].
    eexists. rewrite He. split; reflexivity. }
  exists msgs. split; [|exact Hf].
  unfold broadcast_input.
  assert (Hlen : len (key_record p1 p2 reserved) = 20).
  { unfold key_record. rewrite !len_app, !len_le_split, Hres. reflexivity. }
  rewrite Hlen. change (20 <? 20) with false. cbn iota.
  assert (H0 : py_slice (key_record p1 p2 reserved) 0 4 = magic).
  { exact (py_slice_middle [] magic _). }
  assert (H1 : py_slice (key_record p1 p2 reserved) 4 8 = le_split 4 1).
  { exact (py_slice_middle magic (le_split 4 1) _). }
  assert (H2 : py_slice (key_record p1 p2 reserved) 8 12 = le_split 4 p1).
  { unfold key_record. fold magic.
    rewrite (app_assoc magic (le_split 4 1)).
    exact (py_slice_middle (magic ++ le_split 4 1) (le_split 4 p1) _). }
  assert (H3 : py_slice (key_record p1 p2 reserved) 12 16 = le_split 4 p2).
  { unfold key_record. fold magic.
    rewrite (app_assoc magic (le_split 4 1)).
    rewrite (app_assoc (magic ++ le_split 4 1) (le_split 4 p1)).
    exact (py_slice_middle ((magic ++ le_split 4 1) ++ le_split 4 p1)
             (le_split 4 p2) reserved). }
  rewrite H0, H1, H2, H3.
  change (negb (bytes_eqb magic (list_byte_of_string "INPT"))) with false.
  cbn iota. apply try_except_val.
  rewrite (unpack_I_pack 1 eq_refl), (unpack_I_pack p1 Hp1),
    (unpack_I_pack p2 Hp2).
  mstep. rewrite (bind_of_val _ _ _ _ _ _ (next_serial_spec st)).
  fold st1. mstep. change (1 =? 1) with true. cbn iota.
  change (objects st1) with (objects st).
  rewrite (bind_of_val _ _ _ _ _ _ Hc). mstep.
  rewrite for_each_send. reflexivity.
Qed.

(** C6, as amended: [next_serial] returns the counter plus one; over any
    run of client batches and host input records on a connection, the
    values it returns are strictly increasing, each above the counter the
    run started with, and the counter never goes down.  One key record
    issues a single serial, and the key events sent to all the keyboards
    of the connection carry that same serial. *)
Theorem serials_strictly_increase :
  (forall st,
     next_serial st
     = (Val (serial st + 1), with_serial (serial st + 1) st,
        [Issue (serial st + 1)]))
  /\ (forall mmap steps st,
        StronglySorted Z.lt (issued (snd (run mmap steps st)))
        /\ Forall (fun v => serial st < v <= serial (snd (fst (run mmap steps st))))
             (issued (snd (run mmap steps st)))
        /\ serial st <= serial (snd (fst (run mmap steps st))))
  /\ (forall now st p1 p2 reserved,
        is_u32 p1 = true -> is_u32 p2 = true -> len reserved = 4 ->
        Forall (fun k => is_u32 k = true)
          (objects_of "wl_keyboard" (objects st)) ->
        exists msgs,
          broadcast_input now (key_record p1 p2 reserved) st
          = (Val tt, with_serial (serial st + 1) st,
             Issue (serial st + 1) :: map ClientSend msgs)
          /\ Forall2
               (fun k m =>
                  encode_message k 3
                    [PyInt (serial st + 1); PyInt (Z.land now 4294967295);
                     PyInt p2; PyInt p1] = Some m)
               (objects_of "wl_keyboard" (objects st)) msgs).
Proof.
  split; [exact next_serial_spec|]. split; [|exact broadcast_key].
  intros mmap steps st.
  destruct (run mmap steps st) as [[r st'] tr] eqn:E. cbn [fst snd].
  pose proof (tidy_run mmap steps st r st' tr E) as H.
  split; [eapply ascending_sorted; exact H|].
  apply ascending_bounds in H. destruct H as [H1 H2]. split; assumption.
Qed.

(** ** Concrete runs *)

Lemma serials_strictly_increase_witness :
  exists msgs,
    broadcast_input 77 (key_record 1 30 (le_split 4 0)) two_keyboards
    = (Val tt, with_serial (serial two_keyboards + 1) two_keyboards,
       Issue (serial two_keyboards + 1) :: map ClientSend msgs)
    /\ List.length msgs = 2%nat.
Proof.
  destruct serials_strictly_increase as (_ & _ & H).
  destruct (H 77 two_keyboards 1 30 (le_split 4 0)) as (msgs & Hrun & Hf).
  - reflexivity.
  - reflexivity.
  - reflexivity.
  - assert (E : objects_of "wl_keyboard" (objects two_keyboards) = [4; 5])
      by (vm_compute; reflexivity).
    rewrite E. repeat constructor.
  - exists msgs. split; [exact Hrun|].
    apply Forall2_length in Hf. rewrite <- Hf. reflexivity.
Defined.

(** C6, as stated, fails: with two keyboards on the connection, one key
    record makes the proxy send two [wl_keyboard.key] events (opcode 3 on
    objects 4 and 5) that carry the same serial. *)
Lemma key_events_share_serial :
  dict_get 4 (objects two_keyboards) = Some ("wl_keyboard"%string, 1)
  /\ dict_get 5 (objects two_keyboards) = Some ("wl_keyboard"%string, 1)
  /\ map (decode_message [TUint; TUint; TUint; TUint])
       (sent (trace_of (broadcast_input 77 (key_record 1 30 (le_split 4 0))
                          two_keyboards)))
     = [ Some (4, 3, [PyInt 1; PyInt 77; PyInt 30; PyInt 1]);
         Some (5, 3, [PyInt 1; PyInt 77; PyInt 30; PyInt 1]) ].
Proof. repeat split; vm_compute; reflexivity. Qed.

Lemma send_pixl_record_witness :
  send_pixl 6 (8, 0, 2, 4, 8, 1) (shm_pools one_surface) one_surface
  = (Val tt, one_surface,
     HostWrite (pixl_magic ++ le_split 4 6 ++ le_split 4 2 ++ le_split 4 4
                  ++ le_split 4 1 ++ le_split 4 32)
       :: map HostWrite
            (map (row_bytes (repeat Byte.xaa 32) 0 8 8) [0; 1; 2; 3])
       ++ [HostFlush]).
Proof.
  assert (Hpool : dict_get 8 (shm_pools one_surface)
                  = Some (33, Some (repeat Byte.xaa 32), 32))
    by reflexivity.
  assert (Hmm : repeat Byte.xaa 32 <> []) by discriminate.
  assert (Hsz : 32 <= len (repeat Byte.xaa 32))
    by (vm_compute; discriminate).
  assert (Hmode : mode (proxy one_surface) = stdio) by reflexivity.
  assert (Hguard : 0 + 8 * 4 <= 32) by lia.
  assert (HN : is_u32 (Z.of_nat (fitting_rows 0 8 (2 * 4) 32 4) * (2 * 4))
               = true) by reflexivity.
  exact (proj1 (send_pixl_record 6 8 0 2 4 8 1 (shm_pools one_surface)
                  one_surface 33 (repeat Byte.xaa 32) 32
                  Hpool Hmm Hsz Hmode (Z.le_refl 0) ltac:(lia) Hguard
                  eq_refl eq_refl eq_refl eq_refl HN)).
Defined.

(** C1, as stated, fails: a buffer of two rows of 4 bytes, stride 4, in a
    pool of 4 bytes has one row that lies within the pool, yet the guard
    [off + stride*h > sz] makes [send_pixl] return without writing
    anything. *)
Lemma send_pixl_guard_writes_nothing :
  fitting_rows 0 4 (1 * 4) 4 2 = 1%nat
  /\ send_pixl 6 (8, 0, 1, 2, 4, 1)
       [(8, (33, Some (repeat Byte.xaa 4), 4))] (new_client stdio_proxy)
     = (Val tt, new_client stdio_proxy, []).
Proof. split; reflexivity. Qed.

Lemma framing_desync_stops_batch_witness :
  handle_message no_mmap 0 (repeat Byte.x00 8) [] (new_client stdio_proxy)
  = (Val true, with_fds [] (new_client stdio_proxy), []).
Proof.
  destruct (framing_desync_stops_batch no_mmap 0 [] (new_client stdio_proxy))
    as (_ & H & _).
  apply (H (repeat Byte.x00 8) 0 0 0).
  - vm_compute. discriminate.
  - reflexivity.
  - left. lia.
Defined.

(** C3, as stated, fails: with one byte of garbage in front of a valid
    [get_registry] request nothing is processed (no registry object, no
    global sent), while the request alone is answered with the seven
    globals. *)
Lemma garbage_byte_loses_get_registry :
  handle_message no_mmap 0 (Byte.x00 :: get_registry_request 2) []
    (new_client stdio_proxy)
  = (Val true, new_client stdio_proxy, [])
  /\ List.length
       (sent (trace_of (handle_message no_mmap 0 (get_registry_request 2) []
                          (new_client stdio_proxy)))) = 7%nat
  /\ dict_get 2
       (objects (state_of (handle_message no_mmap 0
                             (get_registry_request 2) []
                             (new_client stdio_proxy))))
     = Some ("wl_registry"%string, 1).
Proof. repeat split; vm_compute; reflexivity. Qed.

(** The whole path from the handshake to a commit, in one batch with the
    pool's descriptor: the host receives the header and the 32 bytes of
    the frame, and the last message sent to the client is the release of
    buffer 9. *)
Lemma commit_batch_run :
  let out := handle_message filled_mmap 0 commit_batch [33]
               (new_client stdio_proxy) in
  fst (fst out) = Val true
  /\ host_bytes (trace_of out)
     = pixl_magic ++ le_split 4 6 ++ le_split 4 2 ++ le_split 4 4
         ++ le_split 4 1 ++ le_split 4 32 ++ repeat Byte.xaa 32
  /\ last (sent (trace_of out)) [] = release_event 9
  /\ fds (state_of out) = [].
Proof. repeat split; vm_compute; reflexivity. Qed.

(** ** Teardown *)

Lemma release_pool_events pid p st :
  release_pool p st = (Val tt, st, pool_release_events (pid, p)).
Proof.
  destruct p as [[fd mm] sz]. unfold release_pool, pool_release_events.
  destruct (mm_truthy mm), (fd >=? 0); mstep; reflexivity.
Qed.

(** [close] goes through the pool registry, releasing for each pool the
    mapped view and then the descriptor, and closes the socket. *)
Lemma close_releases_pools st :
  close st
  = (Val tt, st, flat_map pool_release_events (shm_pools st) ++ [SockClose]).
Proof.
  unfold close. rewrite bind_get.
  assert (H : forall l,
             for_each l (fun '(pid, p) => release_pool p) st
             = (Val tt, st, flat_map pool_release_events l)).
  { induction l as [| [pid p] l IH]; [reflexivity|].
    cbn [for_each flat_map].
    rewrite (bind_of_val _ _ _ _ _ _ (release_pool_events pid p st)), IH.
    reflexivity. }
  rewrite (bind_of_val _ _ _ _ _ _ (H (shm_pools st))). reflexivity.
Qed.

(** C9 on the code: a batch that carries descriptor 5 next to a
    [get_registry] request, followed by end of file.  The connection is
    closed ([run] answers [false], the socket is closed), no handler took
    the descriptor and nothing closed it. *)
Theorem unconsumed_fd_not_closed :
  let steps := [ClientData (get_registry_request 2) [5] 0;
                ClientData [] [] 0] in
  let out := run no_mmap steps (new_client stdio_proxy) in
  fst (fst out) = Val false
  /\ In SockClose (trace_of out)
  /\ closed_fds (trace_of out) = []
  /\ leaked_fds steps (trace_of out) = [5].
Proof. repeat split; vm_compute; auto 20. Qed.

(** ** The loop bound is never reached *)

Lemma ff_ret {A} (a : A) : fuel_free (ret a).
Proof. intros st. discriminate. Qed.

Lemma ff_raise {A} : fuel_free (@raise A).
Proof. intros st. discriminate. Qed.

Lemma ff_lift {A} (o : option A) : fuel_free (lift o).
Proof. destruct o; [apply ff_ret | apply ff_raise]. Qed.

Lemma ff_get : fuel_free get.
Proof. intros st. discriminate. Qed.

Lemma ff_emit e : fuel_free (emit e).
Proof. intros st. discriminate. Qed.

Lemma ff_modify f : fuel_free (modify f).
Proof. intros st. discriminate. Qed.

Lemma ff_bind {A B} (m : M A) (k : A -> M B) :
  fuel_free m -> (forall a, fuel_free (k a)) -> fuel_free (bind m k).
Proof.
  intros Hm Hk st. unfold bind. specialize (Hm st).
  destruct (m st) as [[[a | |] st1] tr1]; cbn [fst] in *;
    [|discriminate | contradiction].
  specialize (Hk a st1). destruct (k a st1) as [[r2 st2] tr2]. exact Hk.
Qed.

Lemma ff_try_except {A} (m h : M A) :
  fuel_free m -> fuel_free h -> fuel_free (try_except m h).
Proof.
  intros Hm Hh st. unfold try_except. specialize (Hm st).
  destruct (m st) as [[[a | |] st1] tr1]; cbn [fst] in *;
    [discriminate | | contradiction].
  specialize (Hh st1). destruct (h st1) as [[r2 st2] tr2]. exact Hh.
Qed.

Lemma ff_for_each {A} (l : list A) (f : A -> M unit) :
  (forall x, fuel_free (f x)) -> fuel_free (for_each l f).
Proof.
  intros Hf. induction l as [| x l IH]; cbn [for_each].
  - apply ff_ret.
  - apply ff_bind; [apply Hf | intros _; exact IH].
Qed.

Lemma ff_collect {A B} (l : list A) (f : A -> M B) :
  (forall x, fuel_free (f x)) -> fuel_free (collect l f).
Proof.
  intros Hf. induction l as [| x l IH]; cbn [collect].
  - apply ff_ret.
  - apply ff_bind; [apply Hf | intros y].
    apply ff_bind; [exact IH | intros ys; apply ff_ret].
Qed.

Create HintDb fuel.

#[export] Hint Resolve ff_ret ff_raise ff_lift ff_get ff_emit ff_modify
  : fuel.

Ltac ff_step :=
  match goal with
  | |- fuel_free (bind _ _) => apply ff_bind; [| intros ?]
  | |- fuel_free (try_except _ _) => apply ff_try_except
  | |- fuel_free (for_each _ _) => apply ff_for_each; intros ?
  | |- fuel_free (collect _ _) => apply ff_collect; intros ?
  | |- fuel_free (if ?c then _ else _) => destruct c
  | |- fuel_free (match ?x with _ => _ end) => destruct x
  | |- fuel_free (let (_, _) := ?x in _) => destruct x
  | |- fuel_free _ => solve [auto with fuel]
  end.

Ltac ff_all := repeat ff_step.

Lemma ff_next_serial : fuel_free next_serial.
Proof. unfold next_serial. ff_all. Qed.

Lemma ff_send data : fuel_free (send data).
Proof. apply ff_emit. Qed.

Lemma ff_set_object id info : fuel_free (set_object id info).
Proof. apply ff_modify. Qed.

Lemma ff_del_object id : fuel_free (del_object id).
Proof. apply ff_modify. Qed.

#[export] Hint Resolve ff_next_serial ff_send ff_set_object ff_del_object
  : fuel.

Lemma ff_try_focus : fuel_free try_focus.
Proof. unfold try_focus. ff_all. Qed.

Lemma ff_pixl_rows sink mm n : forall y off stride row sz,
  fuel_free (pixl_rows sink mm n y off stride row sz).
Proof.
  induction n as [| n IH]; intros y off stride row sz; cbn [pixl_rows].
  - apply ff_ret.
  - destruct (off + y * stride + row >? sz); [apply ff_ret|].
    apply ff_bind; [unfold mm_seek; ff_all | intros _].
    apply ff_bind; [apply ff_emit | intros _]. apply IH.
Qed.

#[export] Hint Resolve ff_try_focus ff_pixl_rows : fuel.

Lemma ff_send_pixl sid buf pools : fuel_free (send_pixl sid buf pools).
Proof. unfold send_pixl. ff_all. Qed.

Lemma ff_release_pool p : fuel_free (release_pool p).
Proof. unfold release_pool. ff_all. Qed.

#[export] Hint Resolve ff_send_pixl ff_release_pool : fuel.

Lemma ff_dispatch mmap now obj_type object_id opcode payload :
  fuel_free (dispatch mmap now obj_type object_id opcode payload).
Proof.
  unfold dispatch, handle_display, handle_registry, handle_compositor,
    handle_shm, handle_shm_pool, handle_buffer, handle_surface,
    handle_xdg_wm_base, handle_xdg_surface, handle_xdg_toplevel,
    handle_seat, handle_data_device_manager, handle_region,
    handle_subcompositor.
  ff_all.
Qed.

(** Each turn that goes on consumes at least 8 bytes, so a bound above
    an eighth of what is left is enough. *)
Lemma ff_handle_loop mmap now data fuel : forall offset responses,
  offset <= len data -> len data - offset < 8 * Z.of_nat fuel ->
  fuel_free (handle_loop mmap now fuel data offset responses).
Proof.
  induction fuel as [| fuel IH]; intros offset responses Ho Hf.
  - lia.
  - cbn [handle_loop].
    destruct (offset <? len data); [|apply ff_ret].
    destruct (len data - offset <? HEADER_SIZE); [apply ff_ret|].
    destruct (fst (decode_header (py_slice data offset (len data))))
      as [[[object_id opcode] size] |]; [|apply ff_raise].
    destruct ((size <? 8) || (len data - offset <? size)) eqn:E;
      [apply ff_ret|].
    apply orb_false_iff in E. destruct E as [E1 E2].
    apply Z.ltb_ge in E1, E2.
    assert (Hnext : forall r, fuel_free
              (handle_loop mmap now fuel data (offset + size) r)).
    { intros r. apply IH; lia. }
    apply ff_bind; [apply ff_get | intros st].
    destruct (dict_get object_id (objects st)) as [[obj_type obj_version] |];
      [|apply Hnext].
    apply ff_bind; [apply ff_dispatch | intros res; apply Hnext].
Qed.

(** [handle_message] returns or raises: the bound it gives its loop is
    never reached. *)
Lemma handle_message_terminates mmap now data fds :
  fuel_free (handle_message mmap now data fds).
Proof.
  unfold handle_message.
  apply ff_bind; [apply ff_modify | intros _].
  apply ff_bind.
  - apply ff_handle_loop; [apply len_nonneg|].
    unfold len. lia.
  - intros responses. ff_all.
Qed.

Lemma run_terminates mmap steps : fuel_free (run mmap steps).
Proof.
  induction steps as [| s steps IH]; cbn [run]; [apply ff_ret|].
  apply ff_bind.
  - destruct s as [d anc_fds now | record now]; cbn [run_step].
    + unfold client_ready, close. apply ff_try_except.
      * destruct d; [apply ff_raise|].
        apply ff_bind; [apply handle_message_terminates|].
        intros _. apply ff_ret.
      * ff_all.
    + unfold broadcast_input. ff_all.
  - intros [|]; [exact IH | apply ff_ret].
Qed.

(** * Further properties of the code *)

(** ** Dictionaries *)


Lemma dict_get_none_keys {V} k (d : dict V) :
  dict_get k d = None <-> ~ In k (map fst d).
Proof.
  induction d as [| [k0 v0] d IH]; cbn [dict_get map fst In].
  - tauto.
  - destruct (k0 =? k) eqn:E.
    + apply Z.eqb_eq in E. split; [discriminate | tauto].
    + apply Z.eqb_neq in E. rewrite IH. tauto.
Qed.

Lemma dict_del_keys {V} k (d : dict V) x :
  In x (map fst (dict_del k d)) -> In x (map fst d).
Proof.
  induction d as [| [k0 v0] d IH]; cbn [dict_del map fst In]; [tauto|].
  destruct (k0 =? k); cbn [map fst In]; tauto.
Qed.

(** With keys that are unique, as in a Python dictionary, a deleted key
    is gone. *)
Lemma dict_get_del_same {V} k (d : dict V) :
  NoDup (map fst d) -> dict_get k (dict_del k d) = None.
Proof.
  induction d as [| [k0 v0] d IH]; cbn [dict_del map fst]; intros Hnd.
  - reflexivity.
  - inversion Hnd as [| ? ? Hnotin Hnd']; subst.
    destruct (k0 =? k) eqn:E.
    + apply Z.eqb_eq in E. subst k0. now apply dict_get_none_keys.
    + cbn [dict_get]. rewrite E. now apply IH.
Qed.

Lemma dict_get_del_other {V} k k' (d : dict V) :
  k' <> k -> dict_get k' (dict_del k d) = dict_get k' d.
Proof.
  intros Hne. induction d as [| [k0 v0] d IH]; cbn [dict_del dict_get].
  - reflexivity.
  - destruct (k0 =? k) eqn:E.
    + apply Z.eqb_eq in E. subst k0.
      destruct (k =? k') eqn:E'; [apply Z.eqb_eq in E'; congruence|].
      reflexivity.
    + cbn [dict_get]. destruct (k0 =? k'); [reflexivity | exact IH].
Qed.

(** Setting a new key and deleting it again gives the dictionary back. *)
Lemma dict_del_set_fresh {V} k (v : V) d :
  dict_get k d = None -> dict_del k (dict_set k v d) = d.
Proof.
  induction d as [| [k0 v0] d IH]; cbn [dict_get dict_set dict_del].
  - now rewrite Z.eqb_refl.
  - destruct (k0 =? k) eqn:E; [discriminate|]. intros H.
    cbn [dict_del]. rewrite E. now rewrite IH.
Qed.

Lemma dict_set_keys_nodup {V} k (v : V) d :
  NoDup (map fst d) -> NoDup (map fst (dict_set k v d)).
Proof.
  induction d as [| [k0 v0] d IH]; cbn [dict_set map fst]; intros Hnd.
  - constructor; [tauto | constructor].
  - inversion Hnd as [| ? ? Hnotin Hnd']; subst.
    destruct (k0 =? k) eqn:E; cbn [map fst].
    + apply Z.eqb_eq in E. subst k0. now constructor.
    + constructor; [|now apply IH].
      intros Hin. apply Hnotin. clear - Hin E.
      induction d as [| [k1 v1] d IH]; cbn [dict_set map fst In] in *.
      * destruct Hin as [-> | []]. now rewrite Z.eqb_refl in E.
      * destruct (k1 =? k) eqn:E1; cbn [map fst In] in Hin.
        -- apply Z.eqb_eq in E1. subst k1.
           destruct Hin as [-> | Hin]; [now rewrite Z.eqb_refl in E | tauto].
        -- destruct Hin as [-> | Hin]; [tauto | right; now apply IH].
Qed.

(** ** The size field and the limits of [encode_message] *)

(** X1: whenever [encode_message] returns, the message starts with the
    object id and a word whose upper half is the length of the whole
    message and whose lower half is the opcode cut to 16 bits:
    [decode_header] gives them back with the payload; the object id is a
    u32 and the message has between 8 and 65535 bytes.  A payload that
    would make it longer makes [struct.pack] raise. *)
Theorem encode_message_header oid op args :
  (forall msg,
     encode_message oid op args = Some msg ->
     exists payload,
       encode_payload args = Some payload
       /\ decode_header msg
          = (Some (oid, Z.land op 65535, len msg), payload)
       /\ len msg = 8 + len payload
       /\ len msg < 65536 /\ is_u32 oid = true)
  /\ (forall payload,
        encode_payload args = Some payload ->
        65536 <= 8 + len payload ->
        encode_message oid op args = None).
Proof.
  split.
  - intros msg H. unfold encode_message in H.
    destruct (encode_payload args) as [payload |]; [|discriminate].
    exists payload. unfold pack_I, HEADER_SIZE in H.
    destruct (is_u32 oid) eqn:Ho; [|discriminate].
    destruct (is_u32 (Z.lor (Z.shiftl (8 + len payload) 16)
                        (Z.land op 65535))) eqn:Hw; [|discriminate].
    apply some_inj in H. subst msg.
    pose proof (len_nonneg payload) as Hp.
    pose proof (land_mask16_range op) as Hop.
    assert (E : Z.lor (Z.shiftl (8 + len payload) 16) (Z.land op 65535)
                = (8 + len payload) * 65536 + Z.land op 65535).
    { rewrite <- (header_word_split (8 + len payload) (Z.land op 65535))
        by lia.
      rewrite <- Z.land_assoc, Z.land_diag. reflexivity. }
    assert (Hlen : len (le_split 4 oid
                          ++ le_split 4 (Z.lor (Z.shiftl (8 + len payload) 16)
                                           (Z.land op 65535))
                          ++ payload) = 8 + len payload).
    { rewrite !len_app, !len_le_split. lia. }
    split; [reflexivity|].
    rewrite (decode_header_layout oid _ payload Ho Hw), Hlen.
    rewrite E at 1 2.
    rewrite (header_word_size _ _ Hop), (header_word_opcode _ _ Hop).
    split; [reflexivity|]. split; [reflexivity|]. split; [|reflexivity].
    apply is_u32_range in Hw. rewrite E in Hw.
    change (2 ^ 32) with 4294967296 in Hw. lia.
  - intros payload Hp Hbig. unfold encode_message. rewrite Hp.
    unfold HEADER_SIZE.
    destruct (pack_I oid); [|reflexivity].
    pose proof (len_nonneg payload) as Hn.
    pose proof (land_mask16_range op) as Hop.
    assert (E : Z.lor (Z.shiftl (8 + len payload) 16) (Z.land op 65535)
                = (8 + len payload) * 65536 + Z.land op 65535).
    { rewrite <- (header_word_split (8 + len payload) (Z.land op 65535))
        by lia.
      rewrite <- Z.land_assoc, Z.land_diag. reflexivity. }
    unfold pack_I.
    replace (is_u32 (Z.lor (Z.shiftl (8 + len payload) 16)
                       (Z.land op 65535))) with false; [reflexivity|].
    symmetry. rewrite E. unfold is_u32, u32_max.
    apply andb_false_iff. right. apply Z.leb_gt. lia.
Qed.

Lemma encode_message_header_witness :
  exists payload,
    encode_payload [PyInt 800; PyInt 600; PyBytes []] = Some payload
    /\ decode_header (le_split 4 7 ++ le_split 4 (16 * 65536)
                        ++ le_split 4 800 ++ le_split 4 600)
       = (Some (7, Z.land 0 65535,
                len (le_split 4 7 ++ le_split 4 (16 * 65536)
                       ++ le_split 4 800 ++ le_split 4 600)), payload).
Proof.
  assert (H : encode_message 7 0 [PyInt 800; PyInt 600; PyBytes []]
              = Some (le_split 4 7 ++ le_split 4 (16 * 65536)
                        ++ le_split 4 800 ++ le_split 4 600))
    by reflexivity.
  destruct (proj1 (encode_message_header 7 0
                     [PyInt 800; PyInt 600; PyBytes []]) _ H)
    as (payload & Hp & Hd & _).
  exists payload. split; assumption.
Defined.

(** ** What [read_string] returns *)

Lemma lstrip_nul_suffix l : exists z, l = z ++ lstrip_nul l.
Proof.
  induction l as [| b l IH]; [now exists []|]. cbn [lstrip_nul].
  destruct (Byte.eqb b Byte.x00).
  - destruct IH as [z Hz]. exists (b :: z). cbn. now f_equal.
  - now exists [].
Qed.

Lemma lstrip_nul_head l b l' :
  lstrip_nul l = b :: l' -> Byte.eqb b Byte.x00 = false.
Proof.
  induction l as [| a l IH]; cbn [lstrip_nul]; [discriminate|].
  destruct (Byte.eqb a Byte.x00) eqn:E; [exact IH|].
  now intros [= <- _].
Qed.

Lemma strip_nul_no_nul_ends s : nul_ends (encode_utf8 (strip_nul s)) = false.
Proof.
  unfold strip_nul, encode_utf8. rewrite list_byte_of_string_of_list_byte.
  set (L := lstrip_nul (list_byte_of_string s)).
  set (Y := lstrip_nul (rev L)).
  unfold nul_ends. rewrite rev_involutive. apply orb_false_iff. split.
  - destruct (rev Y) as [| b X] eqn:EX; [reflexivity|].
    destruct (lstrip_nul_suffix (rev L)) as [z Hz]. fold Y in Hz.
    apply (f_equal (@rev byte)) in Hz.
    rewrite rev_involutive, rev_app_distr, EX in Hz. cbn [app] in Hz.
    unfold L in Hz. now apply lstrip_nul_head in Hz.
  - destruct Y as [| b Y'] eqn:EY; [reflexivity|].
    unfold Y in EY. now apply lstrip_nul_head in EY.
Qed.

(** X2: when [read_string] returns, the string has no NUL at either
    end, and the new offset is the old one plus 4, the length word and
    the padding to the next multiple of 4 of that length, whether or not
    the data holds that many bytes: the distance is a multiple of 4. *)
Theorem read_string_result data offset s pos :
  read_string data offset = Some (s, pos) ->
  nul_ends (encode_utf8 s) = false
  /\ exists length,
       read_uint data offset = Some (length, offset + 4)
       /\ pos = offset + 4 + length + (4 - length mod 4) mod 4
       /\ (pos - offset) mod 4 = 0.
Proof.
  unfold read_string. intros H.
  destruct (read_uint data offset) as [[length o] |] eqn:Er; [|discriminate].
  assert (o = offset + 4).
  { unfold read_uint in Er.
    destruct (unpack_I (py_slice data offset (offset + 4)));
      [now injection Er as _ <- | discriminate]. }
  subst o.
  destruct (decode_utf8 (py_slice data (offset + 4)
                           (offset + 4 + length - 1))) as [s0 |];
    [|discriminate].
  apply some_inj in H. apply pair_equal_spec in H. destruct H as [<- <-].
  split; [apply strip_nul_no_nul_ends|].
  exists length. split; [reflexivity|]. split; [reflexivity|].
  replace (offset + 4 + length + (4 - length mod 4) mod 4 - offset)
    with (4 + length + (4 - length mod 4) mod 4) by lia.
  clear. Z.div_mod_to_equations. lia.
Qed.

Lemma read_string_result_witness :
  nul_ends (encode_utf8 "wl_shm") = false
  /\ exists length,
       read_uint (le_split 4 9 ++ list_byte_of_string "wl_shm"
                    ++ repeat Byte.x00 3) 0 = Some (length, 0 + 4)
       /\ 16 = 0 + 4 + length + (4 - length mod 4) mod 4
       /\ (16 - 0) mod 4 = 0.
Proof.
  assert (H : read_string (le_split 4 9 ++ list_byte_of_string "wl_shm"
                             ++ repeat Byte.x00 3) 0
              = Some ("wl_shm"%string, 16)) by reflexivity.
  exact (read_string_result _ 0 "wl_shm" 16 H).
Defined.

(** ** A batch of one message *)

Lemma len_py_slice {A} (l : list A) i j :
  0 <= i <= j -> j <= len l -> len (py_slice l i j) = j - i.
Proof.
  intros Hi Hj. rewrite py_slice_inside by lia. unfold len in *.
  rewrite length_skipn, length_firstn. lia.
Qed.

Lemma read_uint_short (pay : bytes) :
  len pay < 4 -> read_uint pay 0 = None.
Proof.
  intros H. unfold read_uint, unpack_I.
  assert (Hl : (List.length (py_slice pay 0 (0 + 4)) < 4)%nat).
  { unfold py_slice. rewrite length_skipn, length_firstn.
    unfold len in *. lia. }
  destruct (List.length (py_slice pay 0 (0 + 4)) =? 4)%nat eqn:E;
    [apply Nat.eqb_eq in E; lia | reflexivity].
Qed.

(** One turn of the loop on a message for an object of the table. *)
Lemma handle_loop_turn mmap now fuel data offset responses st
  object_id opcode size obj_type obj_version :
  offset < len data ->
  fst (decode_header (py_slice data offset (len data)))
  = Some (object_id, opcode, size) ->
  8 <= size <= len data - offset ->
  dict_get object_id (objects st) = Some (obj_type, obj_version) ->
  handle_loop mmap now (S fuel) data offset responses st
  = bind (dispatch mmap now obj_type object_id opcode
            (py_slice data (offset + HEADER_SIZE) (offset + size)))
      (fun res =>
         handle_loop mmap now fuel data (offset + size) (responses ++ res))
      st.
Proof.
  intros Ho Hd Hs Hobj. cbn [handle_loop].
  replace (offset <? len data) with true by (symmetry; apply Z.ltb_lt; lia).
  replace (len data - offset <? HEADER_SIZE) with false
    by (symmetry; apply Z.ltb_ge; unfold HEADER_SIZE; lia).
  rewrite Hd.
  replace ((size <? 8) || (len data - offset <? size)) with false.
  2:{ symmetry. apply orb_false_iff. rewrite !Z.ltb_ge. lia. }
  rewrite bind_get, Hobj. reflexivity.
Qed.

Lemma handle_loop_end mmap now fuel data offset responses st :
  len data <= offset ->
  handle_loop mmap now (S fuel) data offset responses st
  = (Val responses, st, []).
Proof.
  intros H. cbn [handle_loop].
  replace (offset <? len data) with false by (symmetry; apply Z.ltb_ge; lia).
  reflexivity.
Qed.

(** A batch that is exactly one message for a known object: the handler
    runs, then its responses are sent. *)
Lemma handle_message_single mmap now data fds st
  object_id opcode obj_type obj_version :
  8 <= len data ->
  fst (decode_header data) = Some (object_id, opcode, len data) ->
  dict_get object_id (objects st) = Some (obj_type, obj_version) ->
  handle_message mmap now data fds st
  = send_responses
      (dispatch mmap now obj_type object_id opcode
         (py_slice data HEADER_SIZE (len data)) (with_fds fds st)).
Proof.
  intros Hl Hd Hobj. rewrite handle_message_loop.
  rewrite (handle_loop_turn mmap now _ data 0 [] (with_fds fds st)
             object_id opcode (len data) obj_type obj_version);
    try lia; trivial.
  2:{ now rewrite py_slice_all. }
  rewrite !Z.add_0_l. unfold bind.
  destruct (dispatch mmap now obj_type object_id opcode
              (py_slice data HEADER_SIZE (len data)) (with_fds fds st))
    as [[[res | |] st1] tr1]; try reflexivity.
  destruct (List.length data) as [| n] eqn:En;
    [unfold len in Hl; rewrite En in Hl; cbn in Hl; lia|].
  rewrite handle_loop_end by lia. cbn [after app send_responses].
  now rewrite app_nil_r.
Qed.

(** ** Messages that are skipped *)

(** X3: a message addressed to an id that is not in the object table is
    skipped: the loop goes on behind it with the same connection and the
    same pending responses; a batch made of that message alone does
    nothing and the call returns normally. *)
Theorem unknown_object_skipped mmap now st object_id :
  dict_get object_id (objects st) = None ->
  (forall fuel data offset responses opcode size,
     offset < len data ->
     fst (decode_header (py_slice data offset (len data)))
     = Some (object_id, opcode, size) ->
     8 <= size <= len data - offset ->
     handle_loop mmap now (S fuel) data offset responses st
     = handle_loop mmap now fuel data (offset + size) responses st)
  /\ (forall data fds opcode,
        8 <= len data ->
        fst (decode_header data) = Some (object_id, opcode, len data) ->
        handle_message mmap now data fds st
        = (Val true, with_fds fds st, [])).
Proof.
  intros Hobj.
  assert (Hturn : forall st0 fuel data offset responses opcode size,
     dict_get object_id (objects st0) = None ->
     offset < len data ->
     fst (decode_header (py_slice data offset (len data)))
     = Some (object_id, opcode, size) ->
     8 <= size <= len data - offset ->
     handle_loop mmap now (S fuel) data offset responses st0
     = handle_loop mmap now fuel data (offset + size) responses st0).
  { intros st0 fuel data offset responses opcode size H0 Ho Hd Hs.
    cbn [handle_loop].
    replace (offset <? len data) with true
      by (symmetry; apply Z.ltb_lt; lia).
    replace (len data - offset <? HEADER_SIZE) with false
      by (symmetry; apply Z.ltb_ge; unfold HEADER_SIZE; lia).
    rewrite Hd.
    replace ((size <? 8) || (len data - offset <? size)) with false.
    2:{ symmetry. apply orb_false_iff. rewrite !Z.ltb_ge. lia. }
    rewrite bind_get, H0. reflexivity. }
  split.
  - intros fuel data offset responses opcode size. now apply Hturn.
  - intros data fds opcode Hl Hd. rewrite handle_message_loop.
    rewrite (Hturn (with_fds fds st) _ data 0 [] opcode (len data));
      try lia; trivial.
    2:{ now rewrite py_slice_all. }
    destruct (List.length data) as [| n] eqn:En;
      [unfold len in Hl; rewrite En in Hl; cbn in Hl; lia|].
    rewrite handle_loop_end by lia. reflexivity.
Qed.

Lemma unknown_object_skipped_witness :
  handle_message no_mmap 0 (request 42 3 (le_split 4 7)) []
    (new_client stdio_proxy)
  = (Val true, with_fds [] (new_client stdio_proxy), []).
Proof.
  assert (H : dict_get 42 (objects (new_client stdio_proxy)) = None)
    by reflexivity.
  apply (proj2 (unknown_object_skipped no_mmap 0 (new_client stdio_proxy)
                  42 H) (request 42 3 (le_split 4 7)) [] 3).
  - vm_compute. discriminate.
  - reflexivity.
Defined.

Lemma eqb_false_of_ge op c : c < op -> (op =? c) = false.
Proof. intros H. apply Z.eqb_neq. lia. Qed.

(** X4: requests that no handler knows are accepted and ignored.  For an
    opcode above 6 on any interface, and for any opcode on an interface
    without a handler ([wl_keyboard], [wl_pointer], [wl_output],
    [wl_callback], [xdg_toplevel], whatever string a client bound), the
    dispatch returns no message, performs nothing and leaves the
    connection as it was, whatever the payload. *)
Theorem unhandled_request_ignored mmap now obj_type object_id opcode
  payload st :
  6 < opcode \/ ~ In obj_type handled_interfaces ->
  dispatch mmap now obj_type object_id opcode payload st = (Val [], st, []).
Proof.
  intros [Hop | Hty].
  - pose proof (eqb_false_of_ge opcode 0 ltac:(lia)) as H0.
    pose proof (eqb_false_of_ge opcode 1 ltac:(lia)) as H1.
    pose proof (eqb_false_of_ge opcode 2 ltac:(lia)) as H2.
    pose proof (eqb_false_of_ge opcode 3 ltac:(lia)) as H3.
    pose proof (eqb_false_of_ge opcode 6 ltac:(lia)) as H6.
    unfold dispatch, handle_display, handle_registry, handle_compositor,
      handle_shm, handle_shm_pool, handle_buffer, handle_surface,
      handle_xdg_wm_base, handle_xdg_surface, handle_xdg_toplevel,
      handle_seat, handle_data_device_manager, handle_region,
      handle_subcompositor.
    rewrite ?H0, ?H1, ?H2, ?H3, ?H6.
    repeat match goal with
           | |- (if ?c then _ else _) _ = _ => destruct c
           end; reflexivity.
  - unfold dispatch.
    repeat match goal with
           | |- (if String.eqb obj_type ?n then _ else _) _ = _ =>
               destruct (String.eqb_spec obj_type n) as [E | _];
               [first [ reflexivity
                      | exfalso; apply Hty; rewrite E;
                        unfold handled_interfaces; cbn [In]; tauto ]|]
           end.
    reflexivity.
Qed.

Lemma unhandled_request_ignored_witness :
  dispatch no_mmap 0 "wl_surface" 6 8 (le_split 4 1) one_surface
  = (Val [], one_surface, [])
  /\ dispatch no_mmap 0 "wl_pointer" 6 0 [] two_keyboards
     = (Val [], two_keyboards, []).
Proof.
  split.
  - apply unhandled_request_ignored. left. lia.
  - apply unhandled_request_ignored. right.
    unfold handled_interfaces. cbn [In].
    intros H. repeat (destruct H as [H | H]; [discriminate H|]). exact H.
Defined.

(** ** Requests on the display *)

Lemma handle_message_raises mmap now data fds st
  object_id opcode size obj_type obj_version :
  8 <= size <= len data ->
  fst (decode_header data) = Some (object_id, opcode, size) ->
  dict_get object_id (objects st) = Some (obj_type, obj_version) ->
  dispatch mmap now obj_type object_id opcode
    (py_slice data HEADER_SIZE size) (with_fds fds st)
  = (Exc, with_fds fds st, []) ->
  handle_message mmap now data fds st = (Exc, with_fds fds st, []).
Proof.
  intros Hs Hd Hobj Hx. rewrite handle_message_loop.
  rewrite (handle_loop_turn mmap now _ data 0 [] (with_fds fds st)
             object_id opcode size obj_type obj_version);
    try lia; trivial.
  2:{ now rewrite py_slice_all. }
  rewrite !Z.add_0_l. rewrite (bind_of_exc _ _ _ _ _ Hx). reflexivity.
Qed.

(** X5: a [sync] or [get_registry] request whose payload has fewer than
    4 bytes makes [read_uint] raise inside [handle_message]; nothing of
    the batch is answered, whatever follows the request in it, and the
    client branch of [run_stdio] closes the connection: every registered
    pool is released, the socket is closed and the client is dropped. *)
Theorem short_display_request_closes mmap now data fds st
  object_id opcode size obj_version :
  fst (decode_header data) = Some (object_id, opcode, size) ->
  8 <= size <= len data -> size < 12 ->
  opcode = 0 \/ opcode = 1 ->
  dict_get object_id (objects st) = Some ("wl_display"%string, obj_version) ->
  handle_message mmap now data fds st = (Exc, with_fds fds st, [])
  /\ client_ready mmap now data fds st
     = (Val false, with_fds fds st,
        flat_map pool_release_events (shm_pools st) ++ [SockClose]).
Proof.
  intros Hd Hs H12 Hop Hobj.
  assert (Hraise : handle_message mmap now data fds st
                   = (Exc, with_fds fds st, [])).
  { apply (handle_message_raises mmap now data fds st object_id opcode size
             "wl_display" obj_version); trivial.
    assert (Hr : read_uint (py_slice data HEADER_SIZE size) 0 = None).
    { apply read_uint_short. unfold HEADER_SIZE.
      rewrite len_py_slice by lia. lia. }
    change (dispatch mmap now "wl_display" object_id opcode
              (py_slice data HEADER_SIZE size))
      with (handle_display now opcode (py_slice data HEADER_SIZE size)).
    unfold handle_display.
    destruct Hop as [-> | ->]; cbn [Z.eqb]; rewrite Hr; reflexivity. }
  split; [exact Hraise|].
  unfold client_ready.
  destruct data as [| b data'];
    [unfold len in Hs; cbn in Hs; lia|].
  rewrite (try_except_exc _ _ st (with_fds fds st) []).
  - rewrite (bind_of_val _ _ _ _ _ _ (close_releases_pools (with_fds fds st))).
    unfold ret. cbn [after app]. rewrite app_nil_r. reflexivity.
  - now rewrite (bind_of_exc _ _ _ _ _ Hraise).
Qed.

Lemma short_display_request_closes_witness :
  client_ready no_mmap 0 (request 1 0 [] ++ get_registry_request 2) []
    (new_client stdio_proxy)
  = (Val false, with_fds [] (new_client stdio_proxy),
     flat_map pool_release_events (shm_pools (new_client stdio_proxy))
       ++ [SockClose]).
Proof.
  apply (proj2 (short_display_request_closes no_mmap 0
                  (request 1 0 [] ++ get_registry_request 2) []
                  (new_client stdio_proxy) 1 0 8 1
                  eq_refl
                  ltac:(vm_compute; split; discriminate)
                  ltac:(lia) (or_introl eq_refl) eq_refl)).
Defined.

Lemma done_event_encoded cb_id now :
  is_u32 cb_id = true ->
  exists m,
    encode_message cb_id 0 [PyInt (Z.land now 4294967295)] = Some m
    /\ decode_message [TUint] m = done_event cb_id now.
Proof.
  intros Hu.
  destruct (decode_encode_message cb_id 0 [TUint]
              [PyInt (Z.land now 4294967295)] Hu) as (m & He & Hd & _).
  - lia.
  - cbn [args_ok arg_ok]. now rewrite land_mask_u32.
  - reflexivity.
  - exists m. split; [exact He|]. rewrite Hd. unfold done_event.
    change 4294967295 with (Z.ones 32). now rewrite Z.land_ones by lia.
Qed.

Lemma with_objects_same st : with_objects (fun d => d) st = st.
Proof. now destruct st. Qed.

(** X6: [sync] with a payload of 4 bytes or more answers with one
    [wl_callback.done] on the new id carrying the clock reading modulo
    2^32, and the id is not left in the object table.  When the id was
    free the connection is exactly as before; when the client names an id
    that is in use, that object is removed from the table too (with the
    unique keys of a dictionary nothing is left under the id). *)
Theorem sync_answers_and_forgets now payload st :
  4 <= len payload ->
  let cb_id := le_combine (firstn 4 payload) in
  exists m,
    handle_display now 0 payload st = (Val [m], callback_gone cb_id st, [])
    /\ decode_message [TUint] m = done_event cb_id now
    /\ (dict_get cb_id (objects st) = None -> callback_gone cb_id st = st)
    /\ (NoDup (map fst (objects st)) ->
        dict_get cb_id (objects (callback_gone cb_id st)) = None).
Proof.
  intros Hlen cb_id.
  destruct (read_uint_prefix payload Hlen) as [Hr Hu]. fold cb_id in Hr, Hu.
  destruct (done_event_encoded cb_id now Hu) as (m & He & Hd).
  exists m. split; [|split; [exact Hd | split]].
  - unfold handle_display. cbn [Z.eqb]. rewrite Hr. mstep. rewrite He.
    mstep. reflexivity.
  - intros Hfree. unfold callback_gone.
    rewrite <- (with_objects_same st) at 2.
    destruct st as [p o su b sp se f]. unfold with_objects. cbn in *.
    f_equal. now apply dict_del_set_fresh.
  - intros Hnd. unfold callback_gone. cbn [objects with_objects].
    apply dict_get_del_same. now apply dict_set_keys_nodup.
Qed.

Lemma sync_answers_and_forgets_witness :
  exists m,
    handle_display 5 0 (le_split 4 1) (new_client stdio_proxy)
    = (Val [m],
       callback_gone (le_combine (firstn 4 (le_split 4 1)))
         (new_client stdio_proxy), [])
    /\ dict_get (le_combine (firstn 4 (le_split 4 1)))
         (objects (callback_gone (le_combine (firstn 4 (le_split 4 1)))
                     (new_client stdio_proxy))) = None.
Proof.
  assert (H : 4 <= len (le_split 4 1)) by (vm_compute; discriminate).
  destruct (sync_answers_and_forgets 5 (le_split 4 1)
              (new_client stdio_proxy) H) as (m & Hrun & _ & _ & Hgone).
  exists m. split; [exact Hrun|]. apply Hgone.
  cbn. constructor; [tauto | constructor].
Defined.

Lemma handle_surface_frame now oid pay :
  handle_surface now oid 3 pay
  = try_except
      (if len pay <? 4 then ret []
       else
         '(cb_id, pos) <- lift (read_uint pay 0) ;;
         set_object cb_id ("wl_callback"%string, 1) ;;
         m <- lift (encode_message cb_id 0 [PyInt (Z.land now 4294967295)]) ;;
         del_object cb_id ;;
         ret [m])
      (ret []).
Proof. reflexivity. Qed.

(** X7: [wl_surface.frame] never raises.  With fewer than 4 bytes of
    payload it does nothing; otherwise it answers at once with one
    [wl_callback.done] on the new id, carrying the clock reading modulo
    2^32, and the id is not left in the object table. *)
Theorem frame_answers_at_once now oid pay st :
  (len pay < 4 -> handle_surface now oid 3 pay st = (Val [], st, []))
  /\ (4 <= len pay ->
      exists m,
        handle_surface now oid 3 pay st
        = (Val [m], callback_gone (le_combine (firstn 4 pay)) st, [])
        /\ decode_message [TUint] m
           = done_event (le_combine (firstn 4 pay)) now).
Proof.
  rewrite handle_surface_frame. split.
  - intros H. apply try_except_val.
    replace (len pay <? 4) with true by (symmetry; apply Z.ltb_lt; lia).
    reflexivity.
  - intros H. destruct (read_uint_prefix pay H) as [Hr Hu].
    destruct (done_event_encoded _ now Hu) as (m & He & Hd).
    exists m. split; [|exact Hd]. apply try_except_val.
    replace (len pay <? 4) with false by (symmetry; apply Z.ltb_ge; lia).
    rewrite Hr. mstep. rewrite He. mstep. reflexivity.
Qed.

Lemma frame_answers_at_once_witness :
  handle_surface 5 6 3 [Byte.x01] one_surface = (Val [], one_surface, [])
  /\ exists m,
       handle_surface 5 6 3 (le_split 4 12) one_surface
       = (Val [m],
          callback_gone (le_combine (firstn 4 (le_split 4 12))) one_surface,
          []).
Proof.
  destruct (frame_answers_at_once 5 6 [Byte.x01] one_surface) as [H1 _].
  destruct (frame_answers_at_once 5 6 (le_split 4 12) one_surface)
    as [_ H2].
  split.
  - apply H1. vm_compute. reflexivity.
  - destruct H2 as (m & Hrun & _); [vm_compute; discriminate|].
    exists m. exact Hrun.
Defined.

(** ** Binding a global *)

Lemma bind_payload_reads name interface version new_id p :
  args_ok [TUint; TString; TUint; TUint]
    [PyInt name; PyStr interface; PyInt version; PyInt new_id] = true ->
  wire_size [PyInt name; PyStr interface; PyInt version; PyInt new_id]
  < 65536 ->
  bind_payload name interface version new_id = Some p ->
  exists q,
    read_uint p 0 = Some (name, 4)
    /\ read_string p 4 = Some (interface, q)
    /\ read_uint p q = Some (version, q + 4)
    /\ read_uint p (q + 4) = Some (new_id, q + 4 + 4).
Proof.
  intros Hok Hs Hp. unfold bind_payload in Hp.
  assert (Hr : read_args [TUint; TString; TUint; TUint] ([] ++ p ++ [])
                 (len (@nil byte))
               = Some ([PyInt name; PyStr interface; PyInt version;
                        PyInt new_id], len (@nil byte) + len p)).
  { apply read_args_encode; trivial.
    unfold wire_size, HEADER_SIZE, u32_max in *. lia. }
  rewrite app_nil_l, app_nil_r, len_nil in Hr.
  cbn [read_args read_arg] in Hr.
  destruct (read_uint p 0) as [[v0 q0] |] eqn:E0; [|discriminate].
  assert (q0 = 0 + 4).
  { unfold read_uint in E0.
    destruct (unpack_I (py_slice p 0 (0 + 4)));
      [apply some_inj, pair_equal_spec in E0; destruct E0; congruence
      | discriminate]. }
  subst q0.
  destruct (read_string p (0 + 4)) as [[v1 q] |] eqn:E1; [|discriminate].
  destruct (read_uint p q) as [[v2 q2] |] eqn:E2; [|discriminate].
  assert (q2 = q + 4).
  { unfold read_uint in E2.
    destruct (unpack_I (py_slice p q (q + 4)));
      [apply some_inj, pair_equal_spec in E2; destruct E2; congruence
      | discriminate]. }
  subst q2.
  destruct (read_uint p (q + 4)) as [[v3 q3] |] eqn:E3; [|discriminate].
  assert (q3 = q + 4 + 4).
  { unfold read_uint in E3.
    destruct (unpack_I (py_slice p (q + 4) (q + 4 + 4)));
      [apply some_inj, pair_equal_spec in E3; destruct E3; congruence
      | discriminate]. }
  subst q3.
  apply some_inj, pair_equal_spec in Hr. destruct Hr as [Hr _].
  assert (v0 = name /\ v1 = interface /\ v2 = version /\ v3 = new_id)
    as (-> & -> & -> & ->) by (repeat split; congruence).
  exists q. repeat split; assumption.
Qed.

Lemma encode_decode_fixed oid op sig args :
  is_u32 oid = true -> 0 <= op < 65536 ->
  args_ok sig args = true -> wire_size args < 65536 ->
  exists m, encode_message oid op args = Some m
            /\ decode_message sig m = Some (oid, op, args).
Proof.
  intros Ho Hop Hok Hs.
  destruct (decode_encode_message oid op sig args Ho Hop Hok Hs)
    as (m & He & Hd & _).
  now exists m.
Qed.

(** X8: [bind] registers the new id under the interface string and the
    version that the client sent; the numeric name of the global plays no
    part and the string is not compared with the advertised globals.
    Binding [wl_shm] is answered with the two formats 0 and 1, binding
    [wl_seat] with capabilities 3 and the name "win-way-seat"; an
    interface other than these and [wl_output] gets no event. *)
Theorem bind_registers_what_client_names oid name interface version new_id
  p st :
  args_ok [TUint; TString; TUint; TUint]
    [PyInt name; PyStr interface; PyInt version; PyInt new_id] = true ->
  wire_size [PyInt name; PyStr interface; PyInt version; PyInt new_id]
  < 65536 ->
  bind_payload name interface version new_id = Some p ->
  exists res,
    handle_registry oid 0 p st
    = (Val res, with_objects (dict_set new_id (interface, version)) st, [])
    /\ (interface = "wl_shm"%string ->
        List.length res = 2%nat
        /\ decoded_as [[TUint]; [TUint]] res
           = [Some (new_id, 0, [PyInt 0]); Some (new_id, 0, [PyInt 1])])
    /\ (interface = "wl_seat"%string ->
        List.length res = 2%nat
        /\ decoded_as [[TUint]; [TString]] res
           = [Some (new_id, 0, [PyInt 3]);
              Some (new_id, 1, [PyStr "win-way-seat"])])
    /\ (interface <> "wl_shm"%string -> interface <> "wl_seat"%string ->
        interface <> "wl_output"%string -> res = []).
Proof.
  intros Hok Hs Hp.
  destruct (bind_payload_reads name interface version new_id p Hok Hs Hp)
    as (q & R0 & R1 & R2 & R3).
  assert (Hnid : is_u32 new_id = true).
  { cbn [args_ok arg_ok] in Hok.
    repeat (apply andb_true_iff in Hok; destruct Hok as [? Hok]).
    assumption. }
  assert (Hhead : forall k : list bytes -> M (list bytes),
             handle_registry oid 0 p st
             = (if String.eqb interface "wl_shm" then
                  m1 <- lift (encode_message new_id 0
                                [PyInt SHM_FORMAT_ARGB8888]) ;;
                  m2 <- lift (encode_message new_id 0
                                [PyInt SHM_FORMAT_XRGB8888]) ;;
                  ret [m1; m2]
                else if String.eqb interface "wl_seat" then
                  m1 <- lift (encode_message new_id 0 [PyInt 3]) ;;
                  m2 <- lift (encode_message new_id 1
                                [PyStr "win-way-seat"]) ;;
                  ret [m1; m2]
                else if String.eqb interface "wl_output" then
                  m1 <- lift (encode_message new_id 0
                        [PyInt 0; PyInt 0; PyInt 1920; PyInt 1080; PyInt 0;
                         PyStr "WinWay"; PyStr "Monitor"; PyInt 0]) ;;
                  m2 <- lift (encode_message new_id 1
                        [PyInt 3; PyInt 1920; PyInt 1080; PyInt 60000]) ;;
                  if version >=? 2 then
                    m3 <- lift (encode_message new_id 3 [PyInt 1]) ;;
                    m4 <- lift (encode_message new_id 2 []) ;;
                    ret [m1; m2; m3; m4]
                  else ret [m1; m2]
                else ret [])
               (with_objects (dict_set new_id (interface, version)) st)).
  { intros _. unfold handle_registry. cbn [Z.eqb].
    rewrite R0. mstep. rewrite R1. mstep. rewrite R2. mstep.
    rewrite R3. mstep. reflexivity. }
  rewrite (Hhead (fun r => ret r)). clear Hhead.
  set (st1 := with_objects (dict_set new_id (interface, version)) st).
  destruct (String.eqb_spec interface "wl_shm") as [Eshm | Nshm].
  { destruct (encode_decode_fixed new_id 0 [TUint] [PyInt 0] Hnid)
      as (m1 & E1 & D1); [lia | reflexivity | reflexivity |].
    destruct (encode_decode_fixed new_id 0 [TUint] [PyInt 1] Hnid)
      as (m2 & E2 & D2); [lia | reflexivity | reflexivity |].
    exists [m1; m2]. unfold SHM_FORMAT_ARGB8888, SHM_FORMAT_XRGB8888.
    rewrite E1. mstep. rewrite E2. mstep.
    split; [reflexivity|]. split; [|split].
    - intros _. split; [reflexivity|].
      unfold decoded_as. cbn [combine map]. now rewrite D1, D2.
    - intros E. subst interface. discriminate E.
    - intros N. contradiction. }
  destruct (String.eqb_spec interface "wl_seat") as [Eseat | Nseat].
  { destruct (encode_decode_fixed new_id 0 [TUint] [PyInt 3] Hnid)
      as (m1 & E1 & D1); [lia | reflexivity | reflexivity |].
    destruct (encode_decode_fixed new_id 1 [TString]
                [PyStr "win-way-seat"] Hnid)
      as (m2 & E2 & D2); [lia | reflexivity | vm_compute; reflexivity |].
    exists [m1; m2]. rewrite E1. mstep. rewrite E2. mstep.
    split; [reflexivity|]. split; [|split].
    - intros E. contradiction.
    - intros _. split; [reflexivity|].
      unfold decoded_as. cbn [combine map]. now rewrite D1, D2.
    - intros _ N. contradiction. }
  destruct (String.eqb_spec interface "wl_output") as [Eout | Nout].
  { destruct (encode_message_some new_id 0
                [PyInt 0; PyInt 0; PyInt 1920; PyInt 1080; PyInt 0;
                 PyStr "WinWay"; PyStr "Monitor"; PyInt 0] Hnid)
      as (p1 & _ & _ & E1); [vm_compute; reflexivity|].
    destruct (encode_message_some new_id 1
                [PyInt 3; PyInt 1920; PyInt 1080; PyInt 60000] Hnid)
      as (p2 & _ & _ & E2); [vm_compute; reflexivity|].
    destruct (encode_message_some new_id 3 [PyInt 1] Hnid)
      as (p3 & _ & _ & E3); [vm_compute; reflexivity|].
    destruct (encode_message_some new_id 2 [] Hnid)
      as (p4 & _ & _ & E4); [vm_compute; reflexivity|].
    rewrite E1. mstep. rewrite E2. mstep.
    destruct (version >=? 2).
    - rewrite E3. mstep. rewrite E4. mstep.
      eexists. split; [reflexivity|].
      repeat split; intros; congruence.
    - eexists. split; [reflexivity|].
      repeat split; intros; congruence. }
  exists []. split; [reflexivity|]. split; [|split].
  - intros E. contradiction.
  - intros E. contradiction.
  - reflexivity.
Qed.

Lemma bind_registers_what_client_names_witness :
  exists res,
    handle_registry 2 0
      (le_split 4 1 ++ le_split 4 7 ++ list_byte_of_string "wl_shm"
         ++ [Byte.x00; Byte.x00] ++ le_split 4 1 ++ le_split 4 7)
      (new_client stdio_proxy)
    = (Val res,
       with_objects (dict_set 7 ("wl_shm"%string, 1))
         (new_client stdio_proxy), [])
    /\ List.length res = 2%nat
    /\ decoded_as [[TUint]; [TUint]] res
       = [Some (7, 0, [PyInt 0]); Some (7, 0, [PyInt 1])].
Proof.
  destruct (bind_registers_what_client_names 2 1 "wl_shm" 1 7
              (le_split 4 1 ++ le_split 4 7 ++ list_byte_of_string "wl_shm"
                 ++ [Byte.x00; Byte.x00] ++ le_split 4 1 ++ le_split 4 7)
              (new_client stdio_proxy))
    as (res & Hrun & Hshm & _).
  - reflexivity.
  - vm_compute. reflexivity.
  - reflexivity.
  - exists res. split; [exact Hrun | now apply Hshm].
Defined.

Lemma bind_output_body oid name version new_id p st :
  args_ok [TUint; TString; TUint; TUint]
    [PyInt name; PyStr "wl_output"; PyInt version; PyInt new_id] = true ->
  wire_size [PyInt name; PyStr "wl_output"; PyInt version; PyInt new_id]
  < 65536 ->
  bind_payload name "wl_output" version new_id = Some p ->
  handle_registry oid 0 p st
  = (m1 <- lift (encode_message new_id 0
                   [PyInt 0; PyInt 0; PyInt 1920; PyInt 1080; PyInt 0;
                    PyStr "WinWay"; PyStr "Monitor"; PyInt 0]) ;;
     m2 <- lift (encode_message new_id 1
                   [PyInt 3; PyInt 1920; PyInt 1080; PyInt 60000]) ;;
     if version >=? 2 then
       m3 <- lift (encode_message new_id 3 [PyInt 1]) ;;
       m4 <- lift (encode_message new_id 2 []) ;;
       ret [m1; m2; m3; m4]
     else ret [m1; m2])
    (with_objects (dict_set new_id ("wl_output"%string, version)) st).
Proof.
  intros Hok Hs Hp.
  destruct (bind_payload_reads name "wl_output" version new_id p Hok Hs Hp)
    as (q & R0 & R1 & R2 & R3).
  unfold handle_registry. cbn [Z.eqb].
  rewrite R0. mstep. rewrite R1. mstep. rewrite R2. mstep.
  rewrite R3. mstep. reflexivity.
Qed.

(** X9: binding [wl_output] is answered with the geometry (position 0,0,
    1920 x 1080, subpixel 0, make "WinWay", model "Monitor", transform 0)
    and the mode (flags 3, 1920 x 1080, refresh 60000); from version 2 on
    these are followed by scale 1 (opcode 3) and done (opcode 2), in that
    order, and below version 2 by nothing. *)
Theorem bind_output_events oid name version new_id p st :
  args_ok [TUint; TString; TUint; TUint]
    [PyInt name; PyStr "wl_output"; PyInt version; PyInt new_id] = true ->
  wire_size [PyInt name; PyStr "wl_output"; PyInt version; PyInt new_id]
  < 65536 ->
  bind_payload name "wl_output" version new_id = Some p ->
  exists res,
    handle_registry oid 0 p st
    = (Val res,
       with_objects (dict_set new_id ("wl_output"%string, version)) st, [])
    /\ decoded_as
         [[TInt; TInt; TInt; TInt; TInt; TString; TString; TInt];
          [TUint; TInt; TInt; TInt]; [TInt]; []] res
       = [Some (new_id, 0,
                [PyInt 0; PyInt 0; PyInt 1920; PyInt 1080; PyInt 0;
                 PyStr "WinWay"; PyStr "Monitor"; PyInt 0]);
          Some (new_id, 1, [PyInt 3; PyInt 1920; PyInt 1080; PyInt 60000])]
         ++ (if 2 <=? version
             then [Some (new_id, 3, [PyInt 1]); Some (new_id, 2, [])]
             else [])
    /\ List.length res = (if 2 <=? version then 4%nat else 2%nat).
Proof.
  intros Hok Hs Hp.
  rewrite (bind_output_body oid name version new_id p st Hok Hs Hp).
  assert (Hnid : is_u32 new_id = true).
  { cbn [args_ok arg_ok] in Hok.
    repeat (apply andb_true_iff in Hok; destruct Hok as [? Hok]).
    assumption. }
  destruct (encode_decode_fixed new_id 0
              [TInt; TInt; TInt; TInt; TInt; TString; TString; TInt]
              [PyInt 0; PyInt 0; PyInt 1920; PyInt 1080; PyInt 0;
               PyStr "WinWay"; PyStr "Monitor"; PyInt 0] Hnid)
    as (m1 & E1 & D1); [lia | reflexivity | vm_compute; reflexivity |].
  destruct (encode_decode_fixed new_id 1 [TUint; TInt; TInt; TInt]
              [PyInt 3; PyInt 1920; PyInt 1080; PyInt 60000] Hnid)
    as (m2 & E2 & D2); [lia | reflexivity | vm_compute; reflexivity |].
  destruct (encode_decode_fixed new_id 3 [TInt] [PyInt 1] Hnid)
    as (m3 & E3 & D3); [lia | reflexivity | vm_compute; reflexivity |].
  destruct (encode_decode_fixed new_id 2 [] [] Hnid)
    as (m4 & E4 & D4); [lia | reflexivity | vm_compute; reflexivity |].
  rewrite E1. mstep. rewrite E2. mstep. rewrite Z.geb_leb.
  destruct (2 <=? version).
  - rewrite E3. mstep. rewrite E4. mstep.
    exists [m1; m2; m3; m4]. split; [reflexivity|]. split; [|reflexivity].
    unfold decoded_as. cbn [combine map app]. now rewrite D1, D2, D3, D4.
  - exists [m1; m2]. split; [reflexivity|]. split; [|reflexivity].
    unfold decoded_as. cbn [combine map app]. now rewrite D1, D2.
Qed.

Lemma bind_output_events_witness :
  exists res,
    handle_registry 2 0
      (le_split 4 6 ++ le_split 4 10 ++ list_byte_of_string "wl_output"
         ++ [Byte.x00; Byte.x00; Byte.x00] ++ le_split 4 3 ++ le_split 4 10)
      (new_client stdio_proxy)
    = (Val res,
       with_objects (dict_set 10 ("wl_output"%string, 3))
         (new_client stdio_proxy), [])
    /\ List.length res = 4%nat.
Proof.
  destruct (bind_output_events 2 6 3 10
              (le_split 4 6 ++ le_split 4 10
                 ++ list_byte_of_string "wl_output"
                 ++ [Byte.x00; Byte.x00; Byte.x00]
                 ++ le_split 4 3 ++ le_split 4 10)
              (new_client stdio_proxy))
    as (res & Hrun & _ & Hlen).
  - reflexivity.
  - vm_compute. reflexivity.
  - reflexivity.
  - exists res. split; [exact Hrun | exact Hlen].
Defined.

(** ** Focus *)

(** X10: the surface table is filled by [attach] only, so as long as no
    surface has had a buffer attached, [create_surface], [get_pointer]
    and [get_keyboard] register their new object and send nothing: no
    [enter] event is produced and no serial is used. *)
Theorem no_enter_before_attach oid pay st :
  surfaces st = [] -> 4 <= len pay ->
  let id := le_combine (firstn 4 pay) in
  handle_compositor oid 0 pay st
  = (Val [], with_objects (dict_set id ("wl_surface"%string, 4)) st, [])
  /\ handle_seat oid 0 pay st
     = (Val [], with_objects (dict_set id ("wl_pointer"%string, 1)) st, [])
  /\ handle_seat oid 1 pay st
     = (Val [], with_objects (dict_set id ("wl_keyboard"%string, 1)) st, []).
Proof.
  intros Hs Hlen id. subst id.
  destruct (read_uint_prefix pay Hlen) as [Hr _].
  assert (Hf : forall id info,
             try_focus (with_objects (dict_set id info) st)
             = (Val tt, with_objects (dict_set id info) st, [])).
  { intros id info. unfold try_focus. rewrite bind_get.
    cbn [surfaces with_objects]. rewrite Hs. reflexivity. }
  unfold handle_compositor, handle_seat. cbn [Z.eqb Pos.eqb].
  repeat split; rewrite Hr; mstep;
    rewrite (bind_of_val _ _ _ _ _ _ (Hf _ _)); reflexivity.
Qed.

Lemma no_enter_before_attach_witness :
  handle_compositor 5 0 (le_split 4 7) two_keyboards
  = (Val [],
     with_objects (dict_set (le_combine (firstn 4 (le_split 4 7)))
                     ("wl_surface"%string, 4)) two_keyboards, []).
Proof.
  assert (H1 : surfaces two_keyboards = []) by reflexivity.
  assert (H2 : 4 <= len (le_split 4 7)) by (vm_compute; discriminate).
  exact (proj1 (no_enter_before_attach 5 (le_split 4 7) two_keyboards H1 H2)).
Defined.

Lemma with_serial_same st : with_serial (serial st + 0) st = st.
Proof. destruct st. unfold with_serial. cbn. now rewrite Z.add_0_r. Qed.

Lemma encoded_header oid op args :
  is_u32 oid = true -> wire_size args < 65536 ->
  exists m,
    encode_message oid op args = Some m
    /\ fst (decode_header m) = Some (oid, Z.land op 65535, wire_size args).
Proof.
  intros Ho Hs.
  destruct (encode_message_some oid op args Ho Hs) as (p & Hp & Hl & He).
  eexists. split; [exact He|].
  pose proof (len_nonneg p) as Hn.
  destruct (header_word_u32 (8 + len p) op) as (Hw & Hsz & Hopc); [lia|].
  rewrite (decode_header_layout oid _ p Ho Hw), Hsz, Hopc. cbn [fst].
  do 3 f_equal. lia.
Qed.

Lemma encode_arg_wraps z :
  encode_arg (PyInt z) = encode_arg (PyInt (z mod 2 ^ 32)).
Proof.
  cbn [encode_arg]. change 4294967295 with (Z.ones 32).
  rewrite !Z.land_ones by lia. now rewrite Z.mod_mod by lia.
Qed.

Lemma mod_u32 z : is_u32 (z mod 2 ^ 32) = true.
Proof. apply is_u32_range. apply Z.mod_pos_bound. lia. Qed.

Lemma enter_keyboard_encoded obj_id ser sid :
  is_u32 obj_id = true ->
  exists m,
    encode_message obj_id 4 [PyInt ser; PyInt sid; PyBytes []] = Some m
    /\ fst (decode_header m) = Some (obj_id, 4, 16)
    /\ decode_message [TUint; TUint] m
       = Some (obj_id, 4, [PyInt (ser mod 2 ^ 32); PyInt (sid mod 2 ^ 32)]).
Proof.
  intros Hu.
  destruct (encoded_header obj_id 4 [PyInt ser; PyInt sid; PyBytes []] Hu)
    as (m & E & H); [reflexivity|].
  destruct (decode_encode_message obj_id 4 [TUint; TUint]
              [PyInt (ser mod 2 ^ 32); PyInt (sid mod 2 ^ 32)] Hu)
    as (m' & E' & D & _).
  - lia.
  - cbn [args_ok arg_ok]. now rewrite !mod_u32.
  - reflexivity.
  - assert (Em : m' = m).
    { apply some_inj. rewrite <- E', <- E. unfold encode_message.
      cbn [encode_payload].
      rewrite <- (encode_arg_wraps ser), <- (encode_arg_wraps sid).
      destruct (encode_arg (PyInt ser)), (encode_arg (PyInt sid));
        cbn [encode_arg app]; rewrite ?app_nil_r; reflexivity. }
    subst m'. exists m. split; [exact E|]. split; [exact H | exact D].
Qed.

Lemma enter_pointer_encoded obj_id ser sid :
  is_u32 obj_id = true ->
  exists m,
    encode_message obj_id 4 [PyInt ser; PyInt sid; PyInt 0; PyInt 0] = Some m
    /\ fst (decode_header m) = Some (obj_id, 4, 24)
    /\ decode_message [TUint; TUint; TUint; TUint] m
       = Some (obj_id, 4, [PyInt (ser mod 2 ^ 32); PyInt (sid mod 2 ^ 32);
                           PyInt 0; PyInt 0]).
Proof.
  intros Hu.
  destruct (encoded_header obj_id 4
              [PyInt ser; PyInt sid; PyInt 0; PyInt 0] Hu)
    as (m & E & H); [reflexivity|].
  destruct (decode_encode_message obj_id 4 [TUint; TUint; TUint; TUint]
              [PyInt (ser mod 2 ^ 32); PyInt (sid mod 2 ^ 32);
               PyInt 0; PyInt 0] Hu)
    as (m' & E' & D & _).
  - lia.
  - cbn [args_ok arg_ok]. now rewrite !mod_u32.
  - reflexivity.
  - assert (Em : m' = m).
    { apply some_inj. rewrite <- E', <- E. unfold encode_message.
      cbn [encode_payload].
      now rewrite <- (encode_arg_wraps ser), <- (encode_arg_wraps sid). }
    subst m'. exists m. split; [exact E|]. split; [exact H | exact D].
Qed.

Lemma focus_loop sid (l : dict (string * Z)) : forall st,
  Forall (fun kv => is_u32 (fst kv) = true) (focus_targets l) ->
  exists tr,
    for_each l
      (fun '(obj_id, (iface, ver)) =>
         if String.eqb iface "wl_keyboard" then
           ser <- next_serial ;;
           m <- lift (encode_message obj_id 4
                        [PyInt ser; PyInt sid; PyBytes []]) ;;
           send m
         else if String.eqb iface "wl_pointer" then
           ser <- next_serial ;;
           m <- lift (encode_message obj_id 4
                        [PyInt ser; PyInt sid; PyInt 0; PyInt 0]) ;;
           send m
         else ret tt) st
    = (Val tt,
       with_serial (serial st + Z.of_nat (List.length (focus_targets l))) st,
       tr)
    /\ issued tr = zrange (serial st + 1) (List.length (focus_targets l))
    /\ List.length (sent tr) = List.length (focus_targets l)
    /\ map (fun m => fst (decode_header m)) (sent tr)
       = map enter_header (focus_targets l)
    /\ decoded_as (map enter_signature (focus_targets l)) (sent tr)
       = enter_events sid (serial st + 1) (focus_targets l).
Proof.
  induction l as [| [obj_id [iface ver]] l IH]; intros st Hu.
  - exists []. cbn [for_each focus_targets filter List.length Z.of_nat].
    rewrite with_serial_same. repeat split.
  - cbn [for_each]. unfold focus_targets in *. cbn [filter fst snd] in *.
    destruct (String.eqb iface "wl_keyboard") eqn:Ek; cbn [orb] in *.
    + inversion Hu as [| ? ? Hid Hu']; subst. cbn [fst] in Hid.
      destruct (enter_keyboard_encoded obj_id (serial st + 1) sid Hid)
        as (m & Em & Hm & Dm).
      destruct (IH (with_serial (serial st + 1) st) Hu')
        as (tr & Hrun & Hi & Hl & Hh & Hd).
      exists (Issue (serial st + 1) :: ClientSend m :: tr).
      split; [|split; [|split; [|split]]].
      * rewrite bind_bind.
        rewrite (bind_of_val _ _ _ _ _ _ (next_serial_spec st)).
        rewrite bind_bind. rewrite Em. mstep. unfold send at 1.
        rewrite bind_emit, Hrun. cbn [after app List.length].
        do 2 f_equal. unfold with_serial. cbn. f_equal. lia.
      * cbn [issued flat_map app List.length zrange]. f_equal.
        exact Hi.
      * cbn [sent flat_map app List.length]. f_equal. exact Hl.
      * cbn [sent flat_map app map List.length]. f_equal; [|exact Hh].
        rewrite Hm. unfold enter_header. cbn [fst snd]. now rewrite Ek.
      * cbn [sent flat_map app]. unfold decoded_as in *.
        cbn [map combine enter_events]. unfold enter_signature at 1.
        cbn [fst snd]. rewrite Ek, Dm. f_equal. exact Hd.
    + destruct (String.eqb iface "wl_pointer") eqn:Ep.
      * inversion Hu as [| ? ? Hid Hu']; subst. cbn [fst] in Hid.
        destruct (enter_pointer_encoded obj_id (serial st + 1) sid Hid)
          as (m & Em & Hm & Dm).
        destruct (IH (with_serial (serial st + 1) st) Hu')
          as (tr & Hrun & Hi & Hl & Hh & Hd).
        exists (Issue (serial st + 1) :: ClientSend m :: tr).
        split; [|split; [|split; [|split]]].
        -- rewrite bind_bind.
           rewrite (bind_of_val _ _ _ _ _ _ (next_serial_spec st)).
           rewrite bind_bind. rewrite Em. mstep. unfold send at 1.
           rewrite bind_emit, Hrun. cbn [after app List.length].
           do 2 f_equal. unfold with_serial. cbn. f_equal. lia.
        -- cbn [issued flat_map app List.length zrange]. f_equal.
           exact Hi.
        -- cbn [sent flat_map app List.length]. f_equal. exact Hl.
        -- cbn [sent flat_map app map List.length]. f_equal; [|exact Hh].
           rewrite Hm. unfold enter_header. cbn [fst snd]. now rewrite Ek.
        -- cbn [sent flat_map app]. unfold decoded_as in *.
           cbn [map combine enter_events]. unfold enter_signature at 1.
           cbn [fst snd]. rewrite Ek, Dm. f_equal. exact Hd.
      * rewrite bind_ret. apply IH. exact Hu.
Qed.

Lemma try_focus_idle st :
  first_key (surfaces st) = None \/ first_key (surfaces st) = Some 0 ->
  try_focus st = (Val tt, st, []).
Proof.
  intros H. unfold try_focus. rewrite bind_get.
  destruct H as [-> | ->]; reflexivity.
Qed.

Lemma try_focus_run st sid :
  first_key (surfaces st) = Some sid -> sid <> 0 ->
  Forall (fun kv => is_u32 (fst kv) = true) (focus_targets (objects st)) ->
  exists tr,
    try_focus st
    = (Val tt,
       with_serial
         (serial st + Z.of_nat (List.length (focus_targets (objects st)))) st,
       tr)
    /\ issued tr
       = zrange (serial st + 1) (List.length (focus_targets (objects st)))
    /\ List.length (sent tr) = List.length (focus_targets (objects st))
    /\ map (fun m => fst (decode_header m)) (sent tr)
       = map enter_header (focus_targets (objects st))
    /\ decoded_as (map enter_signature (focus_targets (objects st))) (sent tr)
       = enter_events sid (serial st + 1) (focus_targets (objects st)).
Proof.
  intros Hs Hz Hu.
  destruct (focus_loop sid (objects st) st Hu) as (tr & Hrun & Hrest).
  exists tr. split; [|exact Hrest].
  unfold try_focus. rewrite bind_get, Hs.
  replace (sid =? 0) with false by (symmetry; now apply Z.eqb_neq).
  exact Hrun.
Qed.

(** X11: [try_focus] takes the first key of the surface table as the
    surface.  When the table is empty or that key is 0, it sends nothing
    and uses no serial.  Otherwise it sends one [enter] event (opcode 4)
    to every keyboard and every pointer of the object table, in table
    order, each with a serial of its own: the event for the i-th of them
    carries the counter plus i and the surface, and the counter ends that
    many higher.  The event for a keyboard is 16 bytes long (serial and
    surface, no word for the empty key array), the one for a pointer 24
    (serial, surface, position 0, 0). *)
Theorem try_focus_enters st :
  (first_key (surfaces st) = None \/ first_key (surfaces st) = Some 0 ->
   try_focus st = (Val tt, st, []))
  /\ (forall sid,
        first_key (surfaces st) = Some sid -> sid <> 0 ->
        Forall (fun kv => is_u32 (fst kv) = true)
          (focus_targets (objects st)) ->
        let targets := focus_targets (objects st) in
        let n := List.length targets in
        exists tr,
          try_focus st = (Val tt, with_serial (serial st + Z.of_nat n) st, tr)
          /\ issued tr = zrange (serial st + 1) n
          /\ List.length (sent tr) = n
          /\ map (fun m => fst (decode_header m)) (sent tr)
             = map enter_header targets
          /\ decoded_as (map enter_signature targets) (sent tr)
             = enter_events sid (serial st + 1) targets).
Proof.
  split; [apply try_focus_idle|].
  intros sid Hs Hz Hu targets n. now apply (try_focus_run st sid).
Qed.

Lemma try_focus_enters_witness :
  exists tr,
    try_focus (with_surfaces (dict_set 6 (Some 9)) two_keyboards)
    = (Val tt,
       with_serial (serial two_keyboards + 2)
         (with_surfaces (dict_set 6 (Some 9)) two_keyboards), tr)
    /\ issued tr = [1; 2]
    /\ decoded_as [[TUint; TUint]; [TUint; TUint]] (sent tr)
       = [Some (4, 4, [PyInt 1; PyInt 6]); Some (5, 4, [PyInt 2; PyInt 6])].
Proof.
  assert (E : focus_targets
                (objects (with_surfaces (dict_set 6 (Some 9)) two_keyboards))
              = [(4, ("wl_keyboard"%string, 1));
                 (5, ("wl_keyboard"%string, 1))])
    by (vm_compute; reflexivity).
  assert (Hu : Forall (fun kv => is_u32 (fst kv) = true)
                 (focus_targets
                    (objects (with_surfaces (dict_set 6 (Some 9))
                                two_keyboards)))).
  { rewrite E. repeat constructor. }
  destruct (proj2 (try_focus_enters
                     (with_surfaces (dict_set 6 (Some 9)) two_keyboards)) 6
              eq_refl ltac:(discriminate) Hu)
    as (tr & Hrun & Hi & _ & _ & Hd).
  rewrite E in Hrun, Hi, Hd.
  exists tr. split; [exact Hrun|]. split; [exact Hi | exact Hd].
Defined.

(** ** Input records *)

Lemma bytes_eqb_eq a : forall b, bytes_eqb a b = true <-> a = b.
Proof.
  induction a as [| x a IH]; intros [| y b]; cbn [bytes_eqb];
    try (split; [discriminate | discriminate]); [tauto|].
  rewrite andb_true_iff, IH. split.
  - intros [H ->]. apply Byte.byte_dec_bl in H. now subst.
  - intros [= -> ->]. split; [now apply Byte.byte_dec_lb | reflexivity].
Qed.

Lemma unpack_I_inside (data : bytes) i :
  0 <= i -> i + 4 <= len data ->
  exists v, unpack_I (py_slice data i (i + 4)) = Some v /\ is_u32 v = true.
Proof.
  intros Hi Hl. unfold unpack_I.
  assert (E : List.length (py_slice data i (i + 4)) = 4%nat).
  { assert (H : len (py_slice data i (i + 4)) = i + 4 - i)
      by (apply len_py_slice; lia).
    unfold len in H at 1. lia. }
  rewrite E. cbn [Nat.eqb]. eexists. split; [reflexivity|].
  apply is_u32_range. pose proof (le_combine_bound (py_slice data i (i + 4))) as Hb.
  rewrite E in Hb. exact Hb.
Qed.

Lemma collect_lift {A B} (f : A -> option B) l st :
  (exists ys, collect l (fun x => lift (f x)) st = (Val ys, st, [])
              /\ List.length ys = List.length l)
  \/ collect l (fun x => lift (f x)) st = (Exc, st, []).
Proof.
  induction l as [| x l IH]; cbn [collect].
  - left. exists []. split; reflexivity.
  - destruct (f x) as [y |].
    + rewrite bind_lift_some. destruct IH as [(ys & Hc & Hl) | He].
      * left. exists (y :: ys).
        rewrite (bind_of_val _ _ _ _ _ _ Hc). cbn [List.length].
        split; [reflexivity | now rewrite Hl].
      * right. now rewrite (bind_of_exc _ _ _ _ _ He).
    + right. now rewrite bind_lift_none.
Qed.

(** The body of [broadcast_input] once the record is accepted and its
    three numbers are read: one serial, the events, their sending. *)
Lemma broadcast_input_accepted now data st type_code p1 p2 :
  20 <= len data -> py_slice data 0 4 = list_byte_of_string "INPT" ->
  unpack_I (py_slice data 4 8) = Some type_code ->
  unpack_I (py_slice data 8 12) = Some p1 ->
  unpack_I (py_slice data 12 16) = Some p2 ->
  forall events : M (list bytes),
    events
    = (if type_code =? 1 then
         collect (objects_of "wl_keyboard" (objects st)) (fun k =>
           lift (encode_message k 3
                   [PyInt (serial st + 1); PyInt (Z.land now 4294967295);
                    PyInt p2; PyInt p1]))
       else if type_code =? 2 then
         collect (objects_of "wl_pointer" (objects st)) (fun p =>
           lift (encode_message p 2
                   [PyInt (Z.land now 4294967295); PyInt (p1 * 256);
                    PyInt (p2 * 256)]))
       else if type_code =? 3 then
         collect (objects_of "wl_pointer" (objects st)) (fun p =>
           lift (encode_message p 3
                   [PyInt (serial st + 1); PyInt (Z.land now 4294967295);
                    PyInt p2; PyInt p1]))
       else ret []) ->
    (forall msgs,
       events (with_serial (serial st + 1) st)
       = (Val msgs, with_serial (serial st + 1) st, []) ->
       broadcast_input now data st
       = (Val tt, with_serial (serial st + 1) st,
          Issue (serial st + 1) :: map ClientSend msgs))
    /\ (events (with_serial (serial st + 1) st)
        = (Exc, with_serial (serial st + 1) st, []) ->
        broadcast_input now data st
        = (Val tt, with_serial (serial st + 1) st, [Issue (serial st + 1)])).
Proof.
  intros Hlen Hmagic Ht H1 H2 events Hev.
  unfold broadcast_input.
  replace (len data <? 20) with false by (symmetry; apply Z.ltb_ge; lia).
  rewrite Hmagic, Ht, H1, H2.
  change (negb (bytes_eqb (list_byte_of_string "INPT")
                  (list_byte_of_string "INPT"))) with false.
  cbn iota.
  split.
  - intros msgs Hc. apply try_except_val.
    mstep. rewrite (bind_of_val _ _ _ _ _ _ (next_serial_spec st)).
    mstep. change (objects (with_serial (serial st + 1) st))
      with (objects st).
    rewrite <- Hev. rewrite (bind_of_val _ _ _ _ _ _ Hc). mstep.
    rewrite for_each_send. reflexivity.
  - intros Hc.
    rewrite (try_except_exc _ _ _ (with_serial (serial st + 1) st)
               [Issue (serial st + 1)]); [reflexivity|].
    mstep. rewrite (bind_of_val _ _ _ _ _ _ (next_serial_spec st)).
    mstep. change (objects (with_serial (serial st + 1) st))
      with (objects st).
    rewrite <- Hev. rewrite (bind_of_exc _ _ _ _ _ Hc). reflexivity.
Qed.

(** An accepted record uses one serial and only sends to the client. *)
Lemma broadcast_input_serial now data st :
  20 <= len data -> py_slice data 0 4 = list_byte_of_string "INPT" ->
  exists msgs,
    broadcast_input now data st
    = (Val tt, with_serial (serial st + 1) st,
       Issue (serial st + 1) :: map ClientSend msgs)
    /\ (~ In (le_combine (py_slice data 4 8)) [1; 2; 3] -> msgs = [])
    /\ (objects_of "wl_keyboard" (objects st) = [] ->
        objects_of "wl_pointer" (objects st) = [] -> msgs = []).
Proof.
  intros Hlen Hmagic.
  destruct (unpack_I_inside data 4) as (tc & Ht & _); [lia | lia|].
  destruct (unpack_I_inside data 8) as (p1 & H1 & _); [lia | lia|].
  destruct (unpack_I_inside data 12) as (p2 & H2 & _); [lia | lia|].
  change (4 + 4) with 8 in Ht. change (8 + 4) with 12 in H1.
  change (12 + 4) with 16 in H2.
  assert (Etc : le_combine (py_slice data 4 8) = tc).
  { unfold unpack_I in Ht.
    destruct (List.length (py_slice data 4 8) =? 4)%nat; [|discriminate].
    now apply some_inj in Ht. }
  rewrite Etc.
  destruct (broadcast_input_accepted now data st tc p1 p2 Hlen Hmagic
              Ht H1 H2 _ eq_refl) as [Hval Hexc].
  destruct (tc =? 1) eqn:E1; [|destruct (tc =? 2) eqn:E2;
                                [|destruct (tc =? 3) eqn:E3]].
  4: { exists []. split; [now apply Hval | split; intros; reflexivity]. }
  all: match type of Hexc with
       | collect ?l (fun x => lift (@?f x)) ?s = _ -> _ =>
           destruct (collect_lift f l s) as [(ys & Hc & Hl) | Hc]
       end.
  all: try (exists []; split;
            [now apply Hexc | split; intros; reflexivity]).
  all: exists ys; split; [now apply Hval|].
  - apply Z.eqb_eq in E1. subst tc. split.
    + intros Hn. exfalso. apply Hn. cbn [In]. auto.
    + intros Hk _. rewrite Hk in Hl. now destruct ys.
  - apply Z.eqb_eq in E2. subst tc. split.
    + intros Hn. exfalso. apply Hn. cbn [In]. auto.
    + intros _ Hp. rewrite Hp in Hl. now destruct ys.
  - apply Z.eqb_eq in E3. subst tc. split.
    + intros Hn. exfalso. apply Hn. cbn [In]. auto.
    + intros _ Hp. rewrite Hp in Hl. now destruct ys.
Qed.

Lemma broadcast_input_returns now data st :
  exists st' tr, broadcast_input now data st = (Val tt, st', tr).
Proof.
  destruct (len data <? 20) eqn:E.
  - exists st, []. unfold broadcast_input. now rewrite E.
  - destruct (bytes_eqb (py_slice data 0 4) (list_byte_of_string "INPT"))
      eqn:Eb.
    + apply Z.ltb_ge in E. apply bytes_eqb_eq in Eb.
      destruct (broadcast_input_serial now data st E Eb) as (msgs & H & _).
      rewrite H. eauto.
    + exists st, []. unfold broadcast_input. now rewrite E, Eb.
Qed.

(** X12: [broadcast_input] never raises.  A record shorter than 20 bytes
    or without the ["INPT"] tag does nothing at all; an accepted record
    uses up exactly one serial of the connection whatever its type code
    is, and apart from that only sends to the client.  With a type code
    other than 1, 2 and 3, or with neither keyboard nor pointer in the
    object table, nothing is sent, and the serial is used all the same. *)
Theorem input_record_outcome now data st :
  (len data < 20 \/ py_slice data 0 4 <> list_byte_of_string "INPT" ->
   broadcast_input now data st = (Val tt, st, []))
  /\ (20 <= len data -> py_slice data 0 4 = list_byte_of_string "INPT" ->
      exists msgs,
        broadcast_input now data st
        = (Val tt, with_serial (serial st + 1) st,
           Issue (serial st + 1) :: map ClientSend msgs)
        /\ (~ In (le_combine (py_slice data 4 8)) [1; 2; 3] -> msgs = [])
        /\ (objects_of "wl_keyboard" (objects st) = [] ->
            objects_of "wl_pointer" (objects st) = [] -> msgs = [])).
Proof.
  split.
  - intros H. unfold broadcast_input.
    destruct (len data <? 20) eqn:E; [reflexivity|].
    apply Z.ltb_ge in E. destruct H as [H | H]; [lia|].
    destruct (bytes_eqb (py_slice data 0 4) (list_byte_of_string "INPT"))
      eqn:Eb; [|reflexivity].
    apply bytes_eqb_eq in Eb. contradiction.
  - apply broadcast_input_serial.
Qed.

Lemma input_record_outcome_witness :
  broadcast_input 0 (list_byte_of_string "INPT") two_keyboards
  = (Val tt, two_keyboards, []).
Proof.
  apply (proj1 (input_record_outcome 0 (list_byte_of_string "INPT")
                  two_keyboards)).
  left. vm_compute. reflexivity.
Defined.

Lemma encode_message_wraps oid op a b c :
  encode_message oid op [PyInt a; PyInt b; PyInt c]
  = encode_message oid op
      [PyInt (a mod 2 ^ 32); PyInt (b mod 2 ^ 32); PyInt (c mod 2 ^ 32)].
Proof.
  assert (H : forall z, encode_arg (PyInt z) = encode_arg (PyInt (z mod 2 ^ 32))).
  { intros z. cbn [encode_arg]. change 4294967295 with (Z.ones 32).
    rewrite !Z.land_ones by lia. now rewrite Z.mod_mod by lia. }
  unfold encode_message. cbn [encode_payload].
  now rewrite (H a), (H b), (H c).
Qed.

(** X13: a motion record (type code 2) with position [x], [y] makes one
    [wl_pointer.motion] event (opcode 2) for every pointer of the
    connection, in table order.  The event carries the time and the two
    coordinates as 24.8 fixed point numbers cut to 32 bits, that is
    [x*256] and [y*256] modulo [2^32]; it carries no serial, but one
    serial of the connection is used up. *)
Theorem motion_record_events now st x y reserved :
  is_u32 x = true -> is_u32 y = true -> len reserved = 4 ->
  Forall (fun p => is_u32 p = true)
    (objects_of "wl_pointer" (objects st)) ->
  exists msgs,
    broadcast_input now (input_record 2 x y reserved) st
    = (Val tt, with_serial (serial st + 1) st,
       Issue (serial st + 1) :: map ClientSend msgs)
    /\ Forall2
         (fun p m =>
            decode_message [TUint; TUint; TUint] m
            = Some (p, 2, [PyInt (now mod 2 ^ 32);
                           PyInt ((x * 256) mod 2 ^ 32);
                           PyInt ((y * 256) mod 2 ^ 32)]))
         (objects_of "wl_pointer" (objects st)) msgs.
Proof.
  intros Hx Hy Hres Hptrs.
  set (magic := list_byte_of_string "INPT").
  set (st1 := with_serial (serial st + 1) st).
  assert (Hlen : len (input_record 2 x y reserved) = 20).
  { unfold input_record. rewrite !len_app, !len_le_split, Hres. reflexivity. }
  assert (H0 : py_slice (input_record 2 x y reserved) 0 4 = magic).
  { exact (py_slice_middle [] magic _). }
  assert (H1 : py_slice (input_record 2 x y reserved) 4 8 = le_split 4 2).
  { exact (py_slice_middle magic (le_split 4 2) _). }
  assert (H2 : py_slice (input_record 2 x y reserved) 8 12 = le_split 4 x).
  { unfold input_record. fold magic.
    rewrite (app_assoc magic (le_split 4 2)).
    exact (py_slice_middle (magic ++ le_split 4 2) (le_split 4 x) _). }
  assert (H3 : py_slice (input_record 2 x y reserved) 12 16 = le_split 4 y).
  { unfold input_record. fold magic.
    rewrite (app_assoc magic (le_split 4 2)).
    rewrite (app_assoc (magic ++ le_split 4 2) (le_split 4 x)).
    exact (py_slice_middle ((magic ++ le_split 4 2) ++ le_split 4 x)
             (le_split 4 y) reserved). }
  destruct (collect_pure
              (fun p => lift (encode_message p 2
                 [PyInt (Z.land now 4294967295); PyInt (x * 256);
                  PyInt (y * 256)]))
              (fun p m =>
                 decode_message [TUint; TUint; TUint] m
                 = Some (p, 2, [PyInt (now mod 2 ^ 32);
                                PyInt ((x * 256) mod 2 ^ 32);
                                PyInt ((y * 256) mod 2 ^ 32)]))
              (objects_of "wl_pointer" (objects st)) st1)
    as (msgs & Hc & Hf).
  { intros p Hp. rewrite Forall_forall in Hptrs.
    rewrite encode_message_wraps.
    replace (Z.land now 4294967295 mod 2 ^ 32) with (now mod 2 ^ 32).
    2: { change 4294967295 with (Z.ones 32). rewrite Z.land_ones by lia.
         now rewrite Z.mod_mod by lia. }
    destruct (decode_encode_message p 2 [TUint; TUint; TUint]
                [PyInt (now mod 2 ^ 32); PyInt ((x * 256) mod 2 ^ 32);
                 PyInt ((y * 256) mod 2 ^ 32)] (Hptrs p Hp))
      as (m & He & Hd & _).
    - lia.
    - cbn [args_ok arg_ok]. rewrite !andb_true_iff.
      repeat split; apply is_u32_range; apply Z.mod_pos_bound; lia.
    - reflexivity.
    - exists m. rewrite He. split; [reflexivity | exact Hd]. }
  exists msgs. split; [|exact Hf].
  apply (proj1 (broadcast_input_accepted now (input_record 2 x y reserved)
                  st 2 x y ltac:(lia) H0
                  ltac:(rewrite H1; now apply unpack_I_pack)
                  ltac:(rewrite H2; now apply unpack_I_pack)
                  ltac:(rewrite H3; now apply unpack_I_pack)
                  _ eq_refl)).
  exact Hc.
Qed.

Lemma motion_record_events_witness :
  exists msgs,
    broadcast_input 0 (input_record 2 3 5 (le_split 4 0))
      (with_objects (dict_set 7 ("wl_pointer"%string, 1)) two_keyboards)
    = (Val tt,
       with_serial
         (serial (with_objects (dict_set 7 ("wl_pointer"%string, 1))
                    two_keyboards) + 1)
         (with_objects (dict_set 7 ("wl_pointer"%string, 1)) two_keyboards),
       Issue (serial (with_objects (dict_set 7 ("wl_pointer"%string, 1))
                        two_keyboards) + 1)
         :: map ClientSend msgs)
    /\ Forall2
         (fun p m =>
            decode_message [TUint; TUint; TUint] m
            = Some (p, 2, [PyInt (0 mod 2 ^ 32);
                           PyInt ((3 * 256) mod 2 ^ 32);
                           PyInt ((5 * 256) mod 2 ^ 32)]))
         (objects_of "wl_pointer"
            (objects (with_objects (dict_set 7 ("wl_pointer"%string, 1))
                        two_keyboards))) msgs.
Proof.
  apply (motion_record_events 0
           (with_objects (dict_set 7 ("wl_pointer"%string, 1)) two_keyboards)
           3 5 (le_split 4 0)); try reflexivity.
  assert (E : objects_of "wl_pointer"
                (objects (with_objects (dict_set 7 ("wl_pointer"%string, 1))
                            two_keyboards)) = [7])
    by (vm_compute; reflexivity).
  rewrite E. repeat constructor.
Defined.

(** ** The life of a pool *)

(** X14: [create_pool] with a descriptor at hand takes the first one,
    maps it and records the pool under the given id, view or no view,
    in place of whatever pool the id named before;
    [wl_shm_pool.destroy] on that id then closes the view, if there is
    one, and the descriptor of the pool just recorded, nothing else, and
    takes the entry out of the registry.  For an id that named no pool
    before the registry is back to what it was; for an id that did name
    one, the id names no pool afterwards, and the descriptor of the pool
    it named is not among those closed.  The id stays in the object
    table as [wl_shm_pool]. *)
Theorem pool_created_then_destroyed mmap oid pid size fd rest st :
  fds st = fd :: rest -> is_u32 pid = true -> is_u32 size = true ->
  let p := (fd, mmap fd size, size) in
  let st1 :=
    with_objects (dict_set pid ("wl_shm_pool"%string, 1))
      (with_shm_pools (dict_set pid p) (with_fds rest st)) in
  let st2 :=
    with_objects (dict_set pid ("wl_shm_pool"%string, 1))
      (with_shm_pools (fun d => dict_del pid (dict_set pid p d))
         (with_fds rest st)) in
  handle_shm mmap oid 0 (le_split 4 pid ++ le_split 4 size) st
  = (Val [], st1,
     match mmap fd size with Some _ => [Mmap fd] | None => [] end)
  /\ dict_get pid (shm_pools st1) = Some p
  /\ handle_shm_pool pid 1 [] st1
     = (Val [], st2, pool_release_events (pid, p))
  /\ dict_get pid (objects st2) = Some ("wl_shm_pool"%string, 1)
  /\ (dict_get pid (shm_pools st) = None -> shm_pools st2 = shm_pools st)
  /\ (NoDup (map fst (shm_pools st)) -> dict_get pid (shm_pools st2) = None).
Proof.
  intros Hfds Hpid Hsize p st1 st2.
  assert (R1 : read_uint (le_split 4 pid ++ le_split 4 size) 0
               = Some (pid, 4)).
  { pose proof (read_uint_at [] pid (le_split 4 size)) as H.
    cbn [app] in H. rewrite len_nil in H. rewrite H.
    apply is_u32_range in Hpid. now rewrite Z.mod_small. }
  assert (R2 : read_uint (le_split 4 pid ++ le_split 4 size) 4
               = Some (size, 8)).
  { pose proof (read_uint_at (le_split 4 pid) size []) as H.
    rewrite app_nil_r, len_le_split in H. cbn [Z.of_nat Pos.of_succ_nat
      Pos.succ Z.add Pos.add] in H. rewrite H.
    apply is_u32_range in Hsize. now rewrite Z.mod_small. }
  split; [|split; [|split; [|split; [|split]]]].
  - unfold handle_shm. cbn [Z.eqb]. rewrite R1. mstep. rewrite R2. mstep.
    rewrite Hfds. mstep. unfold st1, p.
    destruct (mmap fd size) as [mm |]; mstep; reflexivity.
  - unfold st1. cbn [shm_pools with_objects with_shm_pools].
    apply dict_get_set_same.
  - unfold handle_shm_pool. cbn [Z.eqb Pos.eqb]. mstep.
    assert (G : dict_get pid (shm_pools st1) = Some p).
    { unfold st1. cbn [shm_pools with_objects with_shm_pools].
      apply dict_get_set_same. }
    rewrite G. mstep.
    rewrite (bind_of_val _ _ _ _ _ _ (release_pool_events pid p _)).
    unfold ret. cbn [after]. rewrite app_nil_r. reflexivity.
  - unfold st2. cbn [objects with_objects with_shm_pools].
    apply dict_get_set_same.
  - intros Hfresh. unfold st2.
    cbn [shm_pools with_objects with_shm_pools with_fds].
    exact (dict_del_set_fresh pid p _ Hfresh).
  - intros Hnd. unfold st2.
    cbn [shm_pools with_objects with_shm_pools with_fds].
    apply dict_get_del_same. now apply dict_set_keys_nodup.
Qed.

Lemma pool_created_then_destroyed_witness :
  handle_shm_pool 8 1 []
    (with_objects (dict_set 8 ("wl_shm_pool"%string, 1))
       (with_shm_pools (dict_set 8 (34, filled_mmap 34 16, 16))
          (with_fds [] (with_fds [34] one_surface))))
  = (Val [],
     with_objects (dict_set 8 ("wl_shm_pool"%string, 1))
       (with_shm_pools
          (fun d => dict_del 8 (dict_set 8 (34, filled_mmap 34 16, 16) d))
          (with_fds [] (with_fds [34] one_surface))),
     pool_release_events (8, (34, filled_mmap 34 16, 16)))
  /\ dict_get 8
       (shm_pools
          (with_objects (dict_set 8 ("wl_shm_pool"%string, 1))
             (with_shm_pools
                (fun d =>
                   dict_del 8 (dict_set 8 (34, filled_mmap 34 16, 16) d))
                (with_fds [] (with_fds [34] one_surface))))) = None.
Proof.
  assert (Hnd : NoDup (map fst (shm_pools (with_fds [34] one_surface)))).
  { cbn. constructor; [tauto | constructor]. }
  destruct (pool_created_then_destroyed filled_mmap 7 8 16 34 []
              (with_fds [34] one_surface) eq_refl eq_refl eq_refl)
    as (_ & _ & Hd & _ & _ & Hgone).
  split; [exact Hd | exact (Hgone Hnd)].
Defined.

(** X15: when the pool of a buffer has been destroyed, a commit of a
    surface with that buffer attached writes nothing to the host, and the
    buffer is released to the client all the same. *)
Theorem commit_after_pool_destroy now sid bid pid off w h stride fmt p st :
  dict_get sid (surfaces st) = Some (Some bid) -> bid <> 0 ->
  is_u32 bid = true ->
  dict_get bid (buffers st) = Some (pid, off, w, h, stride, fmt) ->
  dict_get pid (shm_pools st) = Some p ->
  NoDup (map fst (shm_pools st)) ->
  handle_shm_pool pid 1 [] st
  = (Val [], with_shm_pools (dict_del pid) st, pool_release_events (pid, p))
  /\ handle_surface now sid 6 [] (with_shm_pools (dict_del pid) st)
     = (Val [release_event bid], with_shm_pools (dict_del pid) st, []).
Proof.
  intros Hs Hz Hu Hb Hp Hnd. split.
  - unfold handle_shm_pool. cbn [Z.eqb Pos.eqb]. mstep. rewrite Hp. mstep.
    rewrite (bind_of_val _ _ _ _ _ _ (release_pool_events pid p _)).
    unfold ret. cbn [after]. now rewrite app_nil_r.
  - apply (handle_surface_commit_live now sid [] _ bid
             (pid, off, w, h, stride, fmt) []); trivial.
    apply send_pixl_no_pool.
    cbn [shm_pools with_shm_pools]. now apply dict_get_del_same.
Qed.

Lemma commit_after_pool_destroy_witness :
  handle_surface 0 6 6 [] (with_shm_pools (dict_del 8) one_surface)
  = (Val [release_event 9], with_shm_pools (dict_del 8) one_surface, []).
Proof.
  assert (Hnd : NoDup (map fst (shm_pools one_surface))).
  { cbn. constructor; [tauto | constructor]. }
  exact (proj2 (commit_after_pool_destroy 0 6 9 8 0 2 4 8 1
                  (33, Some (repeat Byte.xaa 32), 32) one_surface
                  eq_refl ltac:(discriminate) eq_refl eq_refl eq_refl Hnd)).
Defined.

(** X16: [wl_buffer.destroy] removes the buffer from the object table and
    from the buffer registry but not from the surface it is attached to.
    A commit of that surface then finds no buffer: nothing is written to
    the host and nothing, no release either, is sent to the client. *)
Theorem commit_after_buffer_destroy now sid bid st :
  dict_get sid (surfaces st) = Some (Some bid) ->
  NoDup (map fst (buffers st)) ->
  let st1 := with_buffers (dict_del bid) (with_objects (dict_del bid) st) in
  handle_buffer bid 0 [] st = (Val [], st1, [])
  /\ surfaces st1 = surfaces st
  /\ handle_surface now sid 6 [] st1 = (Val [], st1, []).
Proof.
  intros Hs Hnd st1. split; [|split].
  - unfold handle_buffer. cbn [Z.eqb]. mstep. reflexivity.
  - reflexivity.
  - rewrite handle_surface_commit. apply try_except_val. mstep.
    change (surfaces st1) with (surfaces st). rewrite Hs.
    destruct (negb (bid =? 0)); [|reflexivity].
    change (buffers st1) with (dict_del bid (buffers st)).
    now rewrite dict_get_del_same.
Qed.

Lemma commit_after_buffer_destroy_witness :
  handle_surface 0 6 6 []
    (with_buffers (dict_del 9) (with_objects (dict_del 9) one_surface))
  = (Val [],
     with_buffers (dict_del 9) (with_objects (dict_del 9) one_surface), []).
Proof.
  assert (Hnd : NoDup (map fst (buffers one_surface))).
  { cbn. constructor; [tauto | constructor]. }
  exact (proj2 (proj2 (commit_after_buffer_destroy 0 6 9 one_surface
                         eq_refl Hnd))).
Defined.

(** ** A buffer that starts before its pool *)

(** X17: [create_buffer] reads the offset as a signed number.  With a
    negative offset that passes the guard, [send_pixl] in stdio mode
    writes the header, which announces the rows that fit, and then fails
    at the first [seek]: the handler catches the error, so the host gets
    a header followed by no pixel data and no flush. *)
Theorem negative_offset_header_only sid pid off w h stride fmt
  (pools : dict pool) st fd (mm : bytes) sz :
  dict_get pid pools = Some (fd, Some mm, sz) ->
  mm <> [] -> mode (proxy st) = stdio ->
  off < 0 -> 0 <= stride -> 0 < h ->
  off + stride * h <= sz -> off + w * 4 <= sz ->
  is_u32 sid = true -> is_u32 w = true -> 0 < w -> is_u32 h = true ->
  is_u32 fmt = true ->
  let row := w * 4 in
  let N := fitting_rows off stride row sz h in
  is_u32 (Z.of_nat N * row) = true ->
  let header :=
    pixl_magic ++ le_split 4 sid ++ le_split 4 w ++ le_split 4 h
      ++ le_split 4 fmt ++ le_split 4 (Z.of_nat N * row) in
  send_pixl sid (pid, off, w, h, stride, fmt) pools st
  = (Val tt, st, [HostWrite header])
  /\ 0 < Z.of_nat N * row.
Proof.
  intros Hpool Hmm Hmode Hoff Hstride Hh Hguard Hrow0 Hsid Hw Hw0 Hh32 Hfmt
    row N HN header.
  destruct (Z.to_nat h) as [| n] eqn:En; [lia|].
  assert (Hfit : row_fits off stride row sz 0 = true).
  { unfold row_fits. apply Z.leb_le. unfold row. lia. }
  split.
  - unfold send_pixl. rewrite Hpool.
    destruct mm as [| b mm']; [contradiction|]. cbn [mm_truthy negb].
    rewrite (try_except_exc _ _ _ st [HostWrite header]);
      [reflexivity|].
    fold row.
    replace (off + stride * h >? sz) with false
      by (symmetry; rewrite Z.gtb_ltb; apply Z.ltb_ge; lia).
    rewrite pixl_total_count by exact Hstride.
    fold (fitting_rows off stride row sz h). fold N. rewrite Z.add_0_l.
    unfold pixl_header.
    rewrite (pack_I_some _ Hsid), (pack_I_some _ Hw), (pack_I_some _ Hh32),
      (pack_I_some _ Hfmt), (pack_I_some _ HN).
    fold pixl_magic. fold header. mstep. rewrite Hmode. mstep.
    rewrite En. cbn [pixl_rows].
    replace (off + 0 * stride + row >? sz) with false
      by (symmetry; rewrite Z.gtb_ltb; apply Z.ltb_ge; unfold row; lia).
    unfold mm_seek.
    replace (off + 0 * stride <? 0) with true
      by (symmetry; apply Z.ltb_lt; lia).
    cbn [orb]. reflexivity.
  - unfold N, fitting_rows. rewrite En. cbn [zrange filter].
    rewrite Hfit. cbn [List.length]. unfold row. lia.
Qed.

Lemma negative_offset_header_only_witness :
  send_pixl 6 (8, -4, 1, 2, 8, 1)
    [(8, (33, Some (repeat Byte.xaa 32), 32))] (new_client stdio_proxy)
  = (Val tt, new_client stdio_proxy,
     [HostWrite
        (pixl_magic ++ le_split 4 6 ++ le_split 4 1 ++ le_split 4 2
           ++ le_split 4 1
           ++ le_split 4 (Z.of_nat (fitting_rows (-4) 8 (1 * 4) 32 2)
                          * (1 * 4)))]).
Proof.
  assert (Hmm : repeat Byte.xaa 32 <> []) by discriminate.
  exact (proj1 (negative_offset_header_only 6 8 (-4) 1 2 8 1
                  [(8, (33, Some (repeat Byte.xaa 32), 32))]
                  (new_client stdio_proxy) 33 (repeat Byte.xaa 32) 32
                  eq_refl Hmm eq_refl eq_refl ltac:(discriminate) eq_refl
                  ltac:(discriminate) ltac:(discriminate)
                  eq_refl eq_refl eq_refl eq_refl eq_refl eq_refl)).
Defined.

(** ** The loop of [handle_message] ends *)

Lemma bind_ext {A B} (m : M A) (k1 k2 : A -> M B) st :
  (forall a st', k1 a st' = k2 a st') -> bind m k1 st = bind m k2 st.
Proof.
  intros H. unfold bind. destruct (m st) as [[[a | |] st1] tr1];
    [now rewrite H | reflexivity | reflexivity].
Qed.

Lemma handle_loop_fuel mmap now data fuel1 :
  forall fuel2 offset responses st,
    offset <= len data ->
    len data - offset < 8 * Z.of_nat fuel1 ->
    len data - offset < 8 * Z.of_nat fuel2 ->
    handle_loop mmap now fuel1 data offset responses st
    = handle_loop mmap now fuel2 data offset responses st.
Proof.
  induction fuel1 as [| fuel1 IH]; intros [| fuel2] offset responses st
    Ho H1 H2; try lia.
  cbn [handle_loop].
  destruct (offset <? len data); [|reflexivity].
  destruct (len data - offset <? HEADER_SIZE); [reflexivity|].
  destruct (fst (decode_header (py_slice data offset (len data))))
    as [[[object_id opcode] size] |]; [|reflexivity].
  destruct ((size <? 8) || (len data - offset <? size)) eqn:E;
    [reflexivity|].
  apply orb_false_iff in E. destruct E as [E1 E2].
  apply Z.ltb_ge in E1, E2.
  rewrite !bind_get.
  destruct (dict_get object_id (objects st)) as [[obj_type obj_version] |].
  - apply bind_ext. intros res st'. apply IH; lia.
  - apply IH; lia.
Qed.

(** X18: the loop of [handle_message] ends on every batch, with a return
    or an exception: each turn that goes on moves the offset forward by
    at least the 8 bytes of a header, so a bound of more than an eighth
    of the bytes left is never reached, and the result does not depend
    on the bound. *)
Theorem batch_loop_ends mmap now data fds st :
  fst (fst (handle_message mmap now data fds st)) <> OutOfFuel
  /\ (forall fuel offset responses st',
        0 <= offset <= len data ->
        len data - offset < 8 * Z.of_nat fuel ->
        fst (fst (handle_loop mmap now fuel data offset responses st'))
        <> OutOfFuel
        /\ handle_loop mmap now fuel data offset responses st'
           = handle_loop mmap now (S (List.length data)) data offset
               responses st').
Proof.
  split; [apply handle_message_terminates|].
  intros fuel offset responses st' Ho Hf. split.
  - now apply ff_handle_loop.
  - apply handle_loop_fuel; [lia | exact Hf | unfold len in *; lia].
Qed.

Lemma batch_loop_ends_witness :
  handle_loop no_mmap 0 2 (get_registry_request 2) 0 []
    (new_client stdio_proxy)
  = handle_loop no_mmap 0 (S (List.length (get_registry_request 2)))
      (get_registry_request 2) 0 [] (new_client stdio_proxy).
Proof.
  apply (proj2 (batch_loop_ends no_mmap 0 (get_registry_request 2) []
                  (new_client stdio_proxy)) 2%nat 0 []
               (new_client stdio_proxy)).
  - vm_compute. split; discriminate.
  - vm_compute. reflexivity.
Defined.

(** ** The host channel *)

Lemma py_slice_from {A} (l : list A) k :
  0 <= k <= len l -> py_slice l k (len l) = skipn (Z.to_nat k) l.
Proof.
  intros H. rewrite py_slice_inside by lia.
  unfold len. now rewrite Nat2Z.id, firstn_all.
Qed.

Lemma suffix_from {A} (l : list A) k :
  0 <= k <= len l -> l = firstn (Z.to_nat k) l ++ py_slice l k (len l).
Proof.
  intros H. rewrite py_slice_from by exact H.
  symmetry. apply firstn_skipn.
Qed.

Lemma len_py_slice_from {A} (l : list A) k :
  0 <= k <= len l -> len (py_slice l k (len l)) = len l - k.
Proof. intros H. apply len_py_slice; lia. Qed.

Lemma host_loop_returns now fuel : forall buf st,
  len buf < Z.of_nat fuel ->
  exists rest st' tr pre,
    host_loop now fuel buf st = (Val rest, st', tr) /\ buf = pre ++ rest.
Proof.
  induction fuel as [| fuel IH]; intros buf st Hf.
  - pose proof (len_nonneg buf). lia.
  - cbn [host_loop].
    destruct (len buf >=? 8) eqn:E8.
    2: { exists buf, st, [], []. split; reflexivity. }
    apply Z.geb_le in E8.
    destruct ((len buf >=? 20)
              && bytes_eqb (py_slice buf 0 4) (list_byte_of_string "INPT"))
      eqn:Ein.
    + apply andb_true_iff in Ein. destruct Ein as [E20 _].
      apply Z.geb_le in E20.
      destruct (broadcast_input_returns now (py_slice buf 0 20) st)
        as (st1 & tr1 & Hb).
      rewrite (bind_of_val _ _ _ _ _ _ Hb).
      destruct (IH (py_slice buf 20 (len buf)) st1)
        as (rest & st' & tr & pre & Hrun & Hsuf).
      { rewrite len_py_slice_from by lia. lia. }
      rewrite Hrun. cbn [after].
      exists rest, st', (tr1 ++ tr), (firstn (Z.to_nat 20) buf ++ pre).
      split; [reflexivity|].
      rewrite <- app_assoc, <- Hsuf. apply suffix_from. lia.
    + destruct (unpack_I_inside buf 0) as (oid & Ho & _); [lia | lia|].
      destruct (unpack_I_inside buf 4) as (op_sz & Hw & _); [lia | lia|].
      change (0 + 4) with 4 in Ho. change (4 + 4) with 8 in Hw.
      rewrite Ho, Hw.
      destruct (Z.shiftr op_sz 16 <? 8) eqn:Es.
      * destruct (IH (py_slice buf 1 (len buf)) st)
          as (rest & st' & tr & pre & Hrun & Hsuf).
        { rewrite len_py_slice_from by lia. lia. }
        rewrite Hrun.
        exists rest, st', tr, (firstn (Z.to_nat 1) buf ++ pre).
        split; [reflexivity|].
        rewrite <- app_assoc, <- Hsuf. apply suffix_from. lia.
      * apply Z.ltb_ge in Es.
        destruct (len buf >=? Z.shiftr op_sz 16) eqn:El.
        2: { exists buf, st, [], []. split; reflexivity. }
        apply Z.geb_le in El.
        unfold send at 1. rewrite bind_emit.
        destruct (IH (py_slice buf (Z.shiftr op_sz 16) (len buf)) st)
          as (rest & st' & tr & pre & Hrun & Hsuf).
        { rewrite len_py_slice_from by lia. lia. }
        rewrite Hrun. cbn [after].
        eexists rest, st', _,
          (firstn (Z.to_nat (Z.shiftr op_sz 16)) buf ++ pre).
        split; [reflexivity|].
        rewrite <- app_assoc, <- Hsuf. apply suffix_from. lia.
Qed.

(** X19: a read from the host always comes back: the loop over the
    buffer ends, since every turn that goes on removes at least one
    byte, and nothing in it raises.  An empty read is the end of the
    host channel; otherwise what is kept for the next read is the end
    part of the buffer with the new bytes appended. *)
Theorem host_read_returns now buf d st :
  exists r st' tr,
    host_ready now buf d st = (Val r, st', tr)
    /\ match r with
       | None => d = []
       | Some rest => d <> [] /\ exists pre, buf ++ d = pre ++ rest
       end.
Proof.
  unfold host_ready. destruct d as [| b d].
  - exists None, st, []. split; reflexivity.
  - destruct (host_loop_returns now (S (List.length (buf ++ b :: d)))
                (buf ++ b :: d) st)
      as (rest & st' & tr & pre & Hrun & Hsuf).
    { unfold len. lia. }
    rewrite (bind_of_val _ _ _ _ _ _ Hrun). unfold ret. cbn [after].
    exists (Some rest), st', (tr ++ []). split; [reflexivity|].
    split; [discriminate | exists pre; exact Hsuf].
Qed.

Lemma encode_message_layout oid op args msg :
  encode_message oid op args = Some msg ->
  exists payload word,
    encode_payload args = Some payload
    /\ msg = le_split 4 oid ++ le_split 4 word ++ payload
    /\ is_u32 oid = true /\ is_u32 word = true
    /\ Z.shiftr word 16 = 8 + len payload
    /\ Z.land word 65535 = Z.land op 65535
    /\ len msg = 8 + len payload.
Proof.
  intros H. unfold encode_message in H.
  destruct (encode_payload args) as [payload |]; [|discriminate].
  exists payload,
    (Z.lor (Z.shiftl (8 + len payload) 16) (Z.land op 65535)).
  unfold pack_I, HEADER_SIZE in H.
  destruct (is_u32 oid) eqn:Ho; [|discriminate].
  destruct (is_u32 (Z.lor (Z.shiftl (8 + len payload) 16)
                      (Z.land op 65535))) eqn:Hw; [|discriminate].
  apply some_inj in H. subst msg.
  pose proof (len_nonneg payload) as Hp.
  pose proof (land_mask16_range op) as Hop.
  assert (E : Z.lor (Z.shiftl (8 + len payload) 16) (Z.land op 65535)
              = (8 + len payload) * 65536 + Z.land op 65535).
  { rewrite <- (header_word_split (8 + len payload) (Z.land op 65535))
      by lia.
    rewrite <- Z.land_assoc, Z.land_diag. reflexivity. }
  assert (Hsmall : 8 + len payload < 65536).
  { apply is_u32_range in Hw. rewrite E in Hw.
    change (2 ^ 32) with 4294967296 in Hw. lia. }
  destruct (header_word_u32 (8 + len payload) op) as (_ & Hsz & Hopc);
    [lia|].
  repeat split; trivial.
  rewrite !len_app, !len_le_split. lia.
Qed.

Lemma tag_is_object_id oid :
  is_u32 oid = true ->
  bytes_eqb (le_split 4 oid) (list_byte_of_string "INPT") = true ->
  oid = 1414549065.
Proof.
  intros Hu H. apply bytes_eqb_eq in H.
  apply (f_equal le_combine) in H. rewrite le_combine_split in H.
  apply is_u32_range in Hu.
  replace (oid mod 2 ^ (Z.of_nat 4 * 8)) with oid in H
    by (symmetry; apply Z.mod_small; exact Hu).
  rewrite H. reflexivity.
Qed.

(** X20: what the host sends is split into input records and packets.
    A whole message at the head of the buffer, as [encode_message] lays
    it out, is sent to the client byte for byte, whatever its object and
    opcode are, unless it is at least 20 bytes long with the buffer and
    its object id is 1414549065, the number that reads ["INPT"]; a
    20-byte input record at the head of the buffer goes to
    [broadcast_input].  The loop goes on with the bytes that follow. *)
Theorem host_stream_split now fuel rest st :
  (forall oid op args msg,
     encode_message oid op args = Some msg ->
     oid <> 1414549065 \/ len (msg ++ rest) < 20 ->
     host_loop now (S fuel) (msg ++ rest) st
     = after [ClientSend msg] (host_loop now fuel rest st))
  /\ (forall type_code p1 p2 reserved,
        len reserved = 4 ->
        host_loop now (S fuel)
          (input_record type_code p1 p2 reserved ++ rest) st
        = (broadcast_input now (input_record type_code p1 p2 reserved) ;;
           host_loop now fuel rest) st).
Proof.
  split.
  - intros oid op args msg He Hno.
    destruct (encode_message_layout oid op args msg He)
      as (payload & word & Hp & Hmsg & Ho & Hw & Hsz & _ & Hlen).
    pose proof (len_nonneg payload) as Hn. pose proof (len_nonneg rest) as Hr.
    assert (S0 : py_slice (msg ++ rest) 0 4 = le_split 4 oid).
    { rewrite Hmsg, <- !app_assoc.
      exact (py_slice_middle [] (le_split 4 oid) _). }
    assert (S4 : py_slice (msg ++ rest) 4 8 = le_split 4 word).
    { rewrite Hmsg, <- !app_assoc.
      exact (py_slice_middle (le_split 4 oid) (le_split 4 word) _). }
    assert (Sp : py_slice (msg ++ rest) 0 (len msg) = msg).
    { pose proof (py_slice_middle [] msg rest) as H.
      now rewrite len_nil, Z.add_0_l in H. }
    assert (Sr : py_slice (msg ++ rest) (len msg) (len (msg ++ rest)) = rest)
      by apply py_slice_tail.
    cbn [host_loop].
    replace (len (msg ++ rest) >=? 8) with true
      by (symmetry; apply Z.geb_le; rewrite len_app; lia).
    replace ((len (msg ++ rest) >=? 20)
             && bytes_eqb (py_slice (msg ++ rest) 0 4)
                  (list_byte_of_string "INPT")) with false.
    2: { symmetry. apply andb_false_iff. destruct Hno as [Hne | Hshort].
         - right. rewrite S0.
           destruct (bytes_eqb (le_split 4 oid) (list_byte_of_string "INPT"))
             eqn:Eb; [|reflexivity].
           exfalso. apply Hne. now apply tag_is_object_id.
         - left. destruct (len (msg ++ rest) >=? 20) eqn:E; [|reflexivity].
           apply Z.geb_le in E. lia. }
    rewrite S0, S4, (unpack_I_pack oid Ho), (unpack_I_pack word Hw), Hsz.
    rewrite <- Hlen.
    replace (len msg <? 8) with false by (symmetry; apply Z.ltb_ge; lia).
    replace (len (msg ++ rest) >=? len msg) with true
      by (symmetry; apply Z.geb_le; rewrite len_app; lia).
    rewrite Sp, Sr. unfold send. now rewrite bind_emit.
  - intros type_code p1 p2 reserved Hres.
    set (rec := input_record type_code p1 p2 reserved).
    assert (Hlen : len rec = 20).
    { unfold rec, input_record.
      rewrite !len_app, !len_le_split, Hres. reflexivity. }
    pose proof (len_nonneg rest) as Hr.
    assert (S0 : py_slice (rec ++ rest) 0 4 = list_byte_of_string "INPT").
    { unfold rec, input_record. rewrite <- !app_assoc.
      exact (py_slice_middle [] (list_byte_of_string "INPT") _). }
    assert (Sp : py_slice (rec ++ rest) 0 20 = rec).
    { pose proof (py_slice_middle [] rec rest) as H.
      now rewrite len_nil, Z.add_0_l, Hlen in H. }
    assert (Sr : py_slice (rec ++ rest) 20 (len (rec ++ rest)) = rest).
    { rewrite <- Hlen. apply py_slice_tail. }
    cbn [host_loop].
    replace (len (rec ++ rest) >=? 8) with true
      by (symmetry; apply Z.geb_le; rewrite len_app; lia).
    replace (len (rec ++ rest) >=? 20) with true
      by (symmetry; apply Z.geb_le; rewrite len_app; lia).
    rewrite S0, Sp, Sr. reflexivity.
Qed.

Lemma host_stream_split_witness :
  host_loop 0 2 (release_event 9 ++ []) (new_client stdio_proxy)
  = after [ClientSend (release_event 9)]
      (host_loop 0 1 [] (new_client stdio_proxy)).
Proof.
  apply (proj1 (host_stream_split 0 1 [] (new_client stdio_proxy))
           9 0 [] (release_event 9)).
  - reflexivity.
  - left. discriminate.
Defined.

Lemma py_slice_firstn {A} (l : list A) (n : nat) i j :
  0 <= i -> 0 <= j <= Z.of_nat n -> (n <= List.length l)%nat ->
  py_slice (firstn n l) i j = py_slice l i j.
Proof.
  intros Hi Hj Hn.
  assert (Hl : len (firstn n l) = Z.of_nat n).
  { unfold len. rewrite length_firstn. lia. }
  rewrite !py_slice_inside by (unfold len in *; lia).
  rewrite firstn_firstn. now rewrite Nat.min_l by lia.
Qed.

(** X21: an input record that reaches the proxy in two reads, with 8 to
    19 bytes in the first, is not kept for the second read: with less
    than 20 bytes in the buffer the tag is not looked at, the type code
    is taken for the size word of a packet, its upper half is below 8,
    and the first byte of the record is thrown away.  What is left no
    longer starts with the tag. *)
Theorem split_input_record_damaged now n type_code p1 p2 reserved st :
  (8 <= n < 20)%nat -> 0 <= type_code < 524288 -> len reserved = 4 ->
  let d := firstn n (input_record type_code p1 p2 reserved) in
  host_ready now [] d st
  = (rest <- host_loop now (List.length d) (tl d) ;; ret (Some rest)) st
  /\ (forall more, py_slice (tl d ++ more) 0 4 <> list_byte_of_string "INPT").
Proof.
  intros Hn Htc Hres d.
  set (rec := input_record type_code p1 p2 reserved) in *.
  assert (Hrec : List.length rec = 20%nat).
  { assert (H : len rec = 20).
    { unfold rec, input_record.
      rewrite !len_app, !len_le_split, Hres. reflexivity. }
    unfold len in H. lia. }
  assert (Hd : List.length d = n).
  { unfold d. rewrite length_firstn. lia. }
  assert (Hlen : len d = Z.of_nat n) by (unfold len; now rewrite Hd).
  assert (Hne : exists b d', d = b :: d').
  { destruct d as [| b d']; [cbn in Hd; lia | eauto]. }
  destruct Hne as (b & d' & Ed).
  split.
  - assert (Hstep : host_loop now (S (List.length d)) d st
                    = host_loop now (List.length d) (tl d) st).
    2: { unfold host_ready. rewrite Ed. cbn [app]. rewrite <- Ed.
         unfold bind. now rewrite Hstep. }
    cbn [host_loop].
    replace (len d >=? 8) with true by (symmetry; apply Z.geb_le; lia).
    replace (len d >=? 20) with false.
    2: { symmetry. destruct (len d >=? 20) eqn:E; [|reflexivity].
         apply Z.geb_le in E. lia. }
    cbn [andb].
    destruct (unpack_I_inside d 0) as (oid & Ho & _); [lia | lia|].
    change (0 + 4) with 4 in Ho. rewrite Ho.
    assert (S4 : py_slice d 4 8 = le_split 4 type_code).
    { unfold d. rewrite py_slice_firstn by lia.
      exact (py_slice_middle (list_byte_of_string "INPT")
               (le_split 4 type_code) _). }
    rewrite S4, unpack_I_pack
      by (apply is_u32_range; change (2 ^ 32) with 4294967296; lia).
    replace (Z.shiftr type_code 16 <? 8) with true.
    2: { symmetry. apply Z.ltb_lt. rewrite Z.shiftr_div_pow2 by lia.
         apply Z.div_lt_upper_bound; [reflexivity|].
         change (2 ^ 16 * 8) with 524288. lia. }
    rewrite py_slice_from by lia.
    replace (skipn (Z.to_nat 1) d) with (tl d) by (now rewrite Ed).
    reflexivity.
  - intros more Htag.
    assert (Hd1 : exists d'', d' = Byte.x4e :: d'').
    { assert (E : firstn 2 d = firstn 2 rec).
      { unfold d. rewrite firstn_firstn. now rewrite Nat.min_l by lia. }
      rewrite Ed in E. unfold rec, input_record in E. cbn in E.
      destruct d' as [| c d'']; [discriminate|].
      injection E as _ ->. eauto. }
    destruct Hd1 as (d'' & ->). rewrite Ed in Htag. cbn [tl app] in Htag.
    assert (Hl : 4 <= len (Byte.x4e :: d'' ++ more)).
    { rewrite Ed in Hlen. rewrite !len_cons in *. rewrite len_app.
      pose proof (len_nonneg more). lia. }
    rewrite py_slice_inside in Htag by lia.
    cbn in Htag. destruct (d'' ++ more) as [| x [| y [| z t]]];
      discriminate.
Qed.

Lemma split_input_record_damaged_witness :
  host_ready 0 [] (firstn 12 (input_record 1 30 1 (le_split 4 0)))
    (new_client stdio_proxy)
  = (rest <- host_loop 0
               (List.length (firstn 12 (input_record 1 30 1 (le_split 4 0))))
               (tl (firstn 12 (input_record 1 30 1 (le_split 4 0)))) ;;
     ret (Some rest)) (new_client stdio_proxy).
Proof.
  exact (proj1 (split_input_record_damaged 0 12 1 30 1 (le_split 4 0)
                  (new_client stdio_proxy) ltac:(lia) ltac:(lia) eq_refl)).
Defined.

(** ** The debugging client *)

Lemma round_up_4 n :
  0 <= n -> Z.land (n + 3) (Z.lnot 3) = n + (4 - n mod 4) mod 4.
Proof.
  intros Hn. rewrite <- Z.ldiff_land. change 3 with (Z.ones 2) at 2.
  rewrite Z.ldiff_ones_r by lia.
  rewrite Z.shiftr_div_pow2, Z.shiftl_mul_pow2 by lia.
  change (2 ^ 2) with 4. Z.div_mod_to_equations. lia.
Qed.

(** X22: the client of test_debug.py reads back what the proxy sends for
    a global.  From a buffer that starts with the event it takes the
    object, opcode 0, the size and the payload and leaves the rest; from
    the payload it reads the name, the interface and the version that
    [encode_message] was given, for any interface name that is valid
    UTF-8: its rounding of the string length, [(slen + 3) & ~3], agrees
    with the padding the proxy writes. *)
Theorem debug_client_reads_global reg_id name iface ver msg rest :
  encode_message reg_id 0 [PyInt name; PyStr iface; PyInt ver] = Some msg ->
  is_u32 name = true -> is_u32 ver = true ->
  utf8_valid (encode_utf8 iface) = true ->
  exists payload,
    debug_next_event (msg ++ rest)
    = Some (reg_id, 0, len msg, payload, rest)
    /\ debug_read_global payload = Some (name, iface, ver).
Proof.
  intros He Hname Hver Hutf.
  destruct (encode_message_layout _ _ _ _ He)
    as (payload & word & Hp & Hmsg & Ho & Hw & Hsz & Hop & Hlen).
  pose proof (len_nonneg payload) as Hn. pose proof (len_nonneg rest) as Hr.
  exists payload. split.
  - assert (S0 : py_slice (msg ++ rest) 0 4 = le_split 4 reg_id).
    { rewrite Hmsg, <- !app_assoc.
      exact (py_slice_middle [] (le_split 4 reg_id) _). }
    assert (S4 : py_slice (msg ++ rest) 4 8 = le_split 4 word).
    { rewrite Hmsg, <- !app_assoc.
      exact (py_slice_middle (le_split 4 reg_id) (le_split 4 word) _). }
    assert (Sp : py_slice (msg ++ rest) 8 (len msg) = payload).
    { rewrite Hlen, Hmsg, <- !app_assoc.
      rewrite (app_assoc (le_split 4 reg_id)).
      exact (py_slice_middle (le_split 4 reg_id ++ le_split 4 word)
               payload rest). }
    assert (Sr : py_slice (msg ++ rest) (len msg) (len (msg ++ rest)) = rest)
      by apply py_slice_tail.
    unfold debug_next_event.
    replace (len (msg ++ rest) >=? 8) with true
      by (symmetry; apply Z.geb_le; rewrite len_app; lia).
    rewrite S0, S4, (unpack_I_pack reg_id Ho), (unpack_I_pack word Hw).
    rewrite Hsz, Hop, <- Hlen.
    replace (len (msg ++ rest) <? len msg) with false
      by (symmetry; apply Z.ltb_ge; rewrite len_app; lia).
    rewrite Sp, Sr. reflexivity.
  - clear He Hmsg Hlen Hsz Hop Hw word.
    cbn [encode_payload encode_arg] in Hp. unfold pack_I in Hp.
    rewrite (land_u32_id name Hname), (land_u32_id ver Hver), Hname, Hver
      in Hp.
    set (enc := encode_utf8 iface) in *.
    set (slen := len (enc ++ [Byte.x00])) in *.
    set (pad := (4 - slen mod 4) mod 4) in *.
    destruct (is_u32 slen) eqn:Hu; [|discriminate].
    apply some_inj in Hp. subst payload.
    assert (Hslen : slen = len enc + 1).
    { unfold slen. rewrite len_app. reflexivity. }
    pose proof (len_nonneg enc) as Henc.
    assert (Hpad : 0 <= pad) by (unfold pad; apply Z.mod_pos_bound; lia).
    set (L := le_split 4 slen). set (A := le_split 4 name).
    set (V := le_split 4 ver). set (P := repeat Byte.x00 (Z.to_nat pad)).
    assert (HP : len P = pad).
    { unfold P. rewrite len_repeat. lia. }
    assert (E : A ++ (L ++ (enc ++ [Byte.x00]) ++ P) ++ V ++ []
                = (A ++ L) ++ enc ++ ([Byte.x00] ++ P ++ V)).
    { now rewrite app_nil_r, <- !app_assoc. }
    assert (E' : A ++ (L ++ (enc ++ [Byte.x00]) ++ P) ++ V ++ []
                 = (A ++ L ++ enc ++ [Byte.x00] ++ P) ++ V ++ []).
    { now rewrite <- !app_assoc. }
    unfold debug_read_global.
    replace (py_slice (A ++ (L ++ (enc ++ [Byte.x00]) ++ P) ++ V ++ []) 0 4)
      with A by (symmetry; exact (py_slice_middle [] A _)).
    replace (py_slice (A ++ (L ++ (enc ++ [Byte.x00]) ++ P) ++ V ++ []) 4 8)
      with L.
    2: { symmetry. rewrite <- (app_assoc L).
         exact (py_slice_middle A L _). }
    unfold A, L. rewrite (unpack_I_pack name Hname), (unpack_I_pack slen Hu).
    fold A L.
    replace (py_slice (A ++ (L ++ (enc ++ [Byte.x00]) ++ P) ++ V ++ [])
               8 (8 + slen - 1)) with enc.
    2: { symmetry. rewrite E.
         replace (8 + slen - 1) with (len (A ++ L) + len enc).
         2: { unfold A, L. rewrite len_app, !len_le_split. lia. }
         exact (py_slice_middle (A ++ L) enc _). }
    unfold decode_utf8. rewrite Hutf. rewrite round_up_4 by lia. fold pad.
    replace (py_slice (A ++ (L ++ (enc ++ [Byte.x00]) ++ P) ++ V ++ [])
               (8 + (slen + pad)) (8 + (slen + pad) + 4)) with V.
    2: { symmetry. rewrite E'.
         assert (Hpre : len (A ++ L ++ enc ++ [Byte.x00] ++ P)
                        = 8 + (slen + pad)).
         { unfold A, L. rewrite !len_app, !len_le_split, HP.
           change (len [Byte.x00]) with 1. lia. }
         rewrite <- Hpre.
         exact (py_slice_middle (A ++ L ++ enc ++ [Byte.x00] ++ P) V []). }
    unfold V. rewrite (unpack_I_pack ver Hver).
    unfold enc, encode_utf8. now rewrite string_of_list_byte_of_string.
Qed.

Lemma debug_client_reads_global_witness :
  exists payload,
    debug_next_event
      (le_split 4 2 ++ le_split 4 (28 * 65536)
         ++ le_split 4 3 ++ le_split 4 7 ++ list_byte_of_string "wl_shm"
         ++ [Byte.x00; Byte.x00] ++ le_split 4 1 ++ [])
    = Some (2, 0,
            len (le_split 4 2 ++ le_split 4 (28 * 65536)
                   ++ le_split 4 3 ++ le_split 4 7
                   ++ list_byte_of_string "wl_shm"
                   ++ [Byte.x00; Byte.x00] ++ le_split 4 1),
            payload, [])
    /\ debug_read_global payload = Some (3, "wl_shm"%string, 1).
Proof.
  apply (debug_client_reads_global 2 3 "wl_shm" 1
           (le_split 4 2 ++ le_split 4 (28 * 65536)
              ++ le_split 4 3 ++ le_split 4 7 ++ list_byte_of_string "wl_shm"
              ++ [Byte.x00; Byte.x00] ++ le_split 4 1) []);
    reflexivity.
Defined.

Lemma py_slice_shift {A} (pre l : list A) i j :
  0 <= i -> 0 <= j ->
  py_slice (pre ++ l) (len pre + i) (len pre + j) = py_slice l i j.
Proof.
  intros Hi Hj. pose proof (len_nonneg pre) as Hp.
  pose proof (len_nonneg l) as Hl.
  unfold py_slice. rewrite len_app.
  assert (C : forall k, 0 <= k ->
            clip (len pre + len l) (len pre + k) = len pre + clip (len l) k).
  { intros k Hk. unfold clip.
    destruct (len pre + k <? 0) eqn:E1; [apply Z.ltb_lt in E1; lia|].
    destruct (k <? 0) eqn:E2; [apply Z.ltb_lt in E2; lia|]. lia. }
  rewrite (C i Hi), (C j Hj).
  assert (N : forall k, 0 <= k -> 0 <= clip (len l) k).
  { intros k Hk. unfold clip.
    destruct (k <? 0) eqn:E2; [apply Z.ltb_lt in E2; lia|]. lia. }
  pose proof (N i Hi). pose proof (N j Hj).
  rewrite !Z2Nat.inj_add by lia. unfold len at 1 3. rewrite !Nat2Z.id.
  rewrite firstn_app_2, skipn_app, skipn_all2 by lia.
  cbn [app]. f_equal. lia.
Qed.

(** A batch whose handling raises closes the connection. *)
Lemma raise_closes mmap now data fds st st1 tr :
  data <> [] ->
  handle_message mmap now data fds st = (Exc, st1, tr) ->
  client_ready mmap now data fds st
  = (Val false, st1,
     tr ++ flat_map pool_release_events (shm_pools st1) ++ [SockClose]).
Proof.
  intros Hne Hraise. unfold client_ready.
  destruct data as [| b data']; [contradiction|].
  rewrite (try_except_exc _ _ st st1 tr).
  - rewrite (bind_of_val _ _ _ _ _ _ (close_releases_pools st1)).
    unfold ret. cbn [after app]. now rewrite app_nil_r.
  - now rewrite (bind_of_exc _ _ _ _ _ Hraise).
Qed.

(** X23: the [wl_registry.bind] request that test_debug.py sends for
    [wl_output] announces a string of 10 bytes and carries 11 bytes for
    it, one short of the padded length 12.  [handle_registry] reads the
    version one byte late and finds only 3 bytes for the new id:
    [read_uint] raises, nothing is registered, and the client branch of
    [run_stdio] closes the connection. *)
Theorem debug_bind_closes_connection mmap now name fds st obj_version :
  is_u32 name = true ->
  dict_get 2 (objects st) = Some ("wl_registry"%string, obj_version) ->
  exists data,
    debug_bind_output name = Some data
    /\ len data = 35
    /\ handle_message mmap now data fds st = (Exc, with_fds fds st, [])
    /\ client_ready mmap now data fds st
       = (Val false, with_fds fds st,
          flat_map pool_release_events (shm_pools st) ++ [SockClose]).
Proof.
  intros Hname Hobj.
  set (body := le_split 4 10 ++ list_byte_of_string "wl_output"
                 ++ [Byte.x00; Byte.x00] ++ le_split 4 3 ++ le_split 4 10).
  set (payload := le_split 4 name ++ body).
  set (data := le_split 4 2 ++ le_split 4 (35 * 65536) ++ payload).
  assert (Hlb : len body = 23) by reflexivity.
  assert (Hlp : len payload = 27).
  { unfold payload. now rewrite len_app, len_le_split, Hlb. }
  assert (Hld : len data = 35).
  { unfold data. now rewrite !len_app, !len_le_split, Hlp. }
  assert (Hdata : debug_bind_output name = Some data).
  { unfold debug_bind_output. rewrite (pack_I_some name Hname).
    cbn [pack_I is_u32 Z.leb Z.compare Pos.compare Pos.compare_cont andb
         u32_max].
    rewrite <- !app_assoc. fold body payload. rewrite Hlp.
    reflexivity. }
  assert (Hhead : decode_header data = (Some (2, 0, 35), payload)).
  { exact (decode_header_layout 2 (35 * 65536) payload eq_refl eq_refl). }
  assert (Hpay : py_slice data HEADER_SIZE 35 = payload).
  { unfold data. rewrite (app_assoc (le_split 4 2)).
    pose proof (py_slice_middle (le_split 4 2 ++ le_split 4 (35 * 65536))
                  payload []) as H.
    rewrite app_nil_r, Hlp in H. exact H. }
  assert (R0 : read_uint payload 0 = Some (name, 4)).
  { pose proof (read_uint_at [] name body) as H. cbn [app] in H.
    rewrite len_nil in H. unfold payload. rewrite H.
    apply is_u32_range in Hname. now rewrite Z.mod_small. }
  assert (Sh : forall i j, 0 <= i -> 0 <= j ->
               py_slice payload (4 + i) (4 + j) = py_slice body i j).
  { intros i j Hi Hj.
    exact (py_slice_shift (le_split 4 name) body i j Hi Hj). }
  assert (R1 : read_string payload 4 = Some ("wl_output"%string, 20)).
  { assert (P1 : py_slice payload 4 (4 + 4) = py_slice body 0 4)
      by (apply (Sh 0 4); lia).
    assert (P2 : py_slice payload (4 + 4) (4 + 4 + 10 - 1)
                 = py_slice body 4 13)
      by (apply (Sh 4 13); lia).
    unfold read_string, read_uint. rewrite P1.
    replace (unpack_I (py_slice body 0 4)) with (Some 10) by reflexivity.
    rewrite P2. vm_compute. reflexivity. }
  assert (R2 : read_uint payload 20 = Some (167772160, 24)).
  { assert (P : py_slice payload 20 (20 + 4) = py_slice body 16 20)
      by (apply (Sh 16 20); lia).
    unfold read_uint. rewrite P. vm_compute. reflexivity. }
  assert (R3 : read_uint payload 24 = None).
  { assert (P : py_slice payload 24 (24 + 4) = py_slice body 20 24)
      by (apply (Sh 20 24); lia).
    unfold read_uint. rewrite P. vm_compute. reflexivity. }
  assert (Hraise : handle_message mmap now data fds st
                   = (Exc, with_fds fds st, [])).
  { apply (handle_message_raises mmap now data fds st 2 0 35
             "wl_registry" obj_version); [lia | now rewrite Hhead | exact Hobj|].
    rewrite Hpay.
    change (dispatch mmap now "wl_registry" 2 0 payload)
      with (handle_registry 2 0 payload).
    unfold handle_registry. cbn [Z.eqb].
    rewrite R0. mstep. rewrite R1. mstep. rewrite R2. mstep. rewrite R3.
    reflexivity. }
  exists data. repeat split; trivial.
  rewrite (raise_closes mmap now data fds st _ _ ltac:(discriminate) Hraise).
  reflexivity.
Qed.

Lemma debug_bind_closes_connection_witness :
  exists data,
    debug_bind_output 6 = Some data
    /\ len data = 35
    /\ handle_message no_mmap 0 data [] two_keyboards
       = (Exc, with_fds [] two_keyboards, []).
Proof.
  destruct (debug_bind_closes_connection no_mmap 0 6 [] two_keyboards 1
              eq_refl eq_refl) as (data & H1 & H2 & H3 & _).
  exists data. repeat split; assumption.
Defined.

(** ** The first configure *)

Lemma encode_message_int_wraps oid op z :
  encode_message oid op [PyInt z]
  = encode_message oid op [PyInt (z mod 2 ^ 32)].
Proof.
  unfold encode_message. cbn [encode_payload].
  now rewrite (encode_arg_wraps z).
Qed.

Lemma sent_app tr1 tr2 : sent (tr1 ++ tr2) = sent tr1 ++ sent tr2.
Proof. unfold sent. apply flat_map_app. Qed.

Lemma sent_sends l : sent (map ClientSend l) = l.
Proof.
  induction l as [| m l IH]; [reflexivity|].
  cbn [map]. change (sent (ClientSend m :: map ClientSend l))
    with (m :: sent (map ClientSend l)). now rewrite IH.
Qed.

(** X24: [get_toplevel] registers the new id as [xdg_toplevel] version 3
    and answers with two events: [xdg_toplevel.configure], 16 bytes long
    (800, 600 and no word for the empty array of states), and
    [xdg_surface.configure] with a fresh serial.  When the surface table
    is empty or its first key is 0, nothing else happens: one serial is
    used and the two answers are all the client gets.  When the first key
    of the surface table is not 0, [try_focus] sends its [enter] events
    at once, with the serials that follow, while the two answers are sent
    by [handle_message] after its loop: on the wire the configure with
    the lower serial comes after the enter events. *)
Theorem get_toplevel_configures oid pay st :
  4 <= len pay -> is_u32 oid = true ->
  let tid := le_combine (firstn 4 pay) in
  let st1 := with_objects (dict_set tid ("xdg_toplevel"%string, 3)) st in
  let targets := focus_targets (objects st1) in
  let n := List.length targets in
  exists m1 m2,
    fst (decode_header m1) = Some (tid, 0, 16)
    /\ decode_message [TUint] m2
       = Some (oid, 0, [PyInt ((serial st + 1) mod 2 ^ 32)])
    /\ (first_key (surfaces st) = None \/ first_key (surfaces st) = Some 0 ->
        handle_xdg_surface oid 1 pay st
        = (Val [m1; m2], with_serial (serial st + 1) st1,
           [Issue (serial st + 1)])
        /\ sent (trace_of (send_responses (handle_xdg_surface oid 1 pay st)))
           = [m1; m2])
    /\ (forall sid,
          first_key (surfaces st) = Some sid -> sid <> 0 ->
          Forall (fun kv => is_u32 (fst kv) = true) targets ->
          exists tr,
            handle_xdg_surface oid 1 pay st
            = (Val [m1; m2], with_serial (serial st + 1 + Z.of_nat n) st1,
               Issue (serial st + 1) :: tr)
            /\ issued tr = zrange (serial st + 1 + 1) n
            /\ List.length (sent tr) = n
            /\ decoded_as (map enter_signature targets) (sent tr)
               = enter_events sid (serial st + 1 + 1) targets
            /\ sent (trace_of (send_responses
                                 (handle_xdg_surface oid 1 pay st)))
               = sent tr ++ [m1; m2]).
Proof.
  intros Hlen Ho tid st1 targets n.
  destruct (read_uint_prefix pay Hlen) as [Hr Htid]. fold tid in Hr, Htid.
  destruct (encoded_header tid 0 [PyInt 800; PyInt 600; PyBytes []] Htid)
    as (m1 & E1 & H1); [reflexivity|].
  destruct (decode_encode_message oid 0 [TUint]
              [PyInt ((serial st + 1) mod 2 ^ 32)] Ho)
    as (m2 & E2 & D2 & _).
  { lia. }
  { cbn [args_ok arg_ok]. now rewrite mod_u32. }
  { reflexivity. }
  rewrite <- encode_message_int_wraps in E2.
  set (st2 := with_serial (serial st + 1) st1).
  assert (Hstep : forall r,
            try_focus st2 = r ->
            handle_xdg_surface oid 1 pay st
            = after [Issue (serial st + 1)]
                (bind (fun _ => r) (fun _ => ret [m1; m2]) st2)).
  { intros r Hf. unfold handle_xdg_surface. cbn [Z.eqb Pos.eqb].
    rewrite Hr. mstep. fold st1. rewrite E1. mstep.
    rewrite (bind_of_val _ _ _ _ _ _ (next_serial_spec st1)).
    change (serial st1) with (serial st). fold st2. rewrite E2. mstep.
    unfold bind at 1. rewrite Hf. reflexivity. }
  exists m1, m2. split; [exact H1|]. split; [exact D2|]. split.
  - intros Hidle.
    assert (Hrun : handle_xdg_surface oid 1 pay st
                   = (Val [m1; m2], st2, [Issue (serial st + 1)])).
    { rewrite (Hstep _ (try_focus_idle st2 Hidle)). reflexivity. }
    split; [exact Hrun|]. rewrite Hrun. reflexivity.
  - intros sid Hs Hz Hu.
    destruct (try_focus_run st2 sid Hs Hz Hu) as (trf & Hf & Hi & Hl & _ & Hd).
    assert (Hrun : handle_xdg_surface oid 1 pay st
                   = (Val [m1; m2],
                      with_serial (serial st + 1 + Z.of_nat n) st1,
                      Issue (serial st + 1) :: trf)).
    { rewrite (Hstep _ Hf). unfold bind, ret. cbn [after app].
      now rewrite app_nil_r. }
    exists trf. split; [exact Hrun|]. split; [exact Hi|].
    split; [exact Hl|]. split; [exact Hd|].
    rewrite Hrun. unfold send_responses, trace_of. cbn [snd].
    change (Issue (serial st + 1) :: trf)
      with ([Issue (serial st + 1)] ++ trf).
    now rewrite !sent_app, sent_sends.
Qed.

Lemma get_toplevel_configures_witness :
  exists m1 m2 tr,
    handle_xdg_surface 11 1 (le_split 4 12)
      (with_surfaces (dict_set 6 (Some 9)) two_keyboards)
    = (Val [m1; m2],
       with_serial
         (serial (with_surfaces (dict_set 6 (Some 9)) two_keyboards) + 1
          + Z.of_nat 2)
         (with_objects
            (dict_set (le_combine (firstn 4 (le_split 4 12)))
               ("xdg_toplevel"%string, 3))
            (with_surfaces (dict_set 6 (Some 9)) two_keyboards)),
       Issue 1 :: tr)
    /\ issued tr = [2; 3]
    /\ decoded_as [[TUint; TUint]; [TUint; TUint]] (sent tr)
       = [Some (4, 4, [PyInt 2; PyInt 6]); Some (5, 4, [PyInt 3; PyInt 6])]
    /\ decode_message [TUint] m2 = Some (11, 0, [PyInt 1])
    /\ sent (trace_of (send_responses
                         (handle_xdg_surface 11 1 (le_split 4 12)
                            (with_surfaces (dict_set 6 (Some 9))
                               two_keyboards))))
       = sent tr ++ [m1; m2].
Proof.
  assert (E : focus_targets
                (objects
                   (with_objects
                      (dict_set (le_combine (firstn 4 (le_split 4 12)))
                         ("xdg_toplevel"%string, 3))
                      (with_surfaces (dict_set 6 (Some 9)) two_keyboards)))
              = [(4, ("wl_keyboard"%string, 1));
                 (5, ("wl_keyboard"%string, 1))])
    by (vm_compute; reflexivity).
  assert (Hu : Forall (fun kv => is_u32 (fst kv) = true)
                 (focus_targets
                    (objects
                       (with_objects
                          (dict_set (le_combine (firstn 4 (le_split 4 12)))
                             ("xdg_toplevel"%string, 3))
                          (with_surfaces (dict_set 6 (Some 9))
                             two_keyboards))))).
  { rewrite E. repeat constructor. }
  destruct (get_toplevel_configures 11 (le_split 4 12)
              (with_surfaces (dict_set 6 (Some 9)) two_keyboards)
              ltac:(vm_compute; discriminate) eq_refl)
    as (m1 & m2 & _ & D2 & _ & Hfocus).
  destruct (Hfocus 6 eq_refl ltac:(discriminate) Hu)
    as (tr & Hrun & Hi & _ & Hd & Hw).
  rewrite E in Hrun, Hi, Hd.
  exists m1, m2, tr. split; [exact Hrun|]. split; [exact Hi|].
  split; [exact Hd|]. split; [exact D2 | exact Hw].
Defined.

(** ** Requests that are cut short *)

Lemma read_uint_some (pay : bytes) pos v pos' :
  0 <= pos -> read_uint pay pos = Some (v, pos') ->
  pos' = pos + 4 /\ pos + 4 <= len pay /\ 0 <= v.
Proof.
  intros Hp H. unfold read_uint in H.
  destruct (unpack_I (py_slice pay pos (pos + 4))) as [u |] eqn:E;
    [|discriminate].
  apply some_inj in H. apply pair_equal_spec in H. destruct H as [<- <-].
  pose proof (unpack_I_u32 _ _ E) as Hu. apply is_u32_range in Hu.
  split; [reflexivity|]. split; [|lia].
  unfold unpack_I in E.
  destruct (List.length (py_slice pay pos (pos + 4)) =? 4)%nat eqn:El;
    [|discriminate].
  apply Nat.eqb_eq in El. unfold py_slice, clip in El.
  rewrite length_skipn, length_firstn in El. unfold len in *.
  destruct (pos <? 0) eqn:E1; [apply Z.ltb_lt in E1; lia|].
  destruct (pos + 4 <? 0) eqn:E2; [apply Z.ltb_lt in E2; lia|].
  lia.
Qed.

Lemma read_int_some (pay : bytes) pos v pos' :
  0 <= pos -> read_int pay pos = Some (v, pos') ->
  pos' = pos + 4 /\ pos + 4 <= len pay.
Proof.
  intros Hp H. unfold read_int, unpack_i in H.
  destruct (unpack_I (py_slice pay pos (pos + 4))) as [u |] eqn:E;
    [|discriminate].
  apply some_inj in H. apply pair_equal_spec in H. destruct H as [_ <-].
  destruct (read_uint_some pay pos u (pos + 4) Hp) as (_ & Hl & _);
    [unfold read_uint; now rewrite E | split; [reflexivity | exact Hl]].
Qed.

Lemma read_string_some (pay : bytes) pos s pos' :
  0 <= pos -> read_string pay pos = Some (s, pos') ->
  pos + 4 <= pos' /\ pos + 4 <= len pay.
Proof.
  intros Hp H. unfold read_string in H.
  destruct (read_uint pay pos) as [[n off] |] eqn:E; [|discriminate].
  apply read_uint_some in E; [|exact Hp]. destruct E as (-> & Hl & Hn).
  destruct (decode_utf8 _); [|discriminate].
  apply some_inj in H. apply pair_equal_spec in H. destruct H as [_ <-].
  assert (0 <= (4 - n mod 4) mod 4) by (apply Z.mod_pos_bound; lia).
  lia.
Qed.

Ltac read_step :=
  match goal with
  | |- bind (lift (read_uint ?p ?k)) _ _ = _ =>
      let E := fresh "E" in
      destruct (read_uint p k) as [[? ?] |] eqn:E;
      [ apply read_uint_some in E; [destruct E as (-> & ? & ?) | lia];
        rewrite bind_lift_some; cbn beta iota
      | rewrite bind_lift_none; reflexivity ]
  | |- bind (lift (read_int ?p ?k)) _ _ = _ =>
      let E := fresh "E" in
      destruct (read_int p k) as [[? ?] |] eqn:E;
      [ apply read_int_some in E; [destruct E as (-> & ?) | lia];
        rewrite bind_lift_some; cbn beta iota
      | rewrite bind_lift_none; reflexivity ]
  | |- bind (lift (read_string ?p ?k)) _ _ = _ =>
      let E := fresh "E" in
      destruct (read_string p k) as [[? ?] |] eqn:E;
      [ apply read_string_some in E; [destruct E as (? & ?) | lia];
        rewrite bind_lift_some; cbn beta iota
      | rewrite bind_lift_none; reflexivity ]
  end.

(** X25: a request that creates an object or binds a global reads all
    its arguments before it touches the connection: with fewer payload
    bytes than it reads, the handler raises with the state as it was and
    nothing sent.  Requests to a [wl_surface] are the exception: that
    handler catches every error and always returns. *)
Theorem truncated_request_raises mmap now oid pay st :
  (forall iface op n,
     In (iface, op, n) reading_requests -> len pay < n ->
     dispatch mmap now iface oid op pay st = (Exc, st, []))
  /\ (forall op,
        exists res st' tr,
          dispatch mmap now "wl_surface" oid op pay st = (Val res, st', tr)).
Proof.
  split.
  - intros iface op n Hin Hlen. unfold reading_requests in Hin.
    cbn [In] in Hin.
    repeat (destruct Hin as [Hin | Hin];
            [apply pair_equal_spec in Hin; destruct Hin as [Hin <-];
             apply pair_equal_spec in Hin; destruct Hin as [<- <-];
             unfold dispatch; simpl (String.eqb _ _); cbn iota;
             unfold handle_display, handle_registry, handle_compositor,
               handle_subcompositor, handle_data_device_manager, handle_shm,
               handle_shm_pool, handle_xdg_wm_base, handle_xdg_surface,
               handle_seat;
             simpl (Z.eqb _ _); cbn iota;
             repeat read_step; exfalso; lia
            |]).
    contradiction.
  - intros op.
    change (dispatch mmap now "wl_surface" oid op pay)
      with (handle_surface now oid op pay).
    unfold handle_surface.
    match goal with
    | |- exists res st' tr, try_except ?m ?h st = _ =>
        assert (Hff : fuel_free m) by ff_all;
        specialize (Hff st); unfold try_except;
        destruct (m st) as [[[res | |] st1] tr1]
    end.
    + eauto.
    + unfold ret. cbn [after]. eauto.
    + cbn [fst] in Hff. contradiction.
Qed.

Lemma truncated_request_raises_witness :
  dispatch no_mmap 0 "wl_shm_pool" 8 0 (le_split 4 9 ++ le_split 4 0)
    one_surface
  = (Exc, one_surface, []).
Proof.
  apply (proj1 (truncated_request_raises no_mmap 0 8
                  (le_split 4 9 ++ le_split 4 0) one_surface)
           "wl_shm_pool"%string 0 24).
  - cbn [reading_requests In]. do 9 right. left. reflexivity.
  - vm_compute. reflexivity.
Defined.

(** ** A batch is handled message by message *)

Lemma py_slice_app_l {A} (l r : list A) i j :
  0 <= i -> 0 <= j <= len l -> py_slice (l ++ r) i j = py_slice l i j.
Proof.
  intros Hi Hj. pose proof (len_nonneg r).
  rewrite !py_slice_inside by (rewrite ?len_app; lia).
  rewrite firstn_app. unfold len in Hj.
  replace (Z.to_nat j - List.length l)%nat with 0%nat by lia.
  cbn [firstn]. now rewrite app_nil_r.
Qed.

Lemma decode_header_app msg rest :
  8 <= len msg ->
  fst (decode_header (msg ++ rest)) = fst (decode_header msg).
Proof.
  intros H. pose proof (len_nonneg rest). unfold decode_header.
  replace (len (msg ++ rest) <? HEADER_SIZE) with false
    by (symmetry; apply Z.ltb_ge; rewrite len_app; unfold HEADER_SIZE; lia).
  replace (len msg <? HEADER_SIZE) with false
    by (symmetry; apply Z.ltb_ge; unfold HEADER_SIZE; lia).
  rewrite !py_slice_app_l by lia.
  destruct (unpack_I (py_slice msg 0 4)); [|reflexivity].
  destruct (unpack_I (py_slice msg 4 8)); reflexivity.
Qed.

Lemma handle_loop_shift mmap now pre data fuel :
  forall off responses st,
    0 <= off ->
    handle_loop mmap now fuel (pre ++ data) (len pre + off) responses st
    = handle_loop mmap now fuel data off responses st.
Proof.
  pose proof (len_nonneg pre) as Hp. pose proof (len_nonneg data) as Hd.
  induction fuel as [| fuel IH]; intros off responses st Ho; [reflexivity|].
  cbn [handle_loop]. rewrite len_app.
  replace (len pre + off <? len pre + len data) with (off <? len data).
  2: { destruct (off <? len data) eqn:E; symmetry.
       - apply Z.ltb_lt in E. apply Z.ltb_lt. lia.
       - apply Z.ltb_ge in E. apply Z.ltb_ge. lia. }
  replace (len pre + len data - (len pre + off)) with (len data - off)
    by lia.
  rewrite (py_slice_shift pre data off (len data) Ho Hd).
  destruct (off <? len data); [|reflexivity].
  destruct (len data - off <? HEADER_SIZE); [reflexivity|].
  destruct (fst (decode_header (py_slice data off (len data))))
    as [[[object_id opcode] size] |]; [|reflexivity].
  destruct ((size <? 8) || (len data - off <? size)) eqn:E; [reflexivity|].
  apply orb_false_iff in E. destruct E as [E1 _]. apply Z.ltb_ge in E1.
  unfold HEADER_SIZE.
  rewrite <- !Z.add_assoc.
  rewrite (py_slice_shift pre data (off + 8) (off + size)) by lia.
  rewrite !bind_get.
  destruct (dict_get object_id (objects st)) as [[obj_type obj_version] |].
  - apply bind_ext. intros res st'. apply IH. lia.
  - apply IH. lia.
Qed.

(** X26: [handle_message] takes a batch apart message by message.  With
    a whole message at the head of the batch, for an object that is
    registered, the loop runs the handler of the object's interface on
    the payload of that message and then goes on with the rest of the
    batch exactly as if the rest had come alone, with the connection as
    the handler left it and its responses appended; when the handler
    raises, the rest is not looked at. *)
Theorem batch_handled_in_order mmap now fuel msg rest responses st
  oid op ty ver :
  8 <= len msg -> fst (decode_header msg) = Some (oid, op, len msg) ->
  dict_get oid (objects st) = Some (ty, ver) ->
  handle_loop mmap now (S fuel) (msg ++ rest) 0 responses st
  = (res <- dispatch mmap now ty oid op (py_slice msg 8 (len msg)) ;;
     handle_loop mmap now fuel rest 0 (responses ++ res)) st.
Proof.
  intros Hlen Hd Hobj. pose proof (len_nonneg rest) as Hr.
  rewrite (handle_loop_turn mmap now fuel (msg ++ rest) 0 responses st
             oid op (len msg) ty ver).
  - unfold HEADER_SIZE. rewrite !Z.add_0_l.
    rewrite py_slice_app_l by lia.
    apply bind_ext. intros res st'.
    replace (len msg) with (len msg + 0) at 1 by lia.
    apply handle_loop_shift. lia.
  - rewrite len_app. lia.
  - rewrite py_slice_all, decode_header_app by exact Hlen. exact Hd.
  - rewrite len_app. lia.
  - exact Hobj.
Qed.

Lemma batch_handled_in_order_witness :
  handle_loop no_mmap 0 2 (get_registry_request 2 ++ request 1 0 (le_split 4 3))
    0 [] (new_client stdio_proxy)
  = (res <- dispatch no_mmap 0 "wl_display" 1 1
              (py_slice (get_registry_request 2) 8
                 (len (get_registry_request 2))) ;;
     handle_loop no_mmap 0 1 (request 1 0 (le_split 4 3)) 0 ([] ++ res))
      (new_client stdio_proxy).
Proof.
  apply (batch_handled_in_order no_mmap 0 1 (get_registry_request 2)
           (request 1 0 (le_split 4 3)) [] (new_client stdio_proxy)
           1 1 "wl_display" 1).
  - vm_compute. discriminate.
  - reflexivity.
  - reflexivity.
Defined.

(** ** A pool id used twice *)

Lemma closed_fds_app tr1 tr2 :
  closed_fds (tr1 ++ tr2) = closed_fds tr1 ++ closed_fds tr2.
Proof. unfold closed_fds. apply flat_map_app. Qed.

Lemma closed_fds_pools (d : dict pool) x :
  In x (closed_fds (flat_map pool_release_events d)) ->
  exists k p, In (k, p) d /\ fst (fst p) = x.
Proof.
  induction d as [| [k [[fd mm] sz]] d IH]; cbn [flat_map]; [contradiction|].
  rewrite closed_fds_app. intros H. apply in_app_or in H.
  destruct H as [H | H].
  - exists k, (fd, mm, sz). split; [now left|].
    unfold pool_release_events in H.
    destruct (mm_truthy mm), (fd >=? 0); cbn in H; tauto.
  - destruct (IH H) as (k' & p & Hin & Hp). exists k', p.
    split; [now right | exact Hp].
Qed.

Lemma in_dict_set {V} k (v : V) d k' v' :
  NoDup (map fst d) -> In (k', v') (dict_set k v d) ->
  (k' = k /\ v' = v) \/ (k' <> k /\ In (k', v') d).
Proof.
  induction d as [| [k0 v0] d IH]; cbn [dict_set map fst]; intros Hnd Hin.
  - destruct Hin as [[= <- <-] | []]. now left.
  - inversion Hnd as [| ? ? Hnotin Hnd']; subst.
    destruct (k0 =? k) eqn:E.
    + apply Z.eqb_eq in E. subst k0. destruct Hin as [[= <- <-] | Hin].
      * now left.
      * right. split; [|now right].
        intros ->. apply Hnotin. apply (in_map fst) in Hin. exact Hin.
    + apply Z.eqb_neq in E. destruct Hin as [[= <- <-] | Hin].
      * right. split; [exact E | now left].
      * destruct (IH Hnd' Hin) as [? | [? ?]]; [now left|].
        right. split; [assumption | now right].
Qed.

(** X27: [create_pool] on an id that already names a pool puts the new
    pool in its place without closing the descriptor of the old one; the
    old descriptor is then no longer in the registry, so that [close] at
    the end of the connection does not close it either. *)
Theorem replaced_pool_leaks mmap oid pid size fd rest st fd0 mm0 sz0 :
  fds st = fd :: rest -> is_u32 pid = true -> is_u32 size = true ->
  dict_get pid (shm_pools st) = Some (fd0, mm0, sz0) ->
  NoDup (map fst (shm_pools st)) ->
  (forall k p, In (k, p) (shm_pools st) -> k <> pid -> fst (fst p) <> fd0) ->
  fd <> fd0 ->
  let out :=
    (handle_shm mmap oid 0 (le_split 4 pid ++ le_split 4 size) ;; close) st in
  fst (fst out) = Val tt
  /\ dict_get pid (shm_pools (state_of out)) = Some (fd, mmap fd size, size)
  /\ In SockClose (trace_of out)
  /\ ~ In fd0 (closed_fds (trace_of out)).
Proof.
  intros Hfds Hpid Hsize Hold Hnd Hothers Hne out.
  set (p := (fd, mmap fd size, size)).
  set (st1 := with_objects (dict_set pid ("wl_shm_pool"%string, 1))
                (with_shm_pools (dict_set pid p) (with_fds rest st))).
  assert (R1 : read_uint (le_split 4 pid ++ le_split 4 size) 0
               = Some (pid, 4)).
  { pose proof (read_uint_at [] pid (le_split 4 size)) as H.
    cbn [app] in H. rewrite len_nil in H. rewrite H.
    apply is_u32_range in Hpid. now rewrite Z.mod_small. }
  assert (R2 : read_uint (le_split 4 pid ++ le_split 4 size) 4
               = Some (size, 8)).
  { pose proof (read_uint_at (le_split 4 pid) size []) as H.
    rewrite app_nil_r, len_le_split in H. cbn [Z.of_nat Pos.of_succ_nat
      Pos.succ Z.add Pos.add] in H. rewrite H.
    apply is_u32_range in Hsize. now rewrite Z.mod_small. }
  assert (Hcreate :
            handle_shm mmap oid 0 (le_split 4 pid ++ le_split 4 size) st
            = (Val [], st1,
               match mmap fd size with Some _ => [Mmap fd] | None => [] end)).
  { unfold handle_shm. cbn [Z.eqb]. rewrite R1. mstep. rewrite R2. mstep.
    rewrite Hfds. mstep. unfold st1, p.
    destruct (mmap fd size) as [mm |]; mstep; reflexivity. }
  assert (Hout : out
                 = (Val tt, st1,
                    match mmap fd size with Some _ => [Mmap fd] | None => [] end
                      ++ flat_map pool_release_events (shm_pools st1)
                      ++ [SockClose])).
  { unfold out. rewrite (bind_of_val _ _ _ _ _ _ Hcreate).
    now rewrite close_releases_pools. }
  rewrite Hout. unfold state_of, trace_of. cbn [fst snd].
  split; [reflexivity|]. split; [|split].
  - unfold st1. cbn [shm_pools with_objects with_shm_pools].
    apply dict_get_set_same.
  - apply in_or_app. right. apply in_or_app. right. now left.
  - rewrite !closed_fds_app. intros Hin.
    apply in_app_or in Hin. destruct Hin as [Hin | Hin].
    { destruct (mmap fd size); cbn in Hin; exact Hin. }
    apply in_app_or in Hin. destruct Hin as [Hin | Hin]; [|exact Hin].
    apply closed_fds_pools in Hin. destruct Hin as (k & q & Hin & Hq).
    unfold st1 in Hin. cbn [shm_pools with_objects with_shm_pools with_fds]
      in Hin.
    apply in_dict_set in Hin; [|exact Hnd].
    destruct Hin as [[_ ->] | [Hk Hin]].
    + unfold p in Hq. cbn [fst] in Hq. now apply Hne.
    + exact (Hothers k q Hin Hk Hq).
Qed.

Lemma replaced_pool_leaks_witness :
  ~ In 33
      (closed_fds
         (trace_of
            ((handle_shm filled_mmap 7 0 (le_split 4 8 ++ le_split 4 16) ;;
              close) (with_fds [34] one_surface)))).
Proof.
  assert (Hnd : NoDup (map fst (shm_pools (with_fds [34] one_surface)))).
  { cbn. constructor; [tauto | constructor]. }
  assert (Ho : forall k p,
             In (k, p) (shm_pools (with_fds [34] one_surface)) ->
             k <> 8 -> fst (fst p) <> 33).
  { intros k p [[= <- <-] | []] Hk. now elim Hk. }
  exact (proj2 (proj2 (proj2
           (replaced_pool_leaks filled_mmap 7 8 16 34 []
              (with_fds [34] one_surface) 33 (Some (repeat Byte.xaa 32)) 32
              eq_refl eq_refl eq_refl eq_refl Hnd Ho ltac:(discriminate))))).
Defined.

(** ** Commit: what is written and when the release is sent *)





(** ** A pool created without a descriptor, and what follows *)










